(** * sorutakip: the progress aggregation and synchronisation core

    A shallow embedding of the study tracker's core logic:

    - [src/app/page.tsx], component [StudyTracker]: the per-date snapshot
      ([subjectProgress], [totalQuestions], [totalTarget]), its mutations
      ([updateQuestions], [updateTarget]), the derived percentages and the
      weekly and all-time rollups;
    - [lib/firestore-service.ts], class [FirestoreService] (the later of the
      two revisions, the one [page.tsx] is written against): the adapter
      over the remote document store.

    Counters and targets are JavaScript numbers holding integers; they are
    modelled as [Z].  A JavaScript object used as a dictionary is a [gmap]
    keyed by [string]; an array is a [list]. *)

From Stdlib Require Import ZArith QArith Qminmax Lia Ascii String.
From stdpp Require Import gmap strings list fin_maps sorting.

#[local] Set Warnings "-clear-no-such-hyp".
#[local] Open Scope Z_scope.

(** ** Data model *)

(** [interface SubjectData] of the service. *)
Module SubjectData.
Record t : Type := Build {
  name : string;
  icon : string;
  correct : Z;
  wrong : Z;
  empty : Z;
  target : Z;
  color : string
}.
End SubjectData.

(** The second parameter of [updateQuestions]:
    ["correct" | "wrong" | "empty"]. *)
Inductive QuestionType : Type := Correct | Wrong | Empty.

(** [subject[type]]: property read by key. *)
Definition getCount (type : QuestionType) (s : SubjectData.t) : Z :=
  match type with
  | Correct => SubjectData.correct s
  | Wrong => SubjectData.wrong s
  | Empty => SubjectData.empty s
  end.

(** [subject[type] = v]: property write by key; the other properties of
    the object are left as they are. *)
Definition setCount (type : QuestionType) (v : Z) (s : SubjectData.t)
  : SubjectData.t :=
  match type with
  | Correct =>
      SubjectData.Build (SubjectData.name s) (SubjectData.icon s)
        v (SubjectData.wrong s) (SubjectData.empty s)
        (SubjectData.target s) (SubjectData.color s)
  | Wrong =>
      SubjectData.Build (SubjectData.name s) (SubjectData.icon s)
        (SubjectData.correct s) v (SubjectData.empty s)
        (SubjectData.target s) (SubjectData.color s)
  | Empty =>
      SubjectData.Build (SubjectData.name s) (SubjectData.icon s)
        (SubjectData.correct s) (SubjectData.wrong s) v
        (SubjectData.target s) (SubjectData.color s)
  end.

(** [{...subject, correct: c, wrong: w, empty: e}] *)
Definition withCounts (c w e : Z) (s : SubjectData.t) : SubjectData.t :=
  SubjectData.Build (SubjectData.name s) (SubjectData.icon s) c w e
    (SubjectData.target s) (SubjectData.color s).

(** The questions answered for one subject,
    [subject.correct + subject.wrong + subject.empty]. *)
Definition answered (s : SubjectData.t) : Z :=
  SubjectData.correct s + SubjectData.wrong s + SubjectData.empty s.

(** [subjects.reduce((sum, subject) =>
       sum + subject.correct + subject.wrong + subject.empty, 0)]
    ([page.tsx] lines 107-110 and 189): a left fold from 0. *)
Definition sumQuestions (subjects : list SubjectData.t) : Z :=
  fold_left
    (fun sum subject =>
       sum + SubjectData.correct subject + SubjectData.wrong subject
       + SubjectData.empty subject)
    subjects 0.

(** [subjects.reduce((sum, subject) => sum + subject.target, 0)]. *)
Definition sumTargets (subjects : list SubjectData.t) : Z :=
  fold_left (fun sum subject => sum + SubjectData.target subject) subjects 0.

(** ** Mutating the snapshot *)

(** Lines 185-186 of [updateQuestions]:
<<
    const newProgress = [...subjectProgress]
    newProgress[subjectIndex][type] =
      Math.max(0, newProgress[subjectIndex][type] + change)
>>
    The copy is shallow and the subject object is updated in place, so the
    new array holds the updated subject at [subjectIndex] and the very same
    objects elsewhere.  When [subjectIndex] is not an index of the array,
    [newProgress[subjectIndex]] is [undefined] and the property read throws
    a [TypeError] before anything is written: [None]. *)
Definition bumpProgress (subjectProgress : list SubjectData.t)
    (subjectIndex : nat) (type : QuestionType) (change : Z)
  : option (list SubjectData.t) :=
  match subjectProgress !! subjectIndex with
  | Some subject =>
      Some (<[subjectIndex :=
                setCount type (Z.max 0 (getCount type subject + change))
                  subject]> subjectProgress)
  | None => None
  end.

(** A run of [updateQuestions] calls on one counter of one subject, the
    deltas taken from left to right; [None] as soon as one call throws. *)
Fixpoint bumpMany (subjectProgress : list SubjectData.t)
    (subjectIndex : nat) (type : QuestionType) (changes : list Z)
  : option (list SubjectData.t) :=
  match changes with
  | [] => Some subjectProgress
  | change :: rest =>
      match bumpProgress subjectProgress subjectIndex type change with
      | Some newProgress => bumpMany newProgress subjectIndex type rest
      | None => None
      end
  end.

(** The counter after a run of deltas: each call clamps, so the value is
    the left fold of [Math.max(0, old + change)]. *)
Definition clampRun (initial : Z) (changes : list Z) : Z :=
  fold_left (fun old change => Z.max 0 (old + change)) changes initial.

(** [sum(d)] of the specification: the plain sum of the deltas. *)
Definition sumDeltas (changes : list Z) : Z :=
  fold_right Z.add 0 changes.

(** The closed form the specification gives for the counter after the
    run: [max(0, initial + sum(d))]. *)
Definition clampOnce (initial : Z) (changes : list Z) : Z :=
  Z.max 0 (initial + sumDeltas changes).

(** Every delta is a button press, [-1] or [+1]. *)
Definition unitDeltas (changes : list Z) : Prop :=
  Forall (fun d => d = -1 \/ d = 1) changes.

(** No prefix of the run takes the unclamped value below zero. *)
Fixpoint staysNonNegative (initial : Z) (changes : list Z) : Prop :=
  match changes with
  | [] => True
  | d :: rest => 0 <= initial + d /\ staysNonNegative (initial + d) rest
  end.

(** ** Daily records *)

(** One value of [DailyProgress.subjects]:
    [{ correct, wrong, empty, total, target }].  The entries [page.tsx]
    writes carry no [target], so the field is optional. *)
Module DayEntry.
Record t : Type := Build {
  correct : Z;
  wrong : Z;
  empty : Z;
  total : Z;
  target : option Z
}.
End DayEntry.

(** [interface DailyProgress].  [totalTarget] is read back as [undefined]
    from a document written without it, hence optional; [timestamp] is the
    server's clock reading. *)
Module DailyProgress.
Record t : Type := Build {
  date : string;
  subjects : gmap string DayEntry.t;
  total : Z;
  totalTarget : option Z;
  userId : string;
  timestamp : nat
}.
End DailyProgress.

(** ** Rollups *)

(** The values of [allTimeStats] and [weeklyStats]:
    [{ correct, wrong, empty, total }]. *)
Module Stats.
Record t : Type := Build {
  correct : Z;
  wrong : Z;
  empty : Z;
  total : Z
}.
End Stats.

(** The stats object a subject of the snapshot starts with (lines 251-256
    and 282-287). *)
Definition statsOf (subject : SubjectData.t) : Stats.t :=
  Stats.Build (SubjectData.correct subject) (SubjectData.wrong subject)
    (SubjectData.empty subject)
    (SubjectData.correct subject + SubjectData.wrong subject
     + SubjectData.empty subject).

(** The four [+=] of lines 263-266 (and 296-299). *)
Definition addStats (cur : Stats.t) (data : DayEntry.t) : Stats.t :=
  Stats.Build (Stats.correct cur + DayEntry.correct data)
    (Stats.wrong cur + DayEntry.wrong data)
    (Stats.empty cur + DayEntry.empty data)
    (Stats.total cur + DayEntry.total data).

(** What a record without the subject adds. *)
Definition noEntry : DayEntry.t := DayEntry.Build 0 0 0 0 None.

(** [subjectProgress.forEach((subject) => { stats[subject.name] = {...} })]:
    a later subject of the same name overwrites an earlier one. *)
Definition seedStats (subjectProgress : list SubjectData.t)
  : gmap string Stats.t :=
  fold_left
    (fun stats subject =>
       <[SubjectData.name subject := statsOf subject]> stats)
    subjectProgress ∅.

(** The body of the inner [forEach]:
    [if (stats[subjectName]) { stats[subjectName].correct += ... }].
    A stats object is always truthy, so the test is a test of presence. *)
Definition addEntry (stats : gmap string Stats.t)
    (entry : string * DayEntry.t) : gmap string Stats.t :=
  match stats !! entry.1 with
  | Some cur => <[entry.1 := addStats cur entry.2]> stats
  | None => stats
  end.

(** [entries.forEach(([subjectName, data]) => ...)] over a list of
    entries. *)
Definition addEntries (stats : gmap string Stats.t)
    (entries : list (string * DayEntry.t)) : gmap string Stats.t :=
  fold_left addEntry entries stats.

(** [Object.entries(day.subjects).forEach(...)]: the entries of the
    object in some enumeration order, each key once.  ([addEntries_Permutation]
    below shows that the enumeration order is immaterial.) *)
Definition addDay (stats : gmap string Stats.t) (day : DailyProgress.t)
  : gmap string Stats.t :=
  addEntries stats (map_to_list (DailyProgress.subjects day)).

(** [calculateAllTimeStats] (lines 246-272), the state it closes over made
    explicit. *)
Definition calculateAllTimeStats (subjectProgress : list SubjectData.t)
    (dailyHistory : list DailyProgress.t) : gmap string Stats.t :=
  fold_left addDay dailyHistory (seedStats subjectProgress).

(** The entry of a record for a subject, [noEntry] when it has none. *)
Definition entryOf (subjectName : string) (day : DailyProgress.t)
  : DayEntry.t :=
  default noEntry (DailyProgress.subjects day !! subjectName).

(** The sum, field by field, of what the records of a history hold for a
    subject, on top of [cur]. *)
Definition addHistory (subjectName : string) (cur : Stats.t)
    (dailyHistory : list DailyProgress.t) : Stats.t :=
  fold_left (fun acc day => addStats acc (entryOf subjectName day))
    dailyHistory cur.

(** The last subject of the snapshot with the given name, the one whose
    counts the seed keeps. *)
Definition lastNamed (subjectName : string)
    (subjectProgress : list SubjectData.t) : option SubjectData.t :=
  fold_left
    (fun found subject =>
       if decide (SubjectData.name subject = subjectName)
       then Some subject else found)
    subjectProgress None.

(** The sum of one field over the entries a history holds for a subject;
    a record without the subject counts as zero. *)
Definition sumOver (field : DayEntry.t -> Z) (subjectName : string)
    (dailyHistory : list DailyProgress.t) : Z :=
  fold_right Z.add 0
    (map (fun day => field (entryOf subjectName day)) dailyHistory).

(** The rollup of a subject as the specification words it: the snapshot's
    counts plus, field by field, the sum over the records of the
    history. *)
Definition rollupOf (dailyHistory : list DailyProgress.t)
    (subject : SubjectData.t) : Stats.t :=
  let subjectName := SubjectData.name subject in
  Stats.Build
    (SubjectData.correct subject
     + sumOver DayEntry.correct subjectName dailyHistory)
    (SubjectData.wrong subject
     + sumOver DayEntry.wrong subjectName dailyHistory)
    (SubjectData.empty subject
     + sumOver DayEntry.empty subjectName dailyHistory)
    (answered subject + sumOver DayEntry.total subjectName dailyHistory).

(** ** Dates *)

Definition msPerDay : Z := 86400000.

(** The value of an ASCII decimal digit. *)
Definition digitOf (c : ascii) : option Z :=
  let n := Z.of_nat (nat_of_ascii c) in
  if (48 <=? n) && (n <=? 57) then Some (n - 48) else None.

(** The number a run of decimal digits denotes; [None] on any other
    character and on the empty run. *)
Fixpoint digitsFrom (acc : Z) (cs : list ascii) : option Z :=
  match cs with
  | [] => Some acc
  | c :: rest =>
      match digitOf c with
      | Some d => digitsFrom (10 * acc + d) rest
      | None => None
      end
  end.

Definition numberOf (cs : list ascii) : option Z :=
  match cs with
  | [] => None
  | _ => digitsFrom 0 cs
  end.

Definition isLeapYear (y : Z) : bool :=
  ((y mod 4 =? 0) && negb (y mod 100 =? 0)) || (y mod 400 =? 0).

Definition daysInMonth (y m : Z) : Z :=
  if m =? 2 then (if isLeapYear y then 29 else 28)
  else if (m =? 4) || (m =? 6) || (m =? 9) || (m =? 11) then 30
  else 31.

(** Days from 1970-01-01 to the civil date [y]-[m]-[d] of the proleptic
    Gregorian calendar (ECMAScript's [MakeDay]). *)
Definition daysFromCivil (y m d : Z) : Z :=
  let y' := if m <=? 2 then y - 1 else y in
  let era := y' / 400 in
  let yoe := y' - era * 400 in
  let mp := if 2 <? m then m - 3 else m + 9 in
  let doy := (153 * mp + 2) / 5 + d - 1 in
  let doe := yoe * 365 + yoe / 4 - yoe / 100 + doy in
  era * 146097 + doe - 719468.

(** [new Date(s).getTime()] for the strings the application stores, the
    date-only ISO form [YYYY-MM-DD], which ECMAScript reads as midnight UTC
    of that day.  [None] stands for an invalid date, whose time value is
    [NaN].  Strings of another form, and strings of this form that name no
    calendar day, are treated as invalid here; engines differ on some of
    them. *)
Definition parseDate (s : string) : option Z :=
  match list_ascii_of_string s with
  | [y1; y2; y3; y4; dash1; m1; m2; dash2; d1; d2] =>
      if decide (dash1 = "-"%char /\ dash2 = "-"%char) then
        match numberOf [y1; y2; y3; y4], numberOf [m1; m2],
              numberOf [d1; d2] with
        | Some y, Some m, Some d =>
            if (1 <=? m) && (m <=? 12) && (1 <=? d)
               && (d <=? daysInMonth y m)
            then Some (daysFromCivil y m d * msPerDay)
            else None
        | _, _, _ => None
        end
      else None
  | _ => None
  end.

(** The time zone of the browser, as ECMAScript's [Date] uses it:
    [offsetAtUtc t] is the offset of local time from UTC, in
    milliseconds, in effect at the instant [t], and [offsetAtLocal l] the
    offset in effect at the local time [l].  With daylight saving the
    offsets differ from one part of the year to the other. *)
Module TimeZone.
Record t : Type := Build {
  offsetAtUtc : Z -> Z;
  offsetAtLocal : Z -> Z
}.

(** A zone whose offset never changes, and UTC among them. *)
Definition fixed (offset : Z) : t :=
  Build (fun _ => offset) (fun _ => offset).

Definition utc : t := fixed 0.
End TimeZone.

(** ECMAScript's [LocalTime(t)] and [UTC(l)]. *)
Definition localTime (zone : TimeZone.t) (t : Z) : Z :=
  t + TimeZone.offsetAtUtc zone t.

Definition utcOfLocal (zone : TimeZone.t) (l : Z) : Z :=
  l - TimeZone.offsetAtLocal zone l.

(** [const weekAgo = new Date(); weekAgo.setDate(weekAgo.getDate() - 7)]
    (lines 275-276) for the current time [now] in milliseconds since the
    epoch.  [getDate] and [setDate] work on the local calendar fields:
    the local time is moved back seven calendar days, the time of day
    kept, and the result is read back as an instant with the offset in
    effect at that local time. *)
Definition weekAgo (zone : TimeZone.t) (now : Z) : Z :=
  utcOfLocal zone (localTime zone now - 7 * msPerDay).

(** By how much the local offset at [now] exceeds the one in effect seven
    local days earlier: zero unless the clocks were changed in between. *)
Definition offsetChange (zone : TimeZone.t) (now : Z) : Z :=
  TimeZone.offsetAtUtc zone now
  - TimeZone.offsetAtLocal zone (localTime zone now - 7 * msPerDay).

(** [new Date(day.date) >= weekAgo] (line 291): both sides become their
    time values; a comparison with [NaN] is false. *)
Definition inLastWeek (zone : TimeZone.t) (now : Z)
    (day : DailyProgress.t) : bool :=
  match parseDate (DailyProgress.date day) with
  | Some t => weekAgo zone now <=? t
  | None => false
  end.

(** [calculateWeeklyStats] (lines 274-305) at the time [now] in the time
    zone [zone]. *)
Definition calculateWeeklyStats (zone : TimeZone.t) (now : Z)
    (subjectProgress : list SubjectData.t)
    (dailyHistory : list DailyProgress.t) : gmap string Stats.t :=
  fold_left addDay (List.filter (inLastWeek zone now) dailyHistory)
    (seedStats subjectProgress).

(** An example of a zone with daylight saving: New York around the
    change of 2024-03-10, when local time went from UTC-5 to UTC-4 at
    07:00 UTC, 02:00 local standard time. *)
Definition newYork2024 : TimeZone.t :=
  TimeZone.Build
    (fun t => if t <? 1710054000000 then -18000000 else -14400000)
    (fun l => if l <? 1710036000000 then -18000000 else -14400000).

(** The calendar day (UTC), counted from the epoch, that an instant falls
    on. *)
Definition utcDay (t : Z) : Z := t / msPerDay.

(** The window as the specification words it: the record's date is no
    earlier than today minus seven days, the seventh day included. *)
Definition inLast7DaysSpec (now : Z) (day : DailyProgress.t) : bool :=
  match parseDate (DailyProgress.date day) with
  | Some t => utcDay now - 7 <=? utcDay t
  | None => false
  end.

(** The weekly rollup as the specification words it. *)
Definition weeklyRollupSpec (now : Z)
    (subjectProgress : list SubjectData.t)
    (dailyHistory : list DailyProgress.t) : gmap string Stats.t :=
  fold_left addDay (List.filter (inLast7DaysSpec now) dailyHistory)
    (seedStats subjectProgress).

(** ** Percentages *)

(** The values a JavaScript arithmetic expression over integers can take
    here: a finite number, an infinity or [NaN].  Finite values are kept as
    exact rationals; the rounding of IEEE 754 doubles is not modelled. *)
Inductive JsNumber : Type :=
  | Finite (q : Q)
  | PlusInfinity
  | MinusInfinity
  | NaN.

(** [a / b] on integer-valued numbers: division by zero does not throw, it
    gives [NaN] for [0 / 0] and an infinity of the sign of [a] otherwise. *)
Definition jsDiv (a b : Z) : JsNumber :=
  if b =? 0 then
    if a =? 0 then NaN
    else if 0 <? a then PlusInfinity else MinusInfinity
  else Finite (inject_Z a / inject_Z b)%Q.

(** [x * k] for a positive finite [k]. *)
Definition jsTimes (x : JsNumber) (k : Q) : JsNumber :=
  match x with
  | Finite q => Finite (q * k)%Q
  | PlusInfinity => PlusInfinity
  | MinusInfinity => MinusInfinity
  | NaN => NaN
  end.

(** [Math.min(x, k)] for a finite [k]: [NaN] is contagious. *)
Definition jsMin (x : JsNumber) (k : Q) : JsNumber :=
  match x with
  | Finite q => Finite (Qmin q k)
  | PlusInfinity => Finite k
  | MinusInfinity => MinusInfinity
  | NaN => NaN
  end.

(** [getProgressPercentage] (lines 239-242):
<<
    const total = subject.correct + subject.wrong + subject.empty
    return Math.min((total / subject.target) * 100, 100)
>> *)
Definition getProgressPercentage (subject : SubjectData.t) : JsNumber :=
  let total :=
    SubjectData.correct subject + SubjectData.wrong subject
    + SubjectData.empty subject in
  jsMin (jsTimes (jsDiv total (SubjectData.target subject)) 100) 100.

(** [overallProgress] (line 244):
    [totalTarget > 0 ? (totalQuestions / totalTarget) * 100 : 0]. *)
Definition overallProgress (totalQuestions totalTarget : Z) : JsNumber :=
  if 0 <? totalTarget
  then jsTimes (jsDiv totalQuestions totalTarget) 100
  else Finite 0.

(** The percentage as the specification words it:
    [min(100, 100 * (correct + wrong + empty) / target)], and 0 when the
    target is 0. *)
Definition percentageSpec (subject : SubjectData.t) : Q :=
  if SubjectData.target subject =? 0 then 0%Q
  else Qmin 100
         (100 * inject_Z (answered subject)
          / inject_Z (SubjectData.target subject))%Q.

(** ** The catalog document and the merge on load *)

(** [interface UserProgress]: the document of collection [userProgress]
    that holds the subjects with their targets. *)
Module UserProgress.
Record t : Type := Build {
  subjects : list SubjectData.t;
  totalTarget : Z;
  lastUpdated : nat;
  lastUpdateDate : option string
}.
End UserProgress.

(** [interface UserSettings]. *)
Module UserSettings.
Record t : Type := Build {
  subjects : list SubjectData.t;
  totalTarget : Z;
  lastUpdated : nat
}.
End UserSettings.

(** The callback of the [map] at lines 79-92:
<<
    const dateData = dateProgress.subjects[subject.name]
    return dateData ? { ...subject, correct: dateData.correct,
                        wrong: dateData.wrong, empty: dateData.empty }
                    : { ...subject, correct: 0, wrong: 0, empty: 0 }
>> *)
Definition mergeSubject (dateProgress : DailyProgress.t)
    (subject : SubjectData.t) : SubjectData.t :=
  match DailyProgress.subjects dateProgress !! SubjectData.name subject with
  | Some dateData =>
      withCounts (DayEntry.correct dateData) (DayEntry.wrong dateData)
        (DayEntry.empty dateData) subject
  | None => withCounts 0 0 0 subject
  end.

(** [finalSubjects] of [loadUserDataForDate] (lines 76-101). *)
Definition finalSubjects (userProgress : UserProgress.t)
    (dateProgress : option DailyProgress.t) : list SubjectData.t :=
  match dateProgress with
  | Some dp => map (mergeSubject dp) (UserProgress.subjects userProgress)
  | None => map (withCounts 0 0 0) (UserProgress.subjects userProgress)
  end.

(** The stored total of a catalog document agrees with its subjects'
    targets: what [initializeUserProgress] writes and [updateTarget]
    keeps. *)
Definition catalogConsistent (userProgress : UserProgress.t) : Prop :=
  UserProgress.totalTarget userProgress
  = sumTargets (UserProgress.subjects userProgress).

(** ** Effects: state and exceptions *)

(** What an [await]ed call can throw here: a failure of the remote store,
    or a [TypeError] of the language. *)
Inductive Error : Type := FirestoreError | TypeError.

Inductive Result (A : Type) : Type :=
  | Ok (a : A)
  | Throw (e : Error).
Arguments Ok {A} a.
Arguments Throw {A} e.

(** A computation over a state [S]: it ends normally or by an exception,
    and in both cases leaves a state behind. *)
Definition M (S A : Type) : Type := S -> Result A * S.

Definition ret {S A} (a : A) : M S A := fun s => (Ok a, s).

Definition bind {S A B} (m : M S A) (k : A -> M S B) : M S B :=
  fun s =>
    match m s with
    | (Ok a, s') => k a s'
    | (Throw e, s') => (Throw e, s')
    end.

Definition throw {S A} (e : Error) : M S A := fun s => (Throw e, s).

(** [try { m } catch (error) { handler(error) }] *)
Definition tryCatch {S A} (m : M S A) (handler : Error -> M S A) : M S A :=
  fun s =>
    match m s with
    | (Ok a, s') => (Ok a, s')
    | (Throw e, s') => handler e s'
    end.

(** [try { m } finally { cleanup }], for a cleanup that does not throw. *)
Definition tryFinally {S A} (m : M S A) (cleanup : S -> S) : M S A :=
  fun s => match m s with (r, s') => (r, cleanup s') end.

Definition gets {S A} (f : S -> A) : M S A := fun s => (Ok (f s), s).

Definition modify {S} (f : S -> S) : M S unit := fun s => (Ok tt, f s).

Notation "x <- m ;; k" := (bind m (fun x => k))
  (at level 100, m at next level, right associativity).
Notation "m ;;; k" := (bind m (fun _ => k))
  (at level 100, right associativity).

(** ** The remote store *)

(** The body of a write, as it is handed to [setDoc]. *)
Inductive WriteData : Type :=
  | ProgressData (subjects : list SubjectData.t) (totalTarget : Z)
  | SettingsData (subjects : list SubjectData.t) (totalTarget : Z)
  | DailyData (date : string) (subjects : gmap string DayEntry.t)
      (total : Z) (totalTarget : option Z) (userId : string).

(** A request to the Firestore SDK. *)
Inductive FsCall : Type :=
  | GetDoc (collection id : string)
  | SetDoc (collection id : string) (data : WriteData)
  | SetDocMerge (collection id : string) (data : WriteData)
  | GetDocs (collection userId : string) (limitCount : nat).

(** The store and its environment: the three collections the service
    uses, the server's clock, the client's current date (what
    [new Date().toISOString().split("T")[0]] gives), the outcomes of the
    requests still to come ([true]: the request fails; an exhausted script
    means success) and the requests made so far, oldest first.  The store
    is the environment of the program: what a request does to a
    collection (a plain [setDoc] replaces the document under its key, a
    [getDoc] answers the document or nothing) is the documented behaviour
    of the Firestore SDK, not code of the repository. *)
Module Firestore.
Record t : Type := Build {
  userProgress : gmap string UserProgress.t;
  userSettings : gmap string UserSettings.t;
  dailyHistory : gmap string DailyProgress.t;
  clock : nat;
  today : string;
  faults : list bool;
  calls : list FsCall
}.

Definition withUserProgress (f : gmap string UserProgress.t ->
    gmap string UserProgress.t) (db : t) : t :=
  Build (f (userProgress db)) (userSettings db) (dailyHistory db)
    (clock db) (today db) (faults db) (calls db).

Definition withUserSettings (f : gmap string UserSettings.t ->
    gmap string UserSettings.t) (db : t) : t :=
  Build (userProgress db) (f (userSettings db)) (dailyHistory db)
    (clock db) (today db) (faults db) (calls db).

Definition withDailyHistory (f : gmap string DailyProgress.t ->
    gmap string DailyProgress.t) (db : t) : t :=
  Build (userProgress db) (userSettings db) (f (dailyHistory db))
    (clock db) (today db) (faults db) (calls db).
End Firestore.

(** Does the environment make the next request fail? *)
Definition failing (db : Firestore.t) : bool :=
  match Firestore.faults db with
  | true :: _ => true
  | _ => false
  end.

(** The store once a request has been sent: the request is recorded, the
    server's clock has moved on and one outcome of the script is used
    up. *)
Definition sent (call : FsCall) (db : Firestore.t) : Firestore.t :=
  Firestore.Build (Firestore.userProgress db) (Firestore.userSettings db)
    (Firestore.dailyHistory db) (S (Firestore.clock db))
    (Firestore.today db) (tail (Firestore.faults db))
    (Firestore.calls db ++ [call]).

(** One round trip to the store; it throws if the environment says so. *)
Definition request (call : FsCall) : M Firestore.t unit :=
  fun db =>
    (if failing db then Throw FirestoreError else Ok tt, sent call db).

(** Modelled from the spec: the Firestore SDK's [setDoc(ref, data,
    { merge: true })] is a library outside the sources.  A merge-write
    overwrites only the fields present in the data and never deletes an
    unspecified field; the fields of a nested map are merged in the same
    way.  For one entry of [subjects]: the four counters are written,
    [target] only when given. *)
Definition mergeEntry (new old : DayEntry.t) : DayEntry.t :=
  DayEntry.Build (DayEntry.correct new) (DayEntry.wrong new)
    (DayEntry.empty new) (DayEntry.total new)
    (match DayEntry.target new with
     | Some t => Some t
     | None => DayEntry.target old
     end).

(** Modelled from the spec: the document a merge-write of daily data
    leaves, given the document stored before, if any. *)
Definition mergeDaily (old : option DailyProgress.t) (date : string)
    (subjects : gmap string DayEntry.t) (total : Z)
    (totalTarget : option Z) (userId : string) (timestamp : nat)
  : DailyProgress.t :=
  match old with
  | None =>
      DailyProgress.Build date subjects total totalTarget userId timestamp
  | Some doc =>
      DailyProgress.Build date
        (union_with (fun new old => Some (mergeEntry new old))
           subjects (DailyProgress.subjects doc))
        total
        (match totalTarget with
         | Some t => Some t
         | None => DailyProgress.totalTarget doc
         end)
        userId timestamp
  end.

(** The document id of a daily record: [`${userId}_${date}`]. *)
Definition dailyDocId (userId date : string) : string :=
  userId +:+ "_" +:+ date.


(** ** The store adapter: [class FirestoreService] *)

(** The argument of [saveDailyProgressForDate],
    [Omit<DailyProgress, 'userId' | 'timestamp'>]. *)
Module ProgressForDate.
Record t : Type := Build {
  date : string;
  subjects : gmap string DayEntry.t;
  total : Z;
  totalTarget : option Z
}.
End ProgressForDate.

(** [saveUserProgress]: a plain [setDoc], which replaces the document. *)
Definition saveUserProgress (userId : string)
    (subjects : list SubjectData.t) (totalTarget : Z)
  : M Firestore.t unit :=
  request (SetDoc "userProgress" userId (ProgressData subjects totalTarget))
  ;;; modify (fun db =>
        Firestore.withUserProgress
          (insert userId
             (UserProgress.Build subjects totalTarget (Firestore.clock db)
                (Some (Firestore.today db))))
          db).

(** [getUserProgress]: the document's data, or [null]. *)
Definition getUserProgress (userId : string)
  : M Firestore.t (option UserProgress.t) :=
  request (GetDoc "userProgress" userId)
  ;;; gets (fun db => Firestore.userProgress db !! userId).

(** [saveUserSettings]: the structure and targets, the counters reset. *)
Definition saveUserSettings (userId : string)
    (subjects : list SubjectData.t) (totalTarget : Z)
  : M Firestore.t unit :=
  let settingsSubjects := map (withCounts 0 0 0) subjects in
  request
    (SetDoc "userSettings" userId (SettingsData settingsSubjects totalTarget))
  ;;; modify (fun db =>
        Firestore.withUserSettings
          (insert userId
             (UserSettings.Build settingsSubjects totalTarget
                (Firestore.clock db)))
          db).

Definition getUserSettings (userId : string)
  : M Firestore.t (option UserSettings.t) :=
  request (GetDoc "userSettings" userId)
  ;;; gets (fun db => Firestore.userSettings db !! userId).

(** [saveDailyProgressForDate] (lines 369-384): a merge-write to the
    document [`${userId}_${date}`]; a failure is logged and thrown on. *)
Definition saveDailyProgressForDate (userId : string)
    (dailyProgress : ProgressForDate.t) : M Firestore.t unit :=
  tryCatch
    (let docId := dailyDocId userId (ProgressForDate.date dailyProgress) in
     request
       (SetDocMerge "dailyHistory" docId
          (DailyData (ProgressForDate.date dailyProgress)
             (ProgressForDate.subjects dailyProgress)
             (ProgressForDate.total dailyProgress)
             (ProgressForDate.totalTarget dailyProgress) userId))
     ;;; modify (fun db =>
           Firestore.withDailyHistory
             (fun docs =>
                <[docId :=
                    mergeDaily (docs !! docId)
                      (ProgressForDate.date dailyProgress)
                      (ProgressForDate.subjects dailyProgress)
                      (ProgressForDate.total dailyProgress)
                      (ProgressForDate.totalTarget dailyProgress)
                      userId (Firestore.clock db)]> docs)
             db))
    (fun error => throw error).

(** [getDailyProgressForDate] (lines 387-409): the record of the date or
    [null]; a failure is logged and answered with [null] as well. *)
Definition getDailyProgressForDate (userId dateString : string)
  : M Firestore.t (option DailyProgress.t) :=
  tryCatch
    (let docId := dailyDocId userId dateString in
     request (GetDoc "dailyHistory" docId)
     ;;; gets (fun db => Firestore.dailyHistory db !! docId))
    (fun error => ret None).

(** The request [saveDailyProgressForDate] makes. *)
Definition upsertCall (userId : string) (dailyProgress : ProgressForDate.t)
  : FsCall :=
  SetDocMerge "dailyHistory"
    (dailyDocId userId (ProgressForDate.date dailyProgress))
    (DailyData (ProgressForDate.date dailyProgress)
       (ProgressForDate.subjects dailyProgress)
       (ProgressForDate.total dailyProgress)
       (ProgressForDate.totalTarget dailyProgress) userId).

(** The document a successful [saveDailyProgressForDate] leaves under its
    key, in a store that has received the request. *)
Definition upserted (userId : string) (dailyProgress : ProgressForDate.t)
    (db : Firestore.t) : DailyProgress.t :=
  mergeDaily
    (Firestore.dailyHistory db
       !! dailyDocId userId (ProgressForDate.date dailyProgress))
    (ProgressForDate.date dailyProgress)
    (ProgressForDate.subjects dailyProgress)
    (ProgressForDate.total dailyProgress)
    (ProgressForDate.totalTarget dailyProgress)
    userId (Firestore.clock db).

(** The order of [orderBy('date', 'desc')]: dates are strings, compared
    as such. *)
Definition newerFirst (a b : DailyProgress.t) : Prop :=
  String.leb (DailyProgress.date b) (DailyProgress.date a) = true.

#[global] Instance newerFirst_dec a b : Decision (newerFirst a b).
Proof. unfold newerFirst. apply _. Defined.

(** Modelled from the spec: what the store answers to the query of
    [getUserDailyHistory],
    [where('userId', '==', userId), orderBy('date', 'desc'),
     limit(limitCount)];
    the query is run by Firestore, not by code of the repository. *)
Definition queryHistory (userId : string) (limitCount : nat)
    (docs : gmap string DailyProgress.t) : list DailyProgress.t :=
  take limitCount
    (merge_sort newerFirst
       (List.filter
          (fun doc => bool_decide (DailyProgress.userId doc = userId))
          (map snd (map_to_list docs)))).

(** [getUserDailyHistory] (lines 412-442): the newest records of the
    user; a failure is logged and answered with the empty list. *)
Definition getUserDailyHistory (userId : string) (limitCount : nat)
  : M Firestore.t (list DailyProgress.t) :=
  tryCatch
    (request (GetDocs "dailyHistory" userId limitCount)
     ;;; gets (fun db =>
           queryHistory userId limitCount (Firestore.dailyHistory db)))
    (fun error => ret []).

(** [defaultSubjects] of both initialisers. *)
Definition defaultSubjects : list SubjectData.t :=
  [ SubjectData.Build "Türkçe" "🇹🇷" 0 0 0 10 "bg-red-500";
    SubjectData.Build "Matematik" "🔢" 0 0 0 15 "bg-blue-500";
    SubjectData.Build "Sosyal Bilgiler" "🌍" 0 0 0 8 "bg-green-500";
    SubjectData.Build "Fen Bilimleri" "🔬" 0 0 0 12 "bg-purple-500";
    SubjectData.Build "İngilizce" "🇬🇧" 0 0 0 10 "bg-yellow-500";
    SubjectData.Build "Din Kültürü" "📿" 0 0 0 5 "bg-orange-500" ].

(** [initializeUserSettings] (lines 483-506). *)
Definition initializeUserSettings (userId : string) : M Firestore.t unit :=
  tryCatch
    (existingSettings <- getUserSettings userId ;;
     match existingSettings with
     | Some _ => ret tt
     | None =>
         let totalTarget := sumTargets defaultSubjects in
         saveUserSettings userId defaultSubjects totalTarget
     end)
    (fun error => throw error).

(** [initializeUserProgress] (lines 509-532). *)
Definition initializeUserProgress (userId : string) : M Firestore.t unit :=
  tryCatch
    (existingProgress <- getUserProgress userId ;;
     match existingProgress with
     | Some _ => ret tt
     | None =>
         let totalTarget := sumTargets defaultSubjects in
         saveUserProgress userId defaultSubjects totalTarget
     end)
    (fun error => throw error).

(** A run of [saveDailyProgressForDate] calls, in order; the run stops
    at the first call that throws. *)
Fixpoint saveDailyProgressMany (userId : string)
    (writes : list ProgressForDate.t) : M Firestore.t unit :=
  match writes with
  | [] => ret tt
  | dailyProgress :: rest =>
      saveDailyProgressForDate userId dailyProgress ;;;
      saveDailyProgressMany userId rest
  end.

(** Two entries agree on the four counters. *)
Definition sameCounters (a b : DayEntry.t) : Prop :=
  DayEntry.correct a = DayEntry.correct b
  /\ DayEntry.wrong a = DayEntry.wrong b
  /\ DayEntry.empty a = DayEntry.empty b
  /\ DayEntry.total a = DayEntry.total b.

(** A stored document reflects a written snapshot: every field the write
    specifies has the written value. *)
Definition reflects (userId : string) (written : ProgressForDate.t)
    (doc : DailyProgress.t) : Prop :=
  DailyProgress.date doc = ProgressForDate.date written
  /\ DailyProgress.total doc = ProgressForDate.total written
  /\ DailyProgress.userId doc = userId
  /\ (forall t, ProgressForDate.totalTarget written = Some t ->
       DailyProgress.totalTarget doc = Some t)
  /\ (forall subjectName e,
       ProgressForDate.subjects written !! subjectName = Some e ->
       exists e',
         DailyProgress.subjects doc !! subjectName = Some e'
         /\ sameCounters e' e
         /\ (forall t, DayEntry.target e = Some t ->
              DayEntry.target e' = Some t)).

(** A stored document keeps what a write on top of [old] did not
    specify: the total target, the entries of other subjects, and the
    target inside an entry. *)
Definition keepsUnspecified (old : DailyProgress.t)
    (written : ProgressForDate.t) (doc : DailyProgress.t) : Prop :=
  (ProgressForDate.totalTarget written = None ->
   DailyProgress.totalTarget doc = DailyProgress.totalTarget old)
  /\ (forall subjectName,
       ProgressForDate.subjects written !! subjectName = None ->
       DailyProgress.subjects doc !! subjectName
       = DailyProgress.subjects old !! subjectName)
  /\ (forall subjectName e o,
       ProgressForDate.subjects written !! subjectName = Some e ->
       DayEntry.target e = None ->
       DailyProgress.subjects old !! subjectName = Some o ->
       exists e',
         DailyProgress.subjects doc !! subjectName = Some e'
         /\ DayEntry.target e' = DayEntry.target o).

(** The targets of a list of subjects, in order. *)
Definition targetsOf (subjects : list SubjectData.t) : list Z :=
  map SubjectData.target subjects.

(** ** The component [StudyTracker] *)

(** The [useState] cells the core reads and writes. *)
Module Component.
Record t : Type := Build {
  subjectProgress : list SubjectData.t;
  dailyHistory : list DailyProgress.t;
  totalQuestions : Z;
  totalTarget : Z;
  dataLoading : bool;
  saveLoading : bool;
  selectedDate : string
}.

(** The state of the first render. *)
Definition initial (today : string) : t :=
  Build [] [] 0 60 true false today.

Definition setSubjectProgress (v : list SubjectData.t) (c : t) : t :=
  Build v (dailyHistory c) (totalQuestions c) (totalTarget c)
    (dataLoading c) (saveLoading c) (selectedDate c).
Definition setDailyHistory (v : list DailyProgress.t) (c : t) : t :=
  Build (subjectProgress c) v (totalQuestions c) (totalTarget c)
    (dataLoading c) (saveLoading c) (selectedDate c).
Definition setTotalQuestions (v : Z) (c : t) : t :=
  Build (subjectProgress c) (dailyHistory c) v (totalTarget c)
    (dataLoading c) (saveLoading c) (selectedDate c).
Definition setTotalTarget (v : Z) (c : t) : t :=
  Build (subjectProgress c) (dailyHistory c) (totalQuestions c) v
    (dataLoading c) (saveLoading c) (selectedDate c).
Definition setDataLoading (v : bool) (c : t) : t :=
  Build (subjectProgress c) (dailyHistory c) (totalQuestions c)
    (totalTarget c) v (saveLoading c) (selectedDate c).
Definition setSaveLoading (v : bool) (c : t) : t :=
  Build (subjectProgress c) (dailyHistory c) (totalQuestions c)
    (totalTarget c) (dataLoading c) v (selectedDate c).
Definition setSelectedDate (v : string) (c : t) : t :=
  Build (subjectProgress c) (dailyHistory c) (totalQuestions c)
    (totalTarget c) (dataLoading c) (saveLoading c) v.
End Component.

(** The component's state together with the store it talks to. *)
Module App.
Record t : Type := Build {
  ui : Component.t;
  db : Firestore.t
}.
End App.

(** A state setter of the component, as a step of the computation. *)
Definition setState (f : Component.t -> Component.t) : M App.t unit :=
  modify (fun app => App.Build (f (App.ui app)) (App.db app)).

(** A call of the service, run on the store of the application. *)
Definition service {A} (m : M Firestore.t A) : M App.t A :=
  fun app =>
    match m (App.db app) with
    | (r, db') => (r, App.Build (App.ui app) db')
    end.

(** [loadUserDataForDate] (lines 52-132) for the signed-in user
    [currentUser] ([None]: nobody is signed in).  The theme preference it
    also restores is outside the core and left out. *)
Definition loadUserDataForDate (currentUser : option string)
    (dateString : string) : M App.t unit :=
  match currentUser with
  | None => ret tt
  | Some uid =>
      tryFinally
        (tryCatch
           (setState (Component.setDataLoading true) ;;;
            found <- service (getUserProgress uid) ;;
            userProgress <-
              match found with
              | Some _ => ret found
              | None =>
                  tryCatch
                    (service (initializeUserProgress uid) ;;;
                     service (getUserProgress uid))
                    (fun initError => ret None)
              end ;;
            match userProgress with
            | Some userProgress =>
                dateProgress <-
                  service (getDailyProgressForDate uid dateString) ;;
                let final := finalSubjects userProgress dateProgress in
                setState (Component.setSubjectProgress final) ;;;
                setState
                  (Component.setTotalTarget
                     (UserProgress.totalTarget userProgress)) ;;;
                let total := sumQuestions final in
                setState (Component.setTotalQuestions total)
            | None => ret tt
            end ;;;
            history <- service (getUserDailyHistory uid 7) ;;
            setState (Component.setDailyHistory history))
           (fun error => ret tt))
        (fun app =>
           App.Build (Component.setDataLoading false (App.ui app))
             (App.db app))
  end.

(** The component after a load that has found the catalog
    [userProgress], the record [dateProgress] and the history [history]:
    the setters of [loadUserDataForDate], in order. *)
Definition loaded (userProgress : UserProgress.t)
    (dateProgress : option DailyProgress.t)
    (history : list DailyProgress.t) (ui : Component.t) : Component.t :=
  let final := finalSubjects userProgress dateProgress in
  Component.setDataLoading false
    (Component.setDailyHistory history
       (Component.setTotalQuestions (sumQuestions final)
          (Component.setTotalTarget (UserProgress.totalTarget userProgress)
             (Component.setSubjectProgress final
                (Component.setDataLoading true ui))))).

(** The snapshot proper (subjects, total and total target) and the
    selected date are the same in two states of the component. *)
Definition snapshotKept (before after : Component.t) : Prop :=
  Component.subjectProgress after = Component.subjectProgress before
  /\ Component.totalQuestions after = Component.totalQuestions before
  /\ Component.totalTarget after = Component.totalTarget before
  /\ Component.selectedDate after = Component.selectedDate before.

(** The sum over the subjects of [correct + wrong + empty]. *)
Definition answeredTotal (subjects : list SubjectData.t) : Z :=
  fold_right Z.add 0 (map answered subjects).

(** The invariant of the snapshot: [totalQuestions] is the sum over the
    subjects of the snapshot of [correct + wrong + empty]. *)
Definition totalsAgree (ui : Component.t) : Prop :=
  Component.totalQuestions ui
  = answeredTotal (Component.subjectProgress ui).


(** The entry [updateQuestions] stores for a subject (lines 201-209). *)
Definition entryFor (subject : SubjectData.t) : DayEntry.t :=
  DayEntry.Build (SubjectData.correct subject) (SubjectData.wrong subject)
    (SubjectData.empty subject)
    (SubjectData.correct subject + SubjectData.wrong subject
     + SubjectData.empty subject)
    None.

(** [progressForDate] of [updateQuestions] (lines 195-209): the [forEach]
    assigns [progressForDate.subjects[subject.name]] subject by subject. *)
Definition progressForDate (selectedDate : string)
    (newProgress : list SubjectData.t) (newTotal : Z) : ProgressForDate.t :=
  ProgressForDate.Build selectedDate
    (fold_left
       (fun subjects subject =>
          <[SubjectData.name subject := entryFor subject]> subjects)
       newProgress ∅)
    newTotal None.

(** [updateQuestions] (lines 184-217). *)
Definition updateQuestions (currentUser : option string)
    (subjectIndex : nat) (type : QuestionType) (change : Z)
  : M App.t unit :=
  subjectProgress <- gets (fun app => Component.subjectProgress (App.ui app)) ;;
  selectedDate <- gets (fun app => Component.selectedDate (App.ui app)) ;;
  match bumpProgress subjectProgress subjectIndex type change with
  | None => throw TypeError
  | Some newProgress =>
      setState (Component.setSubjectProgress newProgress) ;;;
      let newTotal := sumQuestions newProgress in
      setState (Component.setTotalQuestions newTotal) ;;;
      match currentUser with
      | Some uid =>
          tryCatch
            (service
               (saveDailyProgressForDate uid
                  (progressForDate selectedDate newProgress newTotal)))
            (fun error => ret tt)
      | None => ret tt
      end
  end.

(** The component after a successful [updateQuestions]: the two setters
    of lines 188 and 190. *)
Definition afterUpdate (newProgress : list SubjectData.t)
    (ui : Component.t) : Component.t :=
  Component.setTotalQuestions (sumQuestions newProgress)
    (Component.setSubjectProgress newProgress ui).

(** A run of [updateQuestions] calls on one counter of one subject, one
    call per delta, in order. *)
Fixpoint updateQuestionsMany (currentUser : option string)
    (subjectIndex : nat) (type : QuestionType) (changes : list Z)
  : M App.t unit :=
  match changes with
  | [] => ret tt
  | change :: rest =>
      updateQuestions currentUser subjectIndex type change ;;;
      updateQuestionsMany currentUser subjectIndex type rest
  end.


(** [subject.target = v] on the indexed subject. *)
Definition setTarget (v : Z) (s : SubjectData.t) : SubjectData.t :=
  SubjectData.Build (SubjectData.name s) (SubjectData.icon s)
    (SubjectData.correct s) (SubjectData.wrong s) (SubjectData.empty s)
    v (SubjectData.color s).

(** [updateTarget] (lines 220-228); [editingTarget] is presentation state
    and left out. *)
Definition updateTarget (subjectIndex : nat) (newTarget : Z)
  : M App.t unit :=
  subjectProgress <- gets (fun app => Component.subjectProgress (App.ui app)) ;;
  match subjectProgress !! subjectIndex with
  | None => throw TypeError
  | Some subject =>
      let newProgress :=
        <[subjectIndex := setTarget (Z.max 1 newTarget) subject]>
          subjectProgress in
      setState (Component.setSubjectProgress newProgress) ;;;
      let newTotalTarget := sumTargets newProgress in
      setState (Component.setTotalTarget newTotalTarget)
  end.

(** [saveProgress] of the saving effect (lines 144-155).  It is a closure
    of the render that scheduled it: [closure] is the component state of
    that render, the setters act on the current state. *)
Definition saveProgress (currentUser : option string)
    (closure : Component.t) : M App.t unit :=
  match currentUser with
  | None => ret tt
  | Some uid =>
      if Component.dataLoading closure
         || bool_decide (length (Component.subjectProgress closure) = 0%nat)
      then ret tt
      else
        tryFinally
          (tryCatch
             (setState (Component.setSaveLoading true) ;;;
              service
                (saveUserProgress uid (Component.subjectProgress closure)
                   (Component.totalTarget closure)))
             (fun error => ret tt))
          (fun app =>
             App.Build (Component.setSaveLoading false (App.ui app))
               (App.db app))
  end.

(** ** The session: user actions and the saving timer *)

(** The identifiers with a value in scope where [StudyTracker] hands the
    saving effect to React (line 160): the value imports of the module
    (lines 4-29), the component itself and the bindings of the function
    body above that line (lines 32-52).  The constants declared further
    down ([toggleTheme] to [weeklyStats]) are not initialised yet at that
    line, and none of them is named [loading]. *)
Definition studyTrackerScope : list string :=
  [ "useState"; "useEffect"; "useRouter";
    "Card"; "CardContent"; "CardHeader"; "CardTitle";
    "Button"; "Badge"; "Input";
    "Tabs"; "TabsContent"; "TabsList"; "TabsTrigger";
    "useAuth"; "firestoreService";
    "Plus"; "Minus"; "BookOpen"; "Target"; "TrendingUp"; "CheckCircle";
    "XCircle"; "Circle"; "Edit3"; "Calendar"; "BarChart3"; "Sun"; "Moon";
    "LogOut"; "User";
    "StudyTracker";
    "currentUser"; "logout"; "authLoading"; "router";
    "subjectProgress"; "setSubjectProgress";
    "dailyHistory"; "setDailyHistory";
    "totalQuestions"; "setTotalQuestions";
    "totalTarget"; "setTotalTarget";
    "editingTarget"; "setEditingTarget";
    "isDarkMode"; "setIsDarkMode";
    "dataLoading"; "setDataLoading";
    "saveLoading"; "setSaveLoading";
    "selectedDate"; "setSelectedDate";
    "loadUserDataForDate" ].

(** The dependency array of the saving effect (line 160), by
    identifier. *)
Definition savingEffectDependencies : list string :=
  ["currentUser"; "subjectProgress"; "totalTarget"; "loading"].

(** The dependencies that no binding in scope answers.  The hook's
    [loading] is bound as [authLoading] (line 32), so [loading] is one of
    them; the repository declares no global of that name either, and
    evaluating a free identifier throws a ReferenceError. *)
Definition unboundDependencies : list string :=
  List.filter (fun name => bool_decide (name ∉ studyTrackerScope))
    savingEffectDependencies.

(** Does a render of [StudyTracker] get past the dependency array, so
    that React runs the saving effect? *)
Definition savingEffectRuns : bool := bool_decide (unboundDependencies = []).

(** The saving effect (lines 143-160), where it runs, clears the timeout
    of its previous run and sets a new one of 1000 ms for [saveProgress]:
    at most one timeout is pending, kept with the time left and the state
    its closure has captured.  A render that throws on the dependency
    array runs no effect: it sets no timeout and clears none.  Time
    passes only in [Wait] events, and a request to the store is taken to
    be issued at the instant of the action that makes it. *)
Module Session.
Record t : Type := Build {
  app : App.t;
  timer : option (Z * Component.t)
}.
End Session.

Definition debounceMs : Z := 1000.

Inductive Event : Type :=
  | Click (subjectIndex : nat) (type : QuestionType) (change : Z)
  | Wait (ms : Z).

(** One event of a session of the signed-in user [currentUser]. *)
Definition step (currentUser : option string) (s : Session.t)
    (ev : Event) : Session.t :=
  match ev with
  | Click subjectIndex type change =>
      match updateQuestions currentUser subjectIndex type change
              (Session.app s) with
      | (Ok _, app') =>
          (* a new [subjectProgress] array: the component renders again *)
          if savingEffectRuns
          then Session.Build app' (Some (debounceMs, App.ui app'))
          else Session.Build app' (Session.timer s)
      | (Throw _, app') => Session.Build app' (Session.timer s)
      end
  | Wait ms =>
      match Session.timer s with
      | Some (remaining, closure) =>
          if remaining <=? ms then
            Session.Build
              (saveProgress currentUser closure (Session.app s)).2 None
          else Session.Build (Session.app s) (Some (remaining - ms, closure))
      | None => s
      end
  end.

Definition run (currentUser : option string) (s : Session.t)
    (events : list Event) : Session.t :=
  fold_left (step currentUser) events s.



(** The upsert [updateQuestions] issues for the snapshot of a component
    state. *)
Definition upsertOf (userId : string) (ui : Component.t) : FsCall :=
  upsertCall userId
    (progressForDate (Component.selectedDate ui)
       (Component.subjectProgress ui) (Component.totalQuestions ui)).

(** The write of the progress document that the timer issues for a
    component state. *)
Definition progressSaveOf (userId : string) (ui : Component.t) : FsCall :=
  SetDoc "userProgress" userId
    (ProgressData (Component.subjectProgress ui) (Component.totalTarget ui)).


(** ** Editing a target *)

(** [Number.parseInt(value) || 1] for the outcome [parsed] of the
    built-in [parseInt] ([None]: [NaN]): [NaN] and [0] are falsy and give
    1. *)
Definition orOne (parsed : option Z) : Z :=
  match parsed with
  | Some n => if n =? 0 then 1 else n
  | None => 1
  end.

(** [handleTargetKeyPress] (lines 230-237), for the built-in [parseInt]
    given as a function.  [Escape] only closes the editor
    ([editingTarget], presentation state); other keys do nothing. *)
Definition handleTargetKeyPress (parseInt : string -> option Z)
    (key : string) (subjectIndex : nat) (value : string) : M App.t unit :=
  if decide (key = "Enter") then
    let newTarget := orOne (parseInt value) in
    updateTarget subjectIndex newTarget
  else ret tt.

(** Every target of a list of subjects is at least 1. *)
Definition targetsPositive (subjects : list SubjectData.t) : Prop :=
  Forall (fun subject => 1 <= SubjectData.target subject) subjects.

(** The total target of the component is the sum of its subjects'
    targets. *)
Definition targetsAgree (ui : Component.t) : Prop :=
  Component.totalTarget ui = sumTargets (Component.subjectProgress ui).

(** ** Accuracy *)

(** The stats shown for a subject in the weekly and all-time views
    (lines 609 and 669):
    [stats[subject.name] || { correct: 0, wrong: 0, empty: 0, total: 0 }]. *)
Definition statsFor (stats : gmap string Stats.t) (subject : SubjectData.t)
  : Stats.t :=
  default (Stats.Build 0 0 0 0) (stats !! SubjectData.name subject).

(** [accuracy] of the weekly and all-time views (lines 610 and 670):
    [stats.total > 0 ? (stats.correct / stats.total) * 100 : 0]. *)
Definition accuracy (stats : Stats.t) : JsNumber :=
  if 0 <? Stats.total stats
  then jsTimes (jsDiv (Stats.correct stats) (Stats.total stats)) 100
  else Finite 0.

(** Every entry of every record of a history has a correct count that is
    not negative and not above its total. *)
Definition historySound (dailyHistory : list DailyProgress.t) : Prop :=
  Forall
    (fun day =>
       map_Forall
         (fun _ e => 0 <= DayEntry.correct e <= DayEntry.total e)
         (DailyProgress.subjects day))
    dailyHistory.

(** ** Structure of a subject list *)

(** The subjects with their counters blanked: names, icons, targets and
    colours, in order. *)
Definition structureOf (subjects : list SubjectData.t)
  : list SubjectData.t :=
  map (withCounts 0 0 0) subjects.

(** ** Histories with sound counters *)

(** No entry of any record of a history has a negative field. *)
Definition historyNonNegative (dailyHistory : list DailyProgress.t) : Prop :=
  Forall
    (fun day =>
       map_Forall
         (fun _ e => 0 <= DayEntry.correct e /\ 0 <= DayEntry.wrong e
                     /\ 0 <= DayEntry.empty e /\ 0 <= DayEntry.total e)
         (DailyProgress.subjects day))
    dailyHistory.

(** The total of every entry of every record is the sum of its three
    counters, as in the entries [updateQuestions] writes. *)
Definition historyTotalsAgree (dailyHistory : list DailyProgress.t) : Prop :=
  Forall
    (fun day =>
       map_Forall
         (fun _ e =>
            DayEntry.total e
            = DayEntry.correct e + DayEntry.wrong e + DayEntry.empty e)
         (DailyProgress.subjects day))
    dailyHistory.

(** One stats object is field by field at most another. *)
Definition statsLe (a b : Stats.t) : Prop :=
  Stats.correct a <= Stats.correct b
  /\ Stats.wrong a <= Stats.wrong b
  /\ Stats.empty a <= Stats.empty b
  /\ Stats.total a <= Stats.total b.

(** ** The check of the environment ([lib/firebase.ts]) *)

(** The keys of [requiredEnvVars], in the order of the object literal.
    The measurement id is read into the configuration but is not among
    them. *)
Definition requiredKeys : list string :=
  [ "NEXT_PUBLIC_FIREBASE_API_KEY";
    "NEXT_PUBLIC_FIREBASE_AUTH_DOMAIN";
    "NEXT_PUBLIC_FIREBASE_PROJECT_ID";
    "NEXT_PUBLIC_FIREBASE_STORAGE_BUCKET";
    "NEXT_PUBLIC_FIREBASE_MESSAGING_SENDER_ID";
    "NEXT_PUBLIC_FIREBASE_APP_ID" ].

(** [requiredEnvVars] for the environment [env] ([process.env]: a
    variable that is not set reads as [undefined]). *)
Definition requiredEnvVars (env : gmap string string)
  : list (string * option string) :=
  map (fun key => (key, env !! key)) requiredKeys.

(** [!value] for a string or [undefined]: the empty string and
    [undefined] are falsy. *)
Definition isFalsy (value : option string) : bool :=
  match value with
  | None => true
  | Some EmptyString => true
  | Some _ => false
  end.

(** [Object.entries(requiredEnvVars).filter(([key, value]) => !value)
       .map(([key]) => key)] *)
Definition missingVars (env : gmap string string) : list string :=
  map fst (List.filter (fun entry => isFalsy entry.2) (requiredEnvVars env)).

(** [parts.join(sep)] *)
Fixpoint joinWith (sep : string) (parts : list string) : string :=
  match parts with
  | [] => ""
  | [part] => part
  | part :: rest => part +:+ sep +:+ joinWith sep rest
  end.

(** The message of the error the module throws while loading, [None]
    when it loads:
<<
    if (missingVars.length > 0) { throw new Error(`Missing ...`) }
>> *)
Definition missingVarsError (env : gmap string string) : option string :=
  match missingVars env with
  | [] => None
  | missing =>
      Some ("Missing required Firebase environment variables: "
            +:+ joinWith ", " missing
            +:+ ". Please check your .env.local file.")
  end.

(** ** Document keys *)

(** The string has no underscore. *)
Fixpoint noUnderscore (s : string) : Prop :=
  match s with
  | EmptyString => True
  | String c rest => c <> "_"%char /\ noUnderscore rest
  end.
(** ** Properties of the mutation *)

Section Counter.

Lemma getCount_setCount type v s : getCount type (setCount type v s) = v.
Proof. by destruct type. Qed.

Lemma getCount_setCount_ne type type' v s :
  type <> type' -> getCount type' (setCount type v s) = getCount type' s.
Proof. by destruct type, type'. Qed.

Lemma name_setCount type v s :
  SubjectData.name (setCount type v s) = SubjectData.name s.
Proof. by destruct type. Qed.

Lemma target_setCount type v s :
  SubjectData.target (setCount type v s) = SubjectData.target s.
Proof. by destruct type. Qed.

Lemma bumpProgress_length sp i type change sp' :
  bumpProgress sp i type change = Some sp' -> length sp' = length sp.
Proof.
  unfold bumpProgress. destruct (sp !! i); [|done].
  intros [= <-]. apply length_insert.
Qed.

Lemma bumpProgress_lookup sp i type change sp' s :
  sp !! i = Some s ->
  bumpProgress sp i type change = Some sp' ->
  sp' !! i
  = Some (setCount type (Z.max 0 (getCount type s + change)) s).
Proof.
  unfold bumpProgress. intros Hs. rewrite Hs. intros [= <-].
  apply list_lookup_insert_eq. by eapply lookup_lt_Some.
Qed.

Lemma bumpProgress_lookup_ne sp i j type change sp' :
  i <> j ->
  bumpProgress sp i type change = Some sp' -> sp' !! j = sp !! j.
Proof.
  unfold bumpProgress. destruct (sp !! i); [|done].
  intros Hne [= <-]. by apply list_lookup_insert_ne.
Qed.

Lemma bumpProgress_is_Some sp i type change :
  is_Some (sp !! i) -> is_Some (bumpProgress sp i type change).
Proof. unfold bumpProgress. intros [s ->]. eauto. Qed.

(** The run on the array is the clamped fold on the one counter. *)
Lemma bumpMany_counter changes : forall sp i type s,
  sp !! i = Some s ->
  exists sp' s',
    bumpMany sp i type changes = Some sp'
    /\ sp' !! i = Some s'
    /\ getCount type s' = clampRun (getCount type s) changes
    /\ length sp' = length sp.
Proof.
  induction changes as [|d rest IH]; intros sp i type s Hs.
  - exists sp, s. by unfold clampRun.
  - destruct (bumpProgress_is_Some sp i type d) as [sp1 Hsp1]; [by eauto|].
    pose proof (bumpProgress_lookup _ _ _ _ _ _ Hs Hsp1) as Hi.
    destruct (IH _ _ type _ Hi) as (sp' & s' & Hrun & Hl & Hc & Hlen).
    exists sp', s'. simpl. rewrite Hsp1. split; [done|]. split; [done|].
    split.
    + by rewrite Hc, getCount_setCount.
    + rewrite Hlen. by eapply bumpProgress_length.
Qed.

Lemma clampRun_cons initial d rest :
  clampRun initial (d :: rest) = clampRun (Z.max 0 (initial + d)) rest.
Proof. done. Qed.

Lemma clampRun_nonneg changes : forall initial,
  0 <= initial -> 0 <= clampRun initial changes.
Proof.
  induction changes as [|d rest IH]; intros initial Hi; [done|].
  rewrite clampRun_cons. apply IH. lia.
Qed.

Lemma clampRun_mono changes : forall a b,
  a <= b -> clampRun a changes <= clampRun b changes.
Proof.
  induction changes as [|d rest IH]; intros a b Hab; [done|].
  rewrite !clampRun_cons. apply IH. lia.
Qed.

Lemma clampRun_ge_unclamped changes : forall initial,
  initial + sumDeltas changes <= clampRun initial changes.
Proof.
  induction changes as [|d rest IH]; intros initial.
  - unfold clampRun; simpl. lia.
  - rewrite clampRun_cons; simpl.
    specialize (IH (Z.max 0 (initial + d))). lia.
Qed.

Lemma clampRun_lower_bound initial changes :
  0 <= initial -> clampOnce initial changes <= clampRun initial changes.
Proof.
  intros Hi. unfold clampOnce.
  pose proof (clampRun_nonneg changes initial Hi).
  pose proof (clampRun_ge_unclamped changes initial). lia.
Qed.

Lemma clampRun_exact changes : forall initial,
  0 <= initial -> staysNonNegative initial changes ->
  clampRun initial changes = clampOnce initial changes.
Proof.
  induction changes as [|d rest IH]; intros initial Hi Hs.
  - unfold clampRun, clampOnce; simpl. lia.
  - destruct Hs as [Hd Hrest]. rewrite clampRun_cons.
    rewrite Z.max_r; [|done]. rewrite IH; [|done..].
    unfold clampOnce; simpl. f_equal. lia.
Qed.

End Counter.

(** ** The effect of [updateQuestions] on the component *)

Section UpdateQuestions.

(** A call on a valid index ends normally, whatever the store does, and
    leaves the bumped array and its total in the component. *)
Lemma updateQuestions_ok currentUser i type change app newProgress :
  bumpProgress (Component.subjectProgress (App.ui app)) i type change
  = Some newProgress ->
  exists db',
    updateQuestions currentUser i type change app
    = (Ok tt, App.Build (afterUpdate newProgress (App.ui app)) db').
Proof.
  intros Hb. unfold updateQuestions, bind, gets. rewrite Hb.
  unfold setState, modify; simpl.
  destruct currentUser as [uid|]; [|by eexists].
  unfold tryCatch, service; simpl.
  destruct (saveDailyProgressForDate _ _ _) as [[[]|e] db']; by eexists.
Qed.

(** A call on an index outside the array throws and changes nothing. *)
Lemma updateQuestions_throw currentUser i type change app :
  bumpProgress (Component.subjectProgress (App.ui app)) i type change
  = None ->
  updateQuestions currentUser i type change app = (Throw TypeError, app).
Proof.
  intros Hb. unfold updateQuestions, bind, gets. by rewrite Hb.
Qed.

Lemma updateQuestionsMany_bumpMany currentUser i type changes :
  forall app sp',
    bumpMany (Component.subjectProgress (App.ui app)) i type changes
    = Some sp' ->
    exists app',
      updateQuestionsMany currentUser i type changes app = (Ok tt, app')
      /\ Component.subjectProgress (App.ui app') = sp'.
Proof.
  induction changes as [|d rest IH]; intros app sp' Hrun; simpl in *.
  - injection Hrun as <-. by exists app.
  - destruct (bumpProgress _ i type d) as [np|] eqn:Hb; [|done].
    destruct (updateQuestions_ok currentUser _ _ _ _ _ Hb) as [db' Hu].
    unfold bind. rewrite Hu.
    apply (IH (App.Build (afterUpdate np (App.ui app)) db')). exact Hrun.
Qed.

End UpdateQuestions.

(** C3, as the specification states it, fails: a decrement at zero is
    absorbed, so a later increment is not cancelled by it.  From 0, the
    presses [-1] then [+1] leave 1, where [max(0, 0 + (-1 + 1))] is 0. *)
Lemma updateQuestions_closed_form_fails :
  let matematik :=
    SubjectData.Build "Matematik" "🔢" 5 0 0 15 "bg-blue-500" in
  let app :=
    App.Build (Component.Build [matematik] [] 5 15 false false "2024-01-15")
      (Firestore.Build ∅ ∅ ∅ 0 "2024-01-15" [] []) in
  unitDeltas [-1; 1]
  /\ 0 <= getCount Wrong matematik
  /\ exists app' s',
       updateQuestionsMany (Some "u1") 0 Wrong [-1; 1] app = (Ok tt, app')
       /\ Component.subjectProgress (App.ui app') !! 0%nat = Some s'
       /\ getCount Wrong s' = 1
       /\ clampOnce (getCount Wrong matematik) [-1; 1] = 0
       /\ getCount Wrong s' <> clampOnce (getCount Wrong matematik) [-1; 1].
Proof.
  simpl. split; [repeat (constructor; [lia|]); constructor|]. split; [done|].
  eexists _, _. split; [vm_compute; reflexivity|].
  split; [reflexivity|]. by vm_compute.
Qed.

(** C3 (amended): every [updateQuestions] call on a counter replaces it by
    [Math.max(0, old + change)], so after a run of presses (of [-1] and
    [+1], or of any other deltas) the counter is
    the fold of these clamped steps; it is never negative, it is at least
    [max(0, initial + sum(d))], and it equals [max(0, initial + sum(d))]
    whenever no prefix of the run takes [initial + sum] below zero. *)
Theorem updateQuestions_counter currentUser app i type s changes :
  Component.subjectProgress (App.ui app) !! i = Some s ->
  0 <= getCount type s ->
  exists app' s',
    updateQuestionsMany currentUser i type changes app = (Ok tt, app')
    /\ Component.subjectProgress (App.ui app') !! i = Some s'
    /\ getCount type s' = clampRun (getCount type s) changes
    /\ 0 <= getCount type s'
    /\ clampOnce (getCount type s) changes <= getCount type s'
    /\ (staysNonNegative (getCount type s) changes ->
        getCount type s' = clampOnce (getCount type s) changes).
Proof.
  intros Hs Hinit.
  destruct (bumpMany_counter changes _ i type s Hs)
    as (sp' & s' & Hrun & Hl & Hc & _).
  destruct (updateQuestionsMany_bumpMany currentUser i type changes app sp'
              Hrun)
    as (app' & Happ & Hsp).
  exists app', s'. rewrite Hsp, Hc.
  split; [done|]. split; [done|]. split; [done|].
  split; [by apply clampRun_nonneg|].
  split; [by apply clampRun_lower_bound|].
  intros Hstay. by apply clampRun_exact.
Qed.

Lemma updateQuestions_counter_witness :
  let matematik :=
    SubjectData.Build "Matematik" "🔢" 5 2 0 15 "bg-blue-500" in
  let app :=
    App.Build (Component.Build [matematik] [] 7 15 false false "2024-01-15")
      (Firestore.Build ∅ ∅ ∅ 0 "2024-01-15" [] []) in
  exists app' s',
    updateQuestionsMany (Some "u1") 0 Wrong [-1; -1; -1; 1] app = (Ok tt, app')
    /\ Component.subjectProgress (App.ui app') !! 0%nat = Some s'
    /\ getCount Wrong s' = clampRun 2 [-1; -1; -1; 1]
    /\ 0 <= getCount Wrong s'
    /\ clampOnce 2 [-1; -1; -1; 1] <= getCount Wrong s'
    /\ (staysNonNegative 2 [-1; -1; -1; 1] ->
        getCount Wrong s' = clampOnce 2 [-1; -1; -1; 1]).
Proof.
  intros matematik app.
  apply (updateQuestions_counter (Some "u1") app 0%nat Wrong matematik
           [-1; -1; -1; 1]).
  - reflexivity.
  - simpl. lia.
Defined.

(** ** What each call of the service does *)

Section ServiceRuns.

Lemma failing_sent_nil call db :
  Firestore.faults db = [] -> Firestore.faults (sent call db) = [].
Proof. unfold sent; simpl. by intros ->. Qed.

Lemma failing_nil db : Firestore.faults db = [] -> failing db = false.
Proof. unfold failing. by intros ->. Qed.

Lemma getUserProgress_run userId db :
  getUserProgress userId db
  = (if failing db then Throw FirestoreError
     else Ok (Firestore.userProgress db !! userId),
     sent (GetDoc "userProgress" userId) db).
Proof.
  unfold getUserProgress, bind, request, gets.
  by destruct (failing db).
Qed.

Lemma getUserSettings_run userId db :
  getUserSettings userId db
  = (if failing db then Throw FirestoreError
     else Ok (Firestore.userSettings db !! userId),
     sent (GetDoc "userSettings" userId) db).
Proof.
  unfold getUserSettings, bind, request, gets.
  by destruct (failing db).
Qed.

Lemma saveUserProgress_run userId subjects totalTarget db :
  saveUserProgress userId subjects totalTarget db
  = let db1 :=
      sent (SetDoc "userProgress" userId (ProgressData subjects totalTarget))
        db in
    if failing db then (Throw FirestoreError, db1)
    else (Ok tt,
          Firestore.withUserProgress
            (insert userId
               (UserProgress.Build subjects totalTarget
                  (Firestore.clock db1) (Some (Firestore.today db1))))
            db1).
Proof.
  unfold saveUserProgress, bind, request, modify.
  by destruct (failing db).
Qed.

Lemma saveUserSettings_run userId subjects totalTarget db :
  saveUserSettings userId subjects totalTarget db
  = let settingsSubjects := map (withCounts 0 0 0) subjects in
    let db1 :=
      sent (SetDoc "userSettings" userId
              (SettingsData settingsSubjects totalTarget)) db in
    if failing db then (Throw FirestoreError, db1)
    else (Ok tt,
          Firestore.withUserSettings
            (insert userId
               (UserSettings.Build settingsSubjects totalTarget
                  (Firestore.clock db1)))
            db1).
Proof.
  unfold saveUserSettings, bind, request, modify.
  by destruct (failing db).
Qed.

Lemma saveDailyProgressForDate_run userId dailyProgress db :
  saveDailyProgressForDate userId dailyProgress db
  = let db1 := sent (upsertCall userId dailyProgress) db in
    if failing db then (Throw FirestoreError, db1)
    else (Ok tt,
          Firestore.withDailyHistory
            (insert
               (dailyDocId userId (ProgressForDate.date dailyProgress))
               (upserted userId dailyProgress db1))
            db1).
Proof.
  unfold saveDailyProgressForDate, tryCatch, bind, request, modify, throw.
  by destruct (failing db).
Qed.

Lemma getDailyProgressForDate_run userId dateString db :
  getDailyProgressForDate userId dateString db
  = (Ok (if failing db then None
         else Firestore.dailyHistory db !! dailyDocId userId dateString),
     sent (GetDoc "dailyHistory" (dailyDocId userId dateString)) db).
Proof.
  unfold getDailyProgressForDate, tryCatch, bind, request, gets, ret.
  by destruct (failing db).
Qed.

Lemma getUserDailyHistory_run userId limitCount db :
  getUserDailyHistory userId limitCount db
  = (Ok (if failing db then []
         else queryHistory userId limitCount (Firestore.dailyHistory db)),
     sent (GetDocs "dailyHistory" userId limitCount) db).
Proof.
  unfold getUserDailyHistory, tryCatch, bind, request, gets, ret.
  by destruct (failing db).
Qed.

End ServiceRuns.

(** ** Failures of the store *)

(** C9, as the specification states it, fails for the two reading
    operations: with a stored record and a failing store,
    [getDailyProgressForDate] answers [null], as it does for a date
    without a record, and [getUserDailyHistory] answers the empty list;
    neither call throws. *)
Lemma adapter_read_failures_not_surfaced :
  let record :=
    DailyProgress.Build "2024-01-15"
      {[ "Matematik" := DayEntry.Build 5 2 0 7 None ]} 7 None "u1" 3 in
  let db :=
    Firestore.Build ∅ ∅ {[ "u1_2024-01-15" := record ]} 4 "2024-01-15"
      [true] [] in
  failing db = true
  /\ Firestore.dailyHistory db !! dailyDocId "u1" "2024-01-15" = Some record
  /\ (getDailyProgressForDate "u1" "2024-01-15" db).1 = Ok None
  /\ (getDailyProgressForDate "u1" "2024-01-15" db).1 <> Throw FirestoreError
  /\ (getUserDailyHistory "u1" 7 db).1 = Ok []
  /\ (getUserDailyHistory "u1" 7 db).1 <> Throw FirestoreError.
Proof.
  intros record db.
  rewrite getDailyProgressForDate_run, getUserDailyHistory_run.
  repeat split; try reflexivity; discriminate.
Qed.

(** C9 (amended): every operation of the adapter makes exactly one
    request to the store, whether it fails or not (no retry).  When the
    request fails, [saveDailyProgressForDate] throws the failure on to its
    caller and stores nothing, whereas [getDailyProgressForDate] answers
    [null] and [getUserDailyHistory] answers the empty list (after logging
    the failure), so their callers see no error. *)
Theorem adapter_failure_handling userId dateString limitCount
    dailyProgress db :
  Firestore.calls (saveDailyProgressForDate userId dailyProgress db).2
  = Firestore.calls db ++ [upsertCall userId dailyProgress]
  /\ Firestore.calls (getDailyProgressForDate userId dateString db).2
     = Firestore.calls db
       ++ [GetDoc "dailyHistory" (dailyDocId userId dateString)]
  /\ Firestore.calls (getUserDailyHistory userId limitCount db).2
     = Firestore.calls db ++ [GetDocs "dailyHistory" userId limitCount]
  /\ (failing db = true ->
      (saveDailyProgressForDate userId dailyProgress db).1
      = Throw FirestoreError
      /\ Firestore.dailyHistory
           (saveDailyProgressForDate userId dailyProgress db).2
         = Firestore.dailyHistory db
      /\ (getDailyProgressForDate userId dateString db).1 = Ok None
      /\ (getUserDailyHistory userId limitCount db).1 = Ok []).
Proof.
  rewrite saveDailyProgressForDate_run, getDailyProgressForDate_run,
    getUserDailyHistory_run.
  cbv zeta. destruct (failing db); simpl; repeat split; done.
Qed.

Lemma adapter_failure_handling_witness :
  let payload :=
    ProgressForDate.Build "2024-01-15"
      {[ "Matematik" := DayEntry.Build 5 2 0 7 None ]} 7 None in
  let db := Firestore.Build ∅ ∅ ∅ 0 "2024-01-15" [true] [] in
  failing db = true
  /\ (saveDailyProgressForDate "u1" payload db).1 = Throw FirestoreError
  /\ Firestore.dailyHistory (saveDailyProgressForDate "u1" payload db).2
     = Firestore.dailyHistory db
  /\ (getDailyProgressForDate "u1" "2024-01-15" db).1 = Ok None
  /\ (getUserDailyHistory "u1" 7 db).1 = Ok [].
Proof.
  intros payload db.
  split; [reflexivity|].
  apply (adapter_failure_handling "u1" "2024-01-15" 7%nat payload db).
  reflexivity.
Defined.

(** ** The merge-write of a daily record *)

Section Upsert.

Lemma mergeDaily_reflects old userId written timestamp :
  reflects userId written
    (mergeDaily old (ProgressForDate.date written)
       (ProgressForDate.subjects written) (ProgressForDate.total written)
       (ProgressForDate.totalTarget written) userId timestamp).
Proof.
  unfold reflects, mergeDaily.
  destruct old as [doc|]; simpl.
  - repeat split; try done.
    + by intros t ->.
    + intros n e He. rewrite lookup_union_with, He.
      destruct (DailyProgress.subjects doc !! n) as [o|]; simpl.
      * eexists. split; [done|]. split; [done|]. simpl. by intros t ->.
      * eexists. by split.
  - repeat split; try done. intros n e He. eexists. by split.
Qed.

Lemma mergeDaily_keeps old userId written timestamp :
  keepsUnspecified old written
    (mergeDaily (Some old) (ProgressForDate.date written)
       (ProgressForDate.subjects written) (ProgressForDate.total written)
       (ProgressForDate.totalTarget written) userId timestamp).
Proof.
  unfold keepsUnspecified, mergeDaily; simpl. repeat split.
  - by intros ->.
  - intros n Hn. rewrite lookup_union_with, Hn.
    by destruct (DailyProgress.subjects old !! n).
  - intros n e o He Ht Ho. rewrite lookup_union_with, He, Ho. simpl.
    eexists. split; [done|]. simpl. by rewrite Ht.
Qed.

Lemma saveDailyProgressMany_app userId ws1 ws2 db :
  saveDailyProgressMany userId (ws1 ++ ws2) db
  = (saveDailyProgressMany userId ws1 ;;;
     saveDailyProgressMany userId ws2) db.
Proof.
  revert db. induction ws1 as [|w ws1 IH]; intros db; simpl.
  - reflexivity.
  - unfold bind.
    destruct (saveDailyProgressForDate userId w db) as [[[]|e] db1];
      [|done].
    by rewrite IH.
Qed.

(** The key of a user's record determines its date. *)
Lemma dailyDocId_date_inj userId date1 date2 :
  dailyDocId userId date1 = dailyDocId userId date2 -> date1 = date2.
Proof.
  unfold dailyDocId. induction userId as [|c userId IH]; intros H.
  - injection H as H. exact H.
  - injection H as H. by apply IH.
Qed.

(** A run of writes for one date, on a store that answers, makes one
    merge-write per call, each to the one key, and touches that key
    only. *)
Lemma saveDailyProgressMany_one_key userId date writes : forall db,
  Firestore.faults db = [] ->
  Forall (fun w => ProgressForDate.date w = date) writes ->
  exists db',
    saveDailyProgressMany userId writes db = (Ok tt, db')
    /\ Firestore.faults db' = []
    /\ (forall k, k <> dailyDocId userId date ->
        Firestore.dailyHistory db' !! k = Firestore.dailyHistory db !! k)
    /\ dom (Firestore.dailyHistory db) ⊆ dom (Firestore.dailyHistory db')
    /\ dom (Firestore.dailyHistory db')
       ⊆ {[ dailyDocId userId date ]} ∪ dom (Firestore.dailyHistory db)
    /\ exists requests,
         Firestore.calls db' = Firestore.calls db ++ requests
         /\ length requests = length writes
         /\ Forall
              (fun call =>
                 exists data,
                   call
                   = SetDocMerge "dailyHistory" (dailyDocId userId date)
                       data)
              requests.
Proof.
  induction writes as [|w rest IH]; intros db Hf Hd.
  - exists db. repeat split; try done; [set_solver|].
    exists []. by rewrite app_nil_r.
  - apply Forall_cons in Hd as [Hw Hrest]. simpl. unfold bind.
    rewrite saveDailyProgressForDate_run. cbv zeta.
    rewrite (failing_nil _ Hf), Hw.
    match goal with
    | |- context [saveDailyProgressMany _ _ ?d] => set (db1 := d)
    end.
    destruct (IH db1)
      as (db' & Hrun & Hf' & Hother & Hsub & Hsup & requests & Hcalls
          & Hcount & Hkey);
      [by apply failing_sent_nil with (db := db)|done|].
    exists db'. split; [done|]. split; [done|].
    assert (Hdom : dom (Firestore.dailyHistory db1)
                   = {[ dailyDocId userId date ]}
                     ∪ dom (Firestore.dailyHistory db)).
    { subst db1; simpl. by rewrite dom_insert_L. }
    split.
    { intros k Hk. rewrite (Hother k Hk). subst db1; simpl.
      by rewrite lookup_insert_ne. }
    split; [set_solver|]. split; [set_solver|].
    exists (upsertCall userId w :: requests).
    split; [rewrite Hcalls; subst db1; simpl; by rewrite <- app_assoc|].
    split; [simpl; by rewrite Hcount|].
    apply Forall_cons. split; [|done].
    unfold upsertCall. rewrite Hw. by eexists.
Qed.

End Upsert.

(** C5: [saveDailyProgressForDate] writes to the document whose key is
    the user id, an underscore and the date, with merge semantics.  Of
    any number of writes for one user and date (on a store that answers)
    every one is a merge-write to that one key, the last of them carrying
    the last snapshot; afterwards the collection holds the documents it
    held before and the one document under that key, the documents under
    other keys, those of the user's other dates among them, are as they
    were; the document under the key reflects the last written snapshot;
    and the last write has kept every field of the stored document that
    it did not specify. *)
Theorem saveDailyProgressForDate_upsert userId date earlier last db :
  Firestore.faults db = [] ->
  Forall (fun w => ProgressForDate.date w = date) earlier ->
  ProgressForDate.date last = date ->
  let key := userId +:+ "_" +:+ date in
  let before := (saveDailyProgressMany userId earlier db).2 in
  let after := (saveDailyProgressForDate userId last before).2 in
  saveDailyProgressMany userId (earlier ++ [last]) db = (Ok tt, after)
  /\ Firestore.calls after
     = Firestore.calls before
       ++ [ SetDocMerge "dailyHistory" key
              (DailyData date (ProgressForDate.subjects last)
                 (ProgressForDate.total last)
                 (ProgressForDate.totalTarget last) userId) ]
  /\ (exists requests,
       Firestore.calls after = Firestore.calls db ++ requests
       /\ length requests = S (length earlier)
       /\ Forall
            (fun call =>
               exists data, call = SetDocMerge "dailyHistory" key data)
            requests)
  /\ dom (Firestore.dailyHistory after)
     = {[ key ]} ∪ dom (Firestore.dailyHistory db)
  /\ (forall k, k <> key ->
      Firestore.dailyHistory after !! k = Firestore.dailyHistory db !! k)
  /\ (forall otherDate, otherDate <> date ->
      Firestore.dailyHistory after !! (userId +:+ "_" +:+ otherDate)
      = Firestore.dailyHistory db !! (userId +:+ "_" +:+ otherDate))
  /\ exists doc,
       Firestore.dailyHistory after !! key = Some doc
       /\ reflects userId last doc
       /\ (forall old,
             Firestore.dailyHistory before !! key = Some old ->
             keepsUnspecified old last doc).
Proof.
  intros Hf Hearlier Hlast key before after.
  change key with (dailyDocId userId date) in *.
  destruct (saveDailyProgressMany_one_key userId date earlier db Hf Hearlier)
    as (db1 & Hrun & Hf1 & Hother & Hsub & Hsup & requests & Hcalls & Hcount
        & Hkey).
  assert (Hbefore : before = db1) by (subst before; by rewrite Hrun).
  assert (Hafter :
    saveDailyProgressForDate userId last db1
    = (Ok tt,
       Firestore.withDailyHistory
        (insert (dailyDocId userId date)
           (upserted userId last (sent (upsertCall userId last) db1)))
        (sent (upsertCall userId last) db1))).
  { rewrite saveDailyProgressForDate_run. cbv zeta.
    by rewrite (failing_nil _ Hf1), Hlast. }
  assert (Hcall :
    upsertCall userId last
    = SetDocMerge "dailyHistory" (dailyDocId userId date)
        (DailyData date (ProgressForDate.subjects last)
           (ProgressForDate.total last)
           (ProgressForDate.totalTarget last) userId))
    by (unfold upsertCall; by rewrite Hlast).
  subst after. rewrite Hbefore, Hafter. simpl.
  split.
  { rewrite saveDailyProgressMany_app. unfold bind at 1. rewrite Hrun.
    simpl. unfold bind, ret. by rewrite Hafter. }
  split; [by rewrite Hcall|].
  split.
  { exists (requests ++ [upsertCall userId last]).
    split; [by rewrite Hcalls, app_assoc|].
    split; [rewrite length_app; simpl; lia|].
    apply Forall_app. split; [done|]. apply Forall_singleton.
    rewrite Hcall. by eexists. }
  split; [rewrite dom_insert_L; set_solver|].
  assert (Hframe : forall k, k <> dailyDocId userId date ->
            <[dailyDocId userId date :=
                upserted userId last (sent (upsertCall userId last) db1)]>
              (Firestore.dailyHistory db1) !! k
            = Firestore.dailyHistory db !! k)
    by (intros k Hk; by rewrite lookup_insert_ne, Hother).
  split; [exact Hframe|].
  split.
  { intros otherDate Hne. apply (Hframe (dailyDocId userId otherDate)).
    intros Heq. by apply Hne, (dailyDocId_date_inj userId). }
  eexists. split; [by rewrite lookup_insert_eq|].
  unfold upserted.
  split; [apply mergeDaily_reflects|].
  intros old Hold. simpl. rewrite Hlast, Hold, <- Hlast.
  apply mergeDaily_keeps.
Qed.

Lemma saveDailyProgressForDate_upsert_witness :
  let stored :=
    DailyProgress.Build "2024-01-15"
      {[ "Matematik" := DayEntry.Build 1 0 0 1 (Some 15);
         "Tarih" := DayEntry.Build 2 2 2 6 None ]}
      7 (Some 60) "u1" 3 in
  let yesterday :=
    DailyProgress.Build "2024-01-14"
      {[ "Matematik" := DayEntry.Build 4 0 0 4 None ]} 4 None "u1" 2 in
  let db :=
    Firestore.Build ∅ ∅
      {[ "u1_2024-01-15" := stored; "u1_2024-01-14" := yesterday ]}
      4 "2024-01-15" [] [] in
  let first :=
    ProgressForDate.Build "2024-01-15"
      {[ "Matematik" := DayEntry.Build 2 0 0 2 None ]} 2 None in
  let second :=
    ProgressForDate.Build "2024-01-15"
      {[ "Matematik" := DayEntry.Build 2 1 0 3 None ]} 3 None in
  let after :=
    (saveDailyProgressForDate "u1" second
       (saveDailyProgressMany "u1" [first] db).2).2 in
  dom (Firestore.dailyHistory after)
  = {[ "u1_2024-01-15"; "u1_2024-01-14" ]}
  /\ last (Firestore.calls after)
     = Some
         (SetDocMerge "dailyHistory" "u1_2024-01-15"
            (DailyData "2024-01-15"
               {[ "Matematik" := DayEntry.Build 2 1 0 3 None ]} 3 None
               "u1"))
  /\ Firestore.dailyHistory after !! "u1_2024-01-14" = Some yesterday
  /\ exists doc,
       Firestore.dailyHistory after !! "u1_2024-01-15" = Some doc
       /\ reflects "u1" second doc.
Proof.
  intros stored yesterday db first second after.
  destruct (saveDailyProgressForDate_upsert "u1" "2024-01-15" [first] second
              db eq_refl ltac:(repeat constructor) eq_refl)
    as (_ & Hcalls & _ & Hdom & _ & Hdates & doc & Hdoc & Hreflects & _).
  split; [|split; [|split]].
  - subst after. rewrite Hdom. vm_compute. reflexivity.
  - subst after. rewrite Hcalls. apply last_snoc.
  - etrans; [exact (Hdates "2024-01-14" ltac:(discriminate))|].
    vm_compute. reflexivity.
  - exists doc. split; [exact Hdoc | exact Hreflects].
Defined.

(** ** Initialising the catalog *)

Section Initialise.

Lemma initializeUserProgress_run userId db :
  initializeUserProgress userId db
  = let db1 := sent (GetDoc "userProgress" userId) db in
    if failing db then (Throw FirestoreError, db1)
    else
      match Firestore.userProgress db !! userId with
      | Some _ => (Ok tt, db1)
      | None =>
          saveUserProgress userId defaultSubjects
            (sumTargets defaultSubjects) db1
      end.
Proof.
  unfold initializeUserProgress, tryCatch, bind, throw.
  rewrite getUserProgress_run. cbv zeta.
  destruct (failing db); [done|].
  destruct (Firestore.userProgress db !! userId); [done|].
  by destruct (saveUserProgress _ _ _ _) as [[[]|e] db2].
Qed.

Lemma initializeUserSettings_run userId db :
  initializeUserSettings userId db
  = let db1 := sent (GetDoc "userSettings" userId) db in
    if failing db then (Throw FirestoreError, db1)
    else
      match Firestore.userSettings db !! userId with
      | Some _ => (Ok tt, db1)
      | None =>
          saveUserSettings userId defaultSubjects
            (sumTargets defaultSubjects) db1
      end.
Proof.
  unfold initializeUserSettings, tryCatch, bind, throw.
  rewrite getUserSettings_run. cbv zeta.
  destruct (failing db); [done|].
  destruct (Firestore.userSettings db !! userId); [done|].
  by destruct (saveUserSettings _ _ _ _) as [[[]|e] db2].
Qed.

(** With a catalog in place the initialiser writes nothing. *)
Lemma initializeUserProgress_existing userId db existing :
  Firestore.userProgress db !! userId = Some existing ->
  Firestore.userProgress (initializeUserProgress userId db).2
  = Firestore.userProgress db
  /\ Firestore.calls (initializeUserProgress userId db).2
     = Firestore.calls db ++ [GetDoc "userProgress" userId].
Proof.
  intros He. rewrite initializeUserProgress_run. cbv zeta. rewrite He.
  by destruct (failing db).
Qed.

Lemma initializeUserSettings_existing userId db existing :
  Firestore.userSettings db !! userId = Some existing ->
  Firestore.userSettings (initializeUserSettings userId db).2
  = Firestore.userSettings db
  /\ Firestore.calls (initializeUserSettings userId db).2
     = Firestore.calls db ++ [GetDoc "userSettings" userId].
Proof.
  intros He. rewrite initializeUserSettings_run. cbv zeta. rewrite He.
  by destruct (failing db).
Qed.

(** A call that ends normally leaves a catalog behind: with the default
    subjects if there was none, the old one otherwise. *)
Lemma initializeUserProgress_result userId db :
  (initializeUserProgress userId db).1 = Ok tt ->
  exists catalog,
    Firestore.userProgress (initializeUserProgress userId db).2 !! userId
    = Some catalog
    /\ match Firestore.userProgress db !! userId with
       | Some existing => catalog = existing
       | None =>
           UserProgress.subjects catalog = defaultSubjects
           /\ UserProgress.totalTarget catalog = 60
       end
    /\ (forall other, other <> userId ->
        Firestore.userProgress (initializeUserProgress userId db).2
          !! other
        = Firestore.userProgress db !! other)
    /\ (Firestore.userProgress db !! userId = None ->
        Firestore.calls (initializeUserProgress userId db).2
        = Firestore.calls db
          ++ [ GetDoc "userProgress" userId;
               SetDoc "userProgress" userId
                 (ProgressData defaultSubjects 60) ]).
Proof.
  rewrite initializeUserProgress_run. cbv zeta.
  destruct (failing db); [done|].
  destruct (Firestore.userProgress db !! userId) as [existing|] eqn:He.
  - intros _. exists existing. simpl. by rewrite He.
  - rewrite saveUserProgress_run. cbv zeta.
    destruct (failing _); [done|]. intros _. simpl.
    eexists. split; [by rewrite lookup_insert_eq|]. split; [done|].
    split; [intros other Ho; by rewrite lookup_insert_ne|].
    intros _. by rewrite <- app_assoc.
Qed.

(** On a store that answers the initialiser ends normally and leaves a
    catalog and a store that answers. *)
Lemma initializeUserProgress_answers userId db :
  Firestore.faults db = [] ->
  (initializeUserProgress userId db).1 = Ok tt
  /\ Firestore.faults (initializeUserProgress userId db).2 = []
  /\ exists catalog,
       Firestore.userProgress (initializeUserProgress userId db).2 !! userId
       = Some catalog.
Proof.
  intros Hf. rewrite initializeUserProgress_run. cbv zeta.
  rewrite (failing_nil _ Hf).
  destruct (Firestore.userProgress db !! userId) as [existing|] eqn:He.
  - simpl. rewrite Hf, He. by eauto.
  - rewrite saveUserProgress_run. cbv zeta.
    rewrite (failing_nil (sent _ db)) by (simpl; by rewrite Hf).
    simpl. rewrite Hf, lookup_insert_eq. by eauto.
Qed.

Lemma initializeUserSettings_result userId db :
  (initializeUserSettings userId db).1 = Ok tt ->
  exists catalog,
    Firestore.userSettings (initializeUserSettings userId db).2 !! userId
    = Some catalog
    /\ match Firestore.userSettings db !! userId with
       | Some existing => catalog = existing
       | None =>
           UserSettings.subjects catalog = defaultSubjects
           /\ UserSettings.totalTarget catalog = 60
       end
    /\ (forall other, other <> userId ->
        Firestore.userSettings (initializeUserSettings userId db).2
          !! other
        = Firestore.userSettings db !! other)
    /\ (Firestore.userSettings db !! userId = None ->
        Firestore.calls (initializeUserSettings userId db).2
        = Firestore.calls db
          ++ [ GetDoc "userSettings" userId;
               SetDoc "userSettings" userId
                 (SettingsData defaultSubjects 60) ]).
Proof.
  rewrite initializeUserSettings_run. cbv zeta.
  destruct (failing db); [done|].
  destruct (Firestore.userSettings db !! userId) as [existing|] eqn:He.
  - intros _. exists existing. simpl. by rewrite He.
  - rewrite saveUserSettings_run. cbv zeta.
    destruct (failing _); [done|]. intros _. simpl.
    eexists. split; [by rewrite lookup_insert_eq|]. split; [done|].
    split; [intros other Ho; by rewrite lookup_insert_ne|].
    intros _. by rewrite <- app_assoc.
Qed.

Lemma initializeUserSettings_answers userId db :
  Firestore.faults db = [] ->
  (initializeUserSettings userId db).1 = Ok tt
  /\ Firestore.faults (initializeUserSettings userId db).2 = []
  /\ exists catalog,
       Firestore.userSettings (initializeUserSettings userId db).2 !! userId
       = Some catalog.
Proof.
  intros Hf. rewrite initializeUserSettings_run. cbv zeta.
  rewrite (failing_nil _ Hf).
  destruct (Firestore.userSettings db !! userId) as [existing|] eqn:He.
  - simpl. rewrite Hf, He. by eauto.
  - rewrite saveUserSettings_run. cbv zeta.
    rewrite (failing_nil (sent _ db)) by (simpl; by rewrite Hf).
    simpl. rewrite Hf, lookup_insert_eq. by eauto.
Qed.

End Initialise.

(** C6: [initializeUserProgress] (the catalog [page.tsx] loads) and
    [initializeUserSettings] end normally on a store that answers, and
    store the six default subjects, with targets 10, 15, 8, 12, 10 and 5
    and the total 60, in one write, only when the user has no catalog
    document; an existing document is left as it is and nothing is
    written.  A second call after a call that ended normally only reads:
    the collection, and with it the user's one catalog document and its
    targets, is unchanged. *)
Theorem initializeCatalog_idempotent userId db :
  (let first := initializeUserProgress userId db in
   let second := initializeUserProgress userId first.2 in
   (Firestore.faults db = [] -> first.1 = Ok tt /\ second.1 = Ok tt)
   /\ (first.1 = Ok tt ->
       exists catalog,
         Firestore.userProgress first.2 !! userId = Some catalog
         /\ (Firestore.userProgress db !! userId = None ->
             length (UserProgress.subjects catalog) = 6%nat
             /\ targetsOf (UserProgress.subjects catalog)
                = [10; 15; 8; 12; 10; 5]
             /\ UserProgress.totalTarget catalog = 60
             /\ Firestore.calls first.2
                = Firestore.calls db
                  ++ [ GetDoc "userProgress" userId;
                       SetDoc "userProgress" userId
                         (ProgressData defaultSubjects 60) ])
         /\ (forall existing,
               Firestore.userProgress db !! userId = Some existing ->
               Firestore.userProgress first.2 = Firestore.userProgress db
               /\ Firestore.calls first.2
                  = Firestore.calls db ++ [GetDoc "userProgress" userId])
         /\ Firestore.userProgress second.2 = Firestore.userProgress first.2
         /\ Firestore.userProgress second.2 !! userId = Some catalog
         /\ Firestore.calls second.2
            = Firestore.calls first.2 ++ [GetDoc "userProgress" userId]))
  /\ (let first := initializeUserSettings userId db in
      let second := initializeUserSettings userId first.2 in
      (Firestore.faults db = [] -> first.1 = Ok tt /\ second.1 = Ok tt)
      /\ (first.1 = Ok tt ->
          exists catalog,
            Firestore.userSettings first.2 !! userId = Some catalog
            /\ (Firestore.userSettings db !! userId = None ->
                length (UserSettings.subjects catalog) = 6%nat
                /\ targetsOf (UserSettings.subjects catalog)
                   = [10; 15; 8; 12; 10; 5]
                /\ UserSettings.totalTarget catalog = 60
                /\ Firestore.calls first.2
                   = Firestore.calls db
                     ++ [ GetDoc "userSettings" userId;
                          SetDoc "userSettings" userId
                            (SettingsData defaultSubjects 60) ])
            /\ (forall existing,
                  Firestore.userSettings db !! userId = Some existing ->
                  Firestore.userSettings first.2 = Firestore.userSettings db
                  /\ Firestore.calls first.2
                     = Firestore.calls db ++ [GetDoc "userSettings" userId])
            /\ Firestore.userSettings second.2
               = Firestore.userSettings first.2
            /\ Firestore.userSettings second.2 !! userId = Some catalog
            /\ Firestore.calls second.2
               = Firestore.calls first.2
                 ++ [GetDoc "userSettings" userId])).
Proof.
  split.
  - intros first second. split.
    { intros Hf.
      destruct (initializeUserProgress_answers userId db Hf)
        as (Hok & Hf1 & catalog & Hcat).
      split; [done|].
      by destruct (initializeUserProgress_answers userId first.2 Hf1). }
    intros Hok.
    destruct (initializeUserProgress_result userId db Hok)
      as (catalog & Hcat & Hwhich & _ & Hwritten).
    fold first in Hcat.
    destruct (initializeUserProgress_existing userId first.2 catalog Hcat)
      as [Hsame Hcalls].
    fold second in Hsame, Hcalls.
    exists catalog. split; [done|]. split.
    { intros Hnone. rewrite Hnone in Hwhich. destruct Hwhich as [-> ->].
      split; [done|]. split; [done|]. split; [done|]. by apply Hwritten. }
    split.
    { intros existing He.
      by destruct (initializeUserProgress_existing userId db existing He). }
    split; [done|]. split; [by rewrite Hsame|done].
  - intros first second. split.
    { intros Hf.
      destruct (initializeUserSettings_answers userId db Hf)
        as (Hok & Hf1 & catalog & Hcat).
      split; [done|].
      by destruct (initializeUserSettings_answers userId first.2 Hf1). }
    intros Hok.
    destruct (initializeUserSettings_result userId db Hok)
      as (catalog & Hcat & Hwhich & _ & Hwritten).
    fold first in Hcat.
    destruct (initializeUserSettings_existing userId first.2 catalog Hcat)
      as [Hsame Hcalls].
    fold second in Hsame, Hcalls.
    exists catalog. split; [done|]. split.
    { intros Hnone. rewrite Hnone in Hwhich. destruct Hwhich as [-> ->].
      split; [done|]. split; [done|]. split; [done|]. by apply Hwritten. }
    split.
    { intros existing He.
      by destruct (initializeUserSettings_existing userId db existing He). }
    split; [done|]. split; [by rewrite Hsame|done].
Qed.

Lemma initializeCatalog_idempotent_witness :
  let db := Firestore.Build ∅ ∅ ∅ 0 "2024-01-15" [] [] in
  (let first := initializeUserProgress "u1" db in
   let second := initializeUserProgress "u1" first.2 in
   first.1 = Ok tt /\ second.1 = Ok tt
   /\ exists catalog,
        Firestore.userProgress first.2 !! "u1" = Some catalog
        /\ targetsOf (UserProgress.subjects catalog)
           = [10; 15; 8; 12; 10; 5]
        /\ Firestore.userProgress second.2 = Firestore.userProgress first.2)
  /\ (let first := initializeUserSettings "u1" db in
      let second := initializeUserSettings "u1" first.2 in
      first.1 = Ok tt /\ second.1 = Ok tt
      /\ exists catalog,
           Firestore.userSettings first.2 !! "u1" = Some catalog
           /\ targetsOf (UserSettings.subjects catalog)
              = [10; 15; 8; 12; 10; 5]
           /\ Firestore.userSettings second.2
              = Firestore.userSettings first.2).
Proof.
  intros db.
  destruct (initializeCatalog_idempotent "u1" db)
    as [[Hanswers Hprogress] [Hanswers' Hsettings]].
  split.
  - destruct (Hanswers eq_refl) as [Hfirst Hsecond].
    destruct (Hprogress Hfirst) as (catalog & Hcat & Hnew & _ & Hsame & _).
    split; [exact Hfirst|]. split; [exact Hsecond|].
    exists catalog. split; [exact Hcat|]. split; [|exact Hsame].
    exact (proj1 (proj2 (Hnew eq_refl))).
  - destruct (Hanswers' eq_refl) as [Hfirst Hsecond].
    destruct (Hsettings Hfirst) as (catalog & Hcat & Hnew & _ & Hsame & _).
    split; [exact Hfirst|]. split; [exact Hsecond|].
    exists catalog. split; [exact Hcat|]. split; [|exact Hsame].
    exact (proj1 (proj2 (Hnew eq_refl))).
Defined.

(** ** Loading the snapshot of a date *)

Section Load.

Lemma sumQuestions_from acc subjects :
  fold_left
    (fun sum subject =>
       sum + SubjectData.correct subject + SubjectData.wrong subject
       + SubjectData.empty subject)
    subjects acc
  = acc + answeredTotal subjects.
Proof.
  revert acc. induction subjects as [|s rest IH]; intros acc; simpl.
  - unfold answeredTotal; simpl. lia.
  - rewrite IH. unfold answeredTotal, answered; simpl. lia.
Qed.

Lemma sumQuestions_answeredTotal subjects :
  sumQuestions subjects = answeredTotal subjects.
Proof. unfold sumQuestions. by rewrite sumQuestions_from. Qed.

Lemma sumTargets_from acc subjects :
  fold_left (fun sum subject => sum + SubjectData.target subject)
    subjects acc
  = acc + sumTargets subjects.
Proof.
  unfold sumTargets. revert acc.
  induction subjects as [|s rest IH]; intros acc; simpl; [lia|].
  rewrite IH, (IH (0 + SubjectData.target s)). lia.
Qed.



(** The merge keeps the targets of the catalog. *)
Lemma finalSubjects_targets userProgress dateProgress :
  sumTargets (finalSubjects userProgress dateProgress)
  = sumTargets (UserProgress.subjects userProgress).
Proof.
  unfold finalSubjects.
  assert (Hmap : forall f : SubjectData.t -> SubjectData.t,
             (forall s, SubjectData.target (f s) = SubjectData.target s) ->
             forall l, sumTargets (map f l) = sumTargets l).
  { intros f Hf l. induction l as [|s rest IH]; [done|].
    unfold sumTargets in *; simpl.
    rewrite (sumTargets_from (0 + _)), (sumTargets_from (0 + _)).
    unfold sumTargets. rewrite IH, Hf. done. }
  destruct dateProgress as [record|]; apply Hmap; intros s; [|done].
  unfold mergeSubject. by destruct (DailyProgress.subjects record !! _).
Qed.


(** The load of a date when the catalog is there and the store answers
    the catalog request. *)
Lemma loadUserDataForDate_found userId dateString app userProgress :
  failing (App.db app) = false ->
  Firestore.userProgress (App.db app) !! userId = Some userProgress ->
  let db1 := sent (GetDoc "userProgress" userId) (App.db app) in
  let db2 :=
    sent (GetDoc "dailyHistory" (dailyDocId userId dateString)) db1 in
  let db3 := sent (GetDocs "dailyHistory" userId 7) db2 in
  let dateProgress :=
    if failing db1 then None
    else Firestore.dailyHistory (App.db app)
           !! dailyDocId userId dateString in
  let history :=
    if failing db2 then []
    else queryHistory userId 7 (Firestore.dailyHistory (App.db app)) in
  loadUserDataForDate (Some userId) dateString app
  = (Ok tt,
     App.Build (loaded userProgress dateProgress history (App.ui app)) db3).
Proof.
  intros Hf Hup. cbv zeta.
  unfold loadUserDataForDate, tryFinally, tryCatch, bind, service,
    setState, modify, ret.
  simpl. rewrite getUserProgress_run, Hf, Hup. simpl.
  rewrite getDailyProgressForDate_run. simpl.
  rewrite getUserDailyHistory_run. simpl. reflexivity.
Qed.

(** The two ways a load can end. *)
Ltac snapshot_kept :=
  simpl; rewrite ?getUserDailyHistory_run; simpl;
  split; [done|left; by repeat split].

Ltac snapshot_replaced :=
  rewrite getDailyProgressForDate_run; simpl;
  rewrite getUserDailyHistory_run; simpl;
  split; [done|]; right;
  match goal with
  | |- context [Component.setDailyHistory ?h
                  (Component.setTotalQuestions
                     (sumQuestions (finalSubjects ?u ?d)) _)] =>
      by exists u, d, h
  end.

(** Every load ends normally, and either leaves the snapshot as it was
    or replaces it by a merge of a catalog with a record. *)
Lemma loadUserDataForDate_outcome currentUser dateString app :
  (loadUserDataForDate currentUser dateString app).1 = Ok tt
  /\ (snapshotKept (App.ui app)
        (App.ui (loadUserDataForDate currentUser dateString app).2)
      \/ exists userProgress dateProgress history,
           App.ui (loadUserDataForDate currentUser dateString app).2
           = loaded userProgress dateProgress history (App.ui app)).
Proof.
  destruct currentUser as [uid|]; [|snapshot_kept].
  unfold loadUserDataForDate, tryFinally, tryCatch, bind, service, setState,
    modify, ret.
  simpl. rewrite getUserProgress_run.
  destruct (failing (App.db app)); [snapshot_kept|].
  destruct (Firestore.userProgress (App.db app) !! uid) as [up|] eqn:Hup.
  - simpl. snapshot_replaced.
  - simpl. rewrite initializeUserProgress_run. cbv zeta. simpl.
    destruct (failing (sent _ (App.db app))); [snapshot_kept|].
    rewrite Hup, saveUserProgress_run. cbv zeta.
    destruct (failing (sent _ (sent _ (App.db app)))); [snapshot_kept|].
    simpl. rewrite getUserProgress_run.
    destruct (failing _); [snapshot_kept|].
    simpl. rewrite lookup_insert_eq. simpl. snapshot_replaced.
Qed.

Lemma loaded_totalsAgree userProgress dateProgress history ui :
  totalsAgree (loaded userProgress dateProgress history ui).
Proof.
  unfold totalsAgree, loaded; simpl. apply sumQuestions_answeredTotal.
Qed.

End Load.

(** ** The catalog's stored total *)

Section CatalogTotal.

(** What the initialisers store is consistent. *)
Lemma defaultSubjects_consistent lastUpdated lastUpdateDate :
  catalogConsistent
    (UserProgress.Build defaultSubjects (sumTargets defaultSubjects)
       lastUpdated lastUpdateDate).
Proof. reflexivity. Qed.

(** [updateTarget] on a valid index ends normally and leaves a total
    target that is the sum of the targets. *)
Lemma updateTarget_ok subjectIndex newTarget app subject :
  Component.subjectProgress (App.ui app) !! subjectIndex = Some subject ->
  let newProgress :=
    <[subjectIndex := setTarget (Z.max 1 newTarget) subject]>
      (Component.subjectProgress (App.ui app)) in
  updateTarget subjectIndex newTarget app
  = (Ok tt,
     App.Build
       (Component.setTotalTarget (sumTargets newProgress)
          (Component.setSubjectProgress newProgress (App.ui app)))
       (App.db app)).
Proof.
  intros Hs. unfold updateTarget, bind, gets. by rewrite Hs.
Qed.

Lemma updateTarget_throw subjectIndex newTarget app :
  Component.subjectProgress (App.ui app) !! subjectIndex = None ->
  updateTarget subjectIndex newTarget app = (Throw TypeError, app).
Proof.
  intros Hs. unfold updateTarget, bind, gets. by rewrite Hs.
Qed.

(** A load from a consistent catalog leaves a total target that is the
    sum of the snapshot's targets. *)
Lemma loaded_targets userProgress dateProgress history ui :
  catalogConsistent userProgress ->
  Component.totalTarget (loaded userProgress dateProgress history ui)
  = sumTargets
      (Component.subjectProgress
         (loaded userProgress dateProgress history ui)).
Proof.
  intros Hc. unfold loaded; simpl. by rewrite finalSubjects_targets.
Qed.

End CatalogTotal.




(** ** The total of the snapshot *)

Section Totals.

Lemma answered_setTarget v s : answered (setTarget v s) = answered s.
Proof. reflexivity. Qed.

Lemma answeredTotal_insert_same subjects i s s' :
  subjects !! i = Some s -> answered s' = answered s ->
  answeredTotal (<[i := s']> subjects) = answeredTotal subjects.
Proof.
  intros Hs Ha. unfold answeredTotal. f_equal.
  change (answered <$> <[i:=s']> subjects = answered <$> subjects).
  rewrite list_fmap_insert, Ha. apply list_insert_id.
  by rewrite list_lookup_fmap, Hs.
Qed.

Lemma snapshotKept_totalsAgree before after :
  snapshotKept before after -> totalsAgree before -> totalsAgree after.
Proof.
  unfold snapshotKept, totalsAgree. intros (-> & -> & _). done.
Qed.

Lemma updateQuestions_totalsAgree currentUser i type change app :
  (updateQuestions currentUser i type change app).1 = Ok tt ->
  totalsAgree (App.ui (updateQuestions currentUser i type change app).2).
Proof.
  destruct (bumpProgress (Component.subjectProgress (App.ui app)) i type
              change) as [newProgress|] eqn:Hb.
  - destruct (updateQuestions_ok currentUser _ _ _ _ _ Hb) as [db' ->].
    intros _. unfold totalsAgree, afterUpdate; simpl.
    apply sumQuestions_answeredTotal.
  - by rewrite (updateQuestions_throw currentUser _ _ _ _ Hb).
Qed.

Lemma updateQuestions_preserves currentUser i type change app :
  totalsAgree (App.ui app) ->
  totalsAgree (App.ui (updateQuestions currentUser i type change app).2).
Proof.
  intros Hinv.
  destruct (bumpProgress (Component.subjectProgress (App.ui app)) i type
              change) as [newProgress|] eqn:Hb.
  - apply updateQuestions_totalsAgree.
    by destruct (updateQuestions_ok currentUser _ _ _ _ _ Hb) as [db' ->].
  - by rewrite (updateQuestions_throw currentUser _ _ _ _ Hb).
Qed.

Lemma updateTarget_preserves subjectIndex newTarget app :
  totalsAgree (App.ui app) ->
  totalsAgree (App.ui (updateTarget subjectIndex newTarget app).2).
Proof.
  intros Hinv.
  destruct (Component.subjectProgress (App.ui app) !! subjectIndex)
    as [subject|] eqn:Hs.
  - rewrite (updateTarget_ok _ newTarget _ _ Hs). cbv zeta.
    unfold totalsAgree in *; simpl. rewrite Hinv. symmetry.
    by apply answeredTotal_insert_same with (s := subject).
  - by rewrite (updateTarget_throw _ newTarget _ Hs).
Qed.

Lemma saveProgress_keeps currentUser closure app :
  snapshotKept (App.ui app) (App.ui (saveProgress currentUser closure app).2).
Proof.
  unfold saveProgress. destruct currentUser as [uid|]; [|done].
  destruct (_ || _); [done|].
  unfold tryFinally, tryCatch, bind, service, setState, modify, ret.
  simpl. by destruct (saveUserProgress _ _ _ _) as [[[]|e] db'].
Qed.

Lemma loadUserDataForDate_preserves currentUser dateString app :
  totalsAgree (App.ui app) ->
  totalsAgree (App.ui (loadUserDataForDate currentUser dateString app).2).
Proof.
  intros Hinv.
  destruct (loadUserDataForDate_outcome currentUser dateString app)
    as [_ [Hkept|(up & dp & h & ->)]].
  - by apply (snapshotKept_totalsAgree (App.ui app)).
  - apply loaded_totalsAgree.
Qed.

(** The dependency array of the saving effect names one identifier that
    nothing binds, so no render of the component runs the effect. *)
Lemma savingEffect_unbound :
  unboundDependencies = ["loading"] /\ savingEffectRuns = false.
Proof. split; reflexivity. Qed.

Lemma step_preserves currentUser s ev :
  totalsAgree (App.ui (Session.app s)) ->
  totalsAgree (App.ui (Session.app (step currentUser s ev))).
Proof.
  intros Hinv. destruct ev as [i type change|ms]; simpl.
  - pose proof (updateQuestions_preserves currentUser i type change
                  (Session.app s) Hinv) as Hafter.
    destruct (updateQuestions _ _ _ _ _) as [[[]|e] app']; [|done].
    by destruct savingEffectRuns.
  - destruct (Session.timer s) as [[remaining closure]|]; [|done].
    destruct (remaining <=? ms); [|done]. simpl.
    by apply (snapshotKept_totalsAgree (App.ui (Session.app s)));
      [apply saveProgress_keeps|].
Qed.

Lemma run_preserves currentUser events : forall s,
  totalsAgree (App.ui (Session.app s)) ->
  totalsAgree (App.ui (Session.app (run currentUser s events))).
Proof.
  unfold run. induction events as [|ev rest IH]; intros s Hinv; [done|].
  simpl. apply IH. by apply step_preserves.
Qed.

End Totals.

(** C10: [totalQuestions] is the sum over the subjects of the snapshot of
    [correct + wrong + empty] in the first render, after every
    [loadUserDataForDate] that replaces the snapshot and after every
    [updateQuestions] that ends normally; a load or a mutation that fails
    leaves the snapshot as it was, and [updateTarget] and the saving timer
    do not touch the counters, so the equality holds throughout a
    session. *)
Theorem totalQuestions_invariant :
  (forall today, totalsAgree (Component.initial today))
  /\ (forall currentUser dateString app,
      let ui' :=
        App.ui (loadUserDataForDate currentUser dateString app).2 in
      snapshotKept (App.ui app) ui' \/ totalsAgree ui')
  /\ (forall currentUser dateString app,
      totalsAgree (App.ui app) ->
      totalsAgree
        (App.ui (loadUserDataForDate currentUser dateString app).2))
  /\ (forall currentUser i type change app,
      (updateQuestions currentUser i type change app).1 = Ok tt ->
      totalsAgree (App.ui (updateQuestions currentUser i type change app).2))
  /\ (forall currentUser i type change app,
      totalsAgree (App.ui app) ->
      totalsAgree (App.ui (updateQuestions currentUser i type change app).2))
  /\ (forall subjectIndex newTarget app,
      totalsAgree (App.ui app) ->
      totalsAgree (App.ui (updateTarget subjectIndex newTarget app).2))
  /\ (forall currentUser events s,
      totalsAgree (App.ui (Session.app s)) ->
      totalsAgree (App.ui (Session.app (run currentUser s events)))).
Proof.
  split; [done|].
  split.
  { intros currentUser dateString app ui'. subst ui'.
    destruct (loadUserDataForDate_outcome currentUser dateString app)
      as [_ [Hkept|(up & dp & h & ->)]]; [by left|right].
    apply loaded_totalsAgree. }
  split; [apply loadUserDataForDate_preserves|].
  split; [apply updateQuestions_totalsAgree|].
  split; [apply updateQuestions_preserves|].
  split; [apply updateTarget_preserves|].
  intros currentUser events s. apply run_preserves.
Qed.

Lemma totalQuestions_invariant_witness :
  let matematik :=
    SubjectData.Build "Matematik" "🔢" 5 2 0 15 "bg-blue-500" in
  let app :=
    App.Build (Component.Build [matematik] [] 7 15 false false "2024-01-15")
      (Firestore.Build ∅ ∅ ∅ 0 "2024-01-15" [] []) in
  totalsAgree (App.ui app)
  /\ totalsAgree (App.ui (updateQuestions (Some "u1") 0 Wrong (-1) app).2)
  /\ Component.totalQuestions
       (App.ui (updateQuestions (Some "u1") 0 Wrong (-1) app).2) = 6.
Proof.
  intros matematik app.
  split; [reflexivity|].
  split; [|vm_compute; reflexivity].
  apply (proj1 (proj2 (proj2 (proj2 (proj2 totalQuestions_invariant))))).
  reflexivity.
Defined.

(** ** The rollups *)

Section Rollup.

Lemma addStats_noEntry cur : addStats cur noEntry = cur.
Proof. destruct cur. unfold addStats; simpl. f_equal; lia. Qed.

Lemma seedStats_snoc subjects subject :
  seedStats (subjects ++ [subject])
  = <[SubjectData.name subject := statsOf subject]> (seedStats subjects).
Proof. unfold seedStats. by rewrite fold_left_app. Qed.

Lemma lastNamed_snoc subjectName subjects subject :
  lastNamed subjectName (subjects ++ [subject])
  = if decide (SubjectData.name subject = subjectName) then Some subject
    else lastNamed subjectName subjects.
Proof. unfold lastNamed. by rewrite fold_left_app. Qed.

(** The seed maps a name to the counts of the last subject so named. *)
Lemma seedStats_lookup subjects subjectName :
  seedStats subjects !! subjectName
  = statsOf <$> lastNamed subjectName subjects.
Proof.
  induction subjects as [|subject subjects IH] using rev_ind; [done|].
  rewrite seedStats_snoc, lastNamed_snoc, lookup_insert.
  destruct (decide (SubjectData.name subject = subjectName)); [done|].
  apply IH.
Qed.

Lemma lastNamed_name subjectName subjects subject :
  lastNamed subjectName subjects = Some subject ->
  SubjectData.name subject = subjectName /\ subject ∈ subjects.
Proof.
  induction subjects as [|s subjects IH] using rev_ind; [done|].
  rewrite lastNamed_snoc.
  destruct (decide (SubjectData.name s = subjectName)) as [Hn|Hn].
  - intros [= <-]. split; [done|]. set_solver.
  - intros Hl. destruct (IH Hl). split; [done|]. set_solver.
Qed.

Lemma lastNamed_None subjectName subjects :
  lastNamed subjectName subjects = None ->
  forall subject, subject ∈ subjects ->
                  SubjectData.name subject <> subjectName.
Proof.
  induction subjects as [|s subjects IH] using rev_ind.
  - intros _ subject Hin. by apply elem_of_nil in Hin.
  - rewrite lastNamed_snoc.
    destruct (decide (SubjectData.name s = subjectName)) as [Hn|Hn];
      [done|].
    intros Hl subject Hin. apply elem_of_app in Hin as [Hin|Hin].
    + by apply IH.
    + apply list_elem_of_singleton in Hin. by subst.
Qed.

(** With names that are unique, as the catalog has them, the subject a
    name stands for is the one subject of that name. *)
Lemma lastNamed_unique subjects subject :
  NoDup (map SubjectData.name subjects) -> subject ∈ subjects ->
  lastNamed (SubjectData.name subject) subjects = Some subject.
Proof.
  induction subjects as [|s subjects IH] using rev_ind.
  - intros _ Hin. by apply elem_of_nil in Hin.
  - rewrite map_app. intros Hnd Hin. rewrite lastNamed_snoc.
    apply NoDup_app in Hnd as (Hnd & Hfresh & _).
    apply elem_of_app in Hin as [Hin|Hin].
    + destruct (decide _) as [Heq|_]; [|by apply IH].
      exfalso. apply (Hfresh (SubjectData.name subject)).
      * apply list_elem_of_fmap. by exists subject.
      * rewrite <- Heq. simpl. set_solver.
    + apply list_elem_of_singleton in Hin. subst.
      by destruct (decide _).
Qed.

Lemma addEntry_lookup stats entry subjectName :
  addEntry stats entry !! subjectName
  = if decide (entry.1 = subjectName)
    then (fun cur => addStats cur entry.2) <$> stats !! subjectName
    else stats !! subjectName.
Proof.
  unfold addEntry. destruct (decide (entry.1 = subjectName)) as [<-|Hne].
  - destruct (stats !! entry.1) as [cur|] eqn:Hc.
    + by rewrite lookup_insert_eq.
    + by rewrite Hc.
  - destruct (stats !! entry.1); [|done]. by rewrite lookup_insert_ne.
Qed.

(** Adding the entries of an object touches the names already present,
    and adds to each what the object holds for it. *)
Lemma addEntries_lookup entries : forall stats subjectName,
  NoDup entries.*1 ->
  addEntries stats entries !! subjectName
  = (fun cur =>
       addStats cur
         (default noEntry
            ((list_to_map entries : gmap string DayEntry.t)
               !! subjectName)))
    <$> stats !! subjectName.
Proof.
  induction entries as [|[k d] rest IH]; intros stats n Hnd.
  - simpl. rewrite lookup_empty. simpl.
    destruct (stats !! n) as [cur|]; [|done].
    simpl. by rewrite addStats_noEntry.
  - simpl in Hnd. apply NoDup_cons in Hnd as [Hfresh Hnd].
    change (addEntries stats ((k, d) :: rest))
      with (addEntries (addEntry stats (k, d)) rest).
    rewrite (IH _ _ Hnd), addEntry_lookup. simpl.
    destruct (decide (k = n)) as [->|Hne].
    + rewrite lookup_insert_eq, (not_elem_of_list_to_map_1 rest n Hfresh).
      simpl. destruct (stats !! n) as [cur|]; [|done].
      simpl. by rewrite addStats_noEntry.
    + by rewrite lookup_insert_ne.
Qed.

(** The order in which the entries of an object are enumerated does not
    matter. *)
Lemma addEntries_Permutation stats entries entries' :
  NoDup entries.*1 -> entries ≡ₚ entries' ->
  addEntries stats entries = addEntries stats entries'.
Proof.
  intros Hnd Hp. apply map_eq. intros n.
  assert (Hnd' : NoDup entries'.*1) by (by rewrite <- Hp).
  rewrite !addEntries_lookup by done.
  by rewrite (list_to_map_proper entries entries' Hnd Hp).
Qed.

Lemma addDay_lookup stats day subjectName :
  addDay stats day !! subjectName
  = (fun cur => addStats cur (entryOf subjectName day))
    <$> stats !! subjectName.
Proof.
  unfold addDay, entryOf.
  rewrite addEntries_lookup by apply NoDup_fst_map_to_list.
  by rewrite list_to_map_to_list.
Qed.

Lemma fold_addDay_lookup dailyHistory : forall stats subjectName,
  fold_left addDay dailyHistory stats !! subjectName
  = (fun cur => addHistory subjectName cur dailyHistory)
    <$> stats !! subjectName.
Proof.
  induction dailyHistory as [|day rest IH]; intros stats n; simpl.
  - unfold addHistory; simpl. by destruct (stats !! n).
  - rewrite IH, addDay_lookup. by destruct (stats !! n).
Qed.

Lemma addHistory_sums subjectName dailyHistory : forall cur,
  addHistory subjectName cur dailyHistory
  = Stats.Build
      (Stats.correct cur + sumOver DayEntry.correct subjectName dailyHistory)
      (Stats.wrong cur + sumOver DayEntry.wrong subjectName dailyHistory)
      (Stats.empty cur + sumOver DayEntry.empty subjectName dailyHistory)
      (Stats.total cur + sumOver DayEntry.total subjectName dailyHistory).
Proof.
  unfold addHistory, sumOver.
  induction dailyHistory as [|day rest IH]; intros cur; simpl.
  - destruct cur; simpl. f_equal; lia.
  - rewrite IH. unfold addStats; simpl. f_equal; lia.
Qed.

(** A rollup over any part of the history, for one name. *)
Lemma rollup_lookup subjectProgress dailyHistory subjectName :
  fold_left addDay dailyHistory (seedStats subjectProgress) !! subjectName
  = rollupOf dailyHistory <$> lastNamed subjectName subjectProgress.
Proof.
  rewrite fold_addDay_lookup, seedStats_lookup.
  destruct (lastNamed subjectName subjectProgress) as [subject|] eqn:Hl;
    [|done].
  simpl. rewrite addHistory_sums. unfold rollupOf.
  by destruct (lastNamed_name _ _ _ Hl) as [-> _].
Qed.

End Rollup.

(** C1: the all-time rollup maps exactly the names of the snapshot's
    subjects, each to the snapshot's counts for that subject plus, field
    by field, the sum of what the records of the history hold for that
    name, a record without the name counting as zero; names that occur
    only in the history get no entry; and over the empty history the
    rollup is the snapshot's own per-subject totals. *)
Theorem calculateAllTimeStats_rollup subjectProgress dailyHistory :
  (forall subjectName,
     calculateAllTimeStats subjectProgress dailyHistory !! subjectName
     = rollupOf dailyHistory <$> lastNamed subjectName subjectProgress)
  /\ (forall subject,
      NoDup (map SubjectData.name subjectProgress) ->
      subject ∈ subjectProgress ->
      calculateAllTimeStats subjectProgress dailyHistory
        !! SubjectData.name subject
      = Some (rollupOf dailyHistory subject))
  /\ (forall subjectName,
      (forall subject, subject ∈ subjectProgress ->
                       SubjectData.name subject <> subjectName) ->
      calculateAllTimeStats subjectProgress dailyHistory !! subjectName
      = None)
  /\ dom (calculateAllTimeStats subjectProgress dailyHistory)
     = dom (seedStats subjectProgress)
  /\ calculateAllTimeStats subjectProgress [] = seedStats subjectProgress
  /\ (forall subjectName,
      calculateAllTimeStats subjectProgress [] !! subjectName
      = statsOf <$> lastNamed subjectName subjectProgress).
Proof.
  assert (Hlookup : forall subjectName,
    calculateAllTimeStats subjectProgress dailyHistory !! subjectName
    = rollupOf dailyHistory <$> lastNamed subjectName subjectProgress)
    by (intros n; apply rollup_lookup).
  split; [done|].
  split.
  { intros subject Hnd Hin. by rewrite Hlookup, lastNamed_unique. }
  split.
  { intros n Hnone. rewrite Hlookup.
    destruct (lastNamed n subjectProgress) as [subject|] eqn:Hl; [|done].
    destruct (lastNamed_name _ _ _ Hl) as [Hname Hin].
    by destruct (Hnone subject Hin). }
  split.
  { apply set_eq. intros n. rewrite !elem_of_dom, Hlookup, seedStats_lookup.
    by rewrite !fmap_is_Some. }
  split; [done|].
  intros n. apply seedStats_lookup.
Qed.

Lemma calculateAllTimeStats_rollup_witness :
  let matematik :=
    SubjectData.Build "Matematik" "🔢" 5 2 0 15 "bg-blue-500" in
  let tarih := SubjectData.Build "Tarih" "🌍" 1 0 0 8 "bg-green-500" in
  let recordA :=
    DailyProgress.Build "2024-01-14"
      {[ "Matematik" := DayEntry.Build 3 1 1 5 None;
         "Fizik" := DayEntry.Build 9 9 9 27 None ]} 32 None "u1" 1 in
  let recordB :=
    DailyProgress.Build "2024-01-13"
      {[ "Tarih" := DayEntry.Build 2 2 2 6 None ]} 6 None "u1" 2 in
  calculateAllTimeStats [matematik; tarih] [recordA; recordB] !! "Matematik"
  = Some (Stats.Build 8 3 1 12)
  /\ calculateAllTimeStats [matematik; tarih] [recordA; recordB] !! "Fizik"
     = None.
Proof.
  intros matematik tarih recordA recordB.
  destruct (calculateAllTimeStats_rollup [matematik; tarih]
              [recordA; recordB]) as (_ & Hin & Hout & _).
  split.
  - transitivity (Some (rollupOf [recordA; recordB] matematik));
      [|vm_compute; reflexivity].
    apply (Hin matematik).
    + simpl. repeat (apply NoDup_cons; split; [by vm_compute; set_solver|]).
      apply NoDup_nil_2.
    + apply list_elem_of_here.
  - apply Hout. intros subject Hs.
    apply elem_of_cons in Hs as [->|Hs]; [done|].
    apply list_elem_of_singleton in Hs as ->. done.
Defined.

(** ** The weekly window *)

Section Window.

(** A stored date, read back, is the midnight (UTC) of a day. *)
Lemma parseDate_midnight s t :
  parseDate s = Some t -> exists d, t = d * msPerDay.
Proof.
  unfold parseDate. intros H.
  repeat case_match; try discriminate.
  injection H as <-. by eexists.
Qed.

Lemma utcDay_midnight d : utcDay (d * msPerDay) = d.
Proof. unfold utcDay, msPerDay. by rewrite Z.div_mul. Qed.

(** Seven local calendar days back is seven times 24 hours back, shifted
    by the change of the local offset in between. *)
Lemma weekAgo_offsetChange zone now :
  weekAgo zone now = now - 7 * msPerDay + offsetChange zone now.
Proof. unfold weekAgo, offsetChange, utcOfLocal, localTime. lia. Qed.

Lemma offsetChange_fixed offset now :
  offsetChange (TimeZone.fixed offset) now = 0.
Proof. unfold offsetChange. simpl. lia. Qed.

Lemma inLastWeek_instant zone now day t :
  parseDate (DailyProgress.date day) = Some t ->
  inLastWeek zone now day = true <-> weekAgo zone now <= t.
Proof.
  intros Ht. unfold inLastWeek. rewrite Ht. apply Z.leb_le.
Qed.

(** The window in whole days: the midnight of day [d] is within seven
    times 24 hours of [now] from the sixth day back on, and on the
    seventh day back only at midnight sharp. *)
Lemma window_days now d :
  (now - 7 * msPerDay <= d * msPerDay
   <-> utcDay now - 6 <= d
       \/ (d = utcDay now - 7 /\ now mod msPerDay = 0)).
Proof.
  unfold utcDay, msPerDay.
  pose proof (Z.div_mod now 86400000 ltac:(lia)) as Hdm.
  pose proof (Z.mod_pos_bound now 86400000 ltac:(lia)) as Hb.
  lia.
Qed.

(** The same when the clocks were changed by less than a day: the fifth
    day back and later days are inside, the eighth day back and earlier
    days outside. *)
Lemma window_days_shifted now shift d :
  - msPerDay < shift < msPerDay ->
  (utcDay now - 5 <= d -> now - 7 * msPerDay + shift <= d * msPerDay)
  /\ (d <= utcDay now - 8 -> d * msPerDay < now - 7 * msPerDay + shift).
Proof.
  unfold utcDay, msPerDay.
  pose proof (Z.div_mod now 86400000 ltac:(lia)) as Hdm.
  pose proof (Z.mod_pos_bound now 86400000 ltac:(lia)) as Hb.
  lia.
Qed.

(** Across a change of the clocks the window is not one of whole UTC
    days: in New York on 2024-03-13 at 19:30 local time (daylight time,
    23:30 UTC), three days after the clocks went forward, seven local
    days back is 2024-03-06 19:30 standard time, 00:30 UTC of
    2024-03-07, and a record dated 2024-03-07, six UTC days before
    today, is outside the window. *)
Lemma inLastWeek_across_clock_change :
  let now := 1710372600000 in
  let record :=
    DailyProgress.Build "2024-03-07"
      {[ "Matematik" := DayEntry.Build 3 1 1 5 None ]} 5 None "u1" 1 in
  offsetChange newYork2024 now = 3600000
  /\ weekAgo newYork2024 now = 1709771400000
  /\ parseDate (DailyProgress.date record)
     = Some ((utcDay now - 6) * msPerDay)
  /\ inLastWeek newYork2024 now record = false
  /\ inLastWeek TimeZone.utc now record = true.
Proof. repeat split; vm_compute; reflexivity. Qed.

End Window.

(** C7, as the specification states it, fails on the boundary: at noon
    (UTC) of 2024-01-15, in a browser whose zone is UTC, a record dated
    2024-01-08, seven days back, is in the window as the specification
    words it, yet [calculateWeeklyStats] leaves it out and shows the
    snapshot's counts alone. *)
Lemma calculateWeeklyStats_boundary_excluded :
  let now := 1705320000000 in
  let zone := TimeZone.utc in
  let matematik :=
    SubjectData.Build "Matematik" "🔢" 5 2 0 15 "bg-blue-500" in
  let record :=
    DailyProgress.Build "2024-01-08"
      {[ "Matematik" := DayEntry.Build 3 1 1 5 None ]} 5 None "u1" 1 in
  parseDate "2024-01-15" = Some (utcDay now * msPerDay)
  /\ parseDate (DailyProgress.date record)
     = Some ((utcDay now - 7) * msPerDay)
  /\ inLast7DaysSpec now record = true
  /\ inLastWeek zone now record = false
  /\ calculateWeeklyStats zone now [matematik] [record] !! "Matematik"
     = Some (Stats.Build 5 2 0 7)
  /\ weeklyRollupSpec now [matematik] [record] !! "Matematik"
     = Some (Stats.Build 8 3 1 12)
  /\ calculateWeeklyStats zone now [matematik] [record]
     <> weeklyRollupSpec now [matematik] [record].
Proof.
  intros now zone matematik record.
  assert (Hcode :
    calculateWeeklyStats zone now [matematik] [record] !! "Matematik"
    = Some (Stats.Build 5 2 0 7)) by (vm_compute; reflexivity).
  assert (Hspec : weeklyRollupSpec now [matematik] [record] !! "Matematik"
                  = Some (Stats.Build 8 3 1 12)) by (vm_compute; reflexivity).
  split; [vm_compute; reflexivity|].
  split; [vm_compute; reflexivity|].
  split; [vm_compute; reflexivity|].
  split; [vm_compute; reflexivity|].
  split; [exact Hcode|].
  split; [exact Hspec|].
  intros Heq.
  pose proof (f_equal (fun stats => stats !! "Matematik") Heq) as Hsame.
  pose proof (eq_trans (eq_sym Hcode) (eq_trans Hsame Hspec)) as Habsurd.
  discriminate Habsurd.
Qed.

(** C7 (amended): the weekly rollup is the rollup over the records of the
    history whose date, read as midnight UTC, is no earlier than the
    instant seven local calendar days before the current one, at the same
    local time of day; that instant is seven times 24 hours before now,
    shifted by the change of the browser's UTC offset in between.  When
    the offset has changed by less than a day, records dated up to five
    days before today (UTC) contribute, in particular one from 3 days
    ago, and records dated 8 or more days before today, such as 8 and 10
    days ago, contribute nothing.  When the offset has not changed, a
    record dated six days before today contributes as well, and a record
    dated seven days before today contributes only when the current time
    is midnight UTC sharp.  Records whose date cannot be read contribute
    nothing. *)
Theorem calculateWeeklyStats_window zone now subjectProgress dailyHistory :
  (forall subjectName,
     calculateWeeklyStats zone now subjectProgress dailyHistory
       !! subjectName
     = rollupOf (List.filter (inLastWeek zone now) dailyHistory)
       <$> lastNamed subjectName subjectProgress)
  /\ weekAgo zone now = now - 7 * msPerDay + offsetChange zone now
  /\ (forall day t,
      parseDate (DailyProgress.date day) = Some t ->
      (inLastWeek zone now day = true <-> weekAgo zone now <= t)
      /\ (- msPerDay < offsetChange zone now < msPerDay ->
          (utcDay now - 5 <= utcDay t -> inLastWeek zone now day = true)
          /\ (utcDay t <= utcDay now - 8 ->
              inLastWeek zone now day = false))
      /\ (offsetChange zone now = 0 ->
          (utcDay now - 6 <= utcDay t -> inLastWeek zone now day = true)
          /\ (utcDay t = utcDay now - 7 ->
              (inLastWeek zone now day = true <-> now mod msPerDay = 0))
          /\ (utcDay t <= utcDay now - 8 ->
              inLastWeek zone now day = false)))
  /\ (forall day,
      parseDate (DailyProgress.date day) = None ->
      inLastWeek zone now day = false).
Proof.
  split; [intros n; apply rollup_lookup|].
  split; [apply weekAgo_offsetChange|].
  split.
  - intros day t Ht.
    pose proof (inLastWeek_instant zone now day t Ht) as Hin.
    split; [done|].
    rewrite weekAgo_offsetChange in Hin.
    destruct (parseDate_midnight _ _ Ht) as [d ->].
    rewrite utcDay_midnight. split.
    + intros Hshift.
      destruct (window_days_shifted now (offsetChange zone now) d Hshift)
        as [Hinside Houtside].
      split; [intros Hd; by apply Hin, Hinside|].
      intros Hd. destruct (inLastWeek zone now day) eqn:Hb; [|done].
      pose proof (proj1 Hin eq_refl). pose proof (Houtside Hd). lia.
    + intros Hsame. rewrite Hsame, Z.add_0_r in Hin.
      pose proof (window_days now d) as Hw.
      split; [|split].
      * intros Hd. apply Hin, Hw. by left.
      * intros Hd. rewrite Hin, Hw. split; [|by right].
        intros [Hge|[_ Hm]]; [lia|done].
      * intros Hd. destruct (inLastWeek zone now day) eqn:Hb; [|done].
        destruct (proj1 Hw (proj1 Hin eq_refl)) as [Hge|[Heq _]]; lia.
  - intros day Hnone. unfold inLastWeek. by rewrite Hnone.
Qed.

Lemma calculateWeeklyStats_window_witness :
  let now := 1705320000000 in
  let days (date : string) :=
    DailyProgress.Build date
      {[ "Matematik" := DayEntry.Build 3 1 1 5 None ]} 5 None "u1" 1 in
  utcDay now = 19737
  /\ inLastWeek TimeZone.utc now (days "2024-01-12") = true
  /\ inLastWeek TimeZone.utc now (days "2024-01-09") = true
  /\ inLastWeek TimeZone.utc now (days "2024-01-07") = false
  /\ inLastWeek newYork2024 1710372600000 (days "2024-03-10") = true
  /\ inLastWeek newYork2024 1710372600000 (days "2024-03-03") = false.
Proof.
  intros now days.
  pose proof (calculateWeeklyStats_window TimeZone.utc now [] [])
    as (_ & _ & Hwin & _).
  pose proof (calculateWeeklyStats_window newYork2024 1710372600000 [] [])
    as (_ & _ & Hdst & _).
  split; [reflexivity|].
  split; [|split; [|split; [|split]]].
  - destruct (Hwin (days "2024-01-12") (19734 * msPerDay) eq_refl)
      as (_ & Hshift & _).
    destruct (Hshift ltac:(by vm_compute)) as [Hinside _].
    apply Hinside. rewrite utcDay_midnight. by vm_compute.
  - destruct (Hwin (days "2024-01-09") (19731 * msPerDay) eq_refl)
      as (_ & _ & Hsame).
    destruct (Hsame eq_refl) as (Hinside & _).
    apply Hinside. rewrite utcDay_midnight. by vm_compute.
  - destruct (Hwin (days "2024-01-07") (19729 * msPerDay) eq_refl)
      as (_ & _ & Hsame).
    destruct (Hsame eq_refl) as (_ & _ & Houtside).
    apply Houtside. rewrite utcDay_midnight. by vm_compute.
  - destruct (Hdst (days "2024-03-10") (19792 * msPerDay) eq_refl)
      as (_ & Hshift & _).
    destruct (Hshift ltac:(by vm_compute)) as [Hinside _].
    apply Hinside. rewrite utcDay_midnight. by vm_compute.
  - destruct (Hdst (days "2024-03-03") (19785 * msPerDay) eq_refl)
      as (_ & Hshift & _).
    destruct (Hshift ltac:(by vm_compute)) as [_ Houtside].
    apply Houtside. rewrite utcDay_midnight. by vm_compute.
Defined.

(** ** Percentages *)

(** C8, as the specification states it, fails for a target of 0:
    [getProgressPercentage] has no guard, so the division by zero gives
    [NaN] when nothing is answered and 100 otherwise, where the
    specification says 0. *)
Lemma getProgressPercentage_zero_target_unguarded :
  let idle := SubjectData.Build "Matematik" "🔢" 0 0 0 0 "bg-blue-500" in
  let busy := SubjectData.Build "Matematik" "🔢" 2 1 0 0 "bg-blue-500" in
  percentageSpec idle = 0%Q
  /\ getProgressPercentage idle = NaN
  /\ percentageSpec busy = 0%Q
  /\ getProgressPercentage busy = Finite 100
  /\ getProgressPercentage idle <> Finite (percentageSpec idle)
  /\ getProgressPercentage busy <> Finite (percentageSpec busy).
Proof.
  intros idle busy. repeat split; try reflexivity; discriminate.
Qed.

(** C8 (amended): for a subject whose target is at least 1, as every
    target the application sets is, the percentage is
    [min(100, 100 * (correct + wrong + empty) / target)] (in exact
    arithmetic). *)
Theorem getProgressPercentage_formula subject :
  1 <= SubjectData.target subject ->
  exists q,
    getProgressPercentage subject = Finite q
    /\ (q == Qmin 100
              (100 * inject_Z (answered subject)
               / inject_Z (SubjectData.target subject)))%Q
    /\ (q == percentageSpec subject)%Q.
Proof.
  intros Ht. unfold getProgressPercentage, percentageSpec, jsDiv.
  destruct (SubjectData.target subject =? 0) eqn:Hz; [lia|].
  simpl. eexists. split; [reflexivity|].
  assert (Heq :
    (Qmin (inject_Z (SubjectData.correct subject + SubjectData.wrong subject
                     + SubjectData.empty subject)
           / inject_Z (SubjectData.target subject) * 100) 100
     == Qmin 100
          (100 * inject_Z (answered subject)
           / inject_Z (SubjectData.target subject)))%Q).
  { rewrite Q.min_comm. unfold answered.
    apply Q.min_compat; [reflexivity|].
    unfold Qdiv. ring. }
  split; exact Heq.
Qed.

Lemma getProgressPercentage_formula_witness :
  let matematik :=
    SubjectData.Build "Matematik" "🔢" 5 2 0 15 "bg-blue-500" in
  exists q,
    getProgressPercentage matematik = Finite q /\ (q == 140 # 3)%Q.
Proof.
  intros matematik.
  destruct (getProgressPercentage_formula matematik) as (q & Hq & Hmin & _).
  - simpl. lia.
  - exists q. split; [exact Hq|]. rewrite Hmin. reflexivity.
Defined.

(** ** Mutations and their upserts *)

Section Mutations.






End Mutations.




(** ** Editing a target *)

Section Targets.

Lemma sumTargets_cons subject subjects :
  sumTargets (subject :: subjects)
  = SubjectData.target subject + sumTargets subjects.
Proof.
  unfold sumTargets at 1. simpl. rewrite sumTargets_from. lia.
Qed.

Lemma sumTargets_app subjects1 subjects2 :
  sumTargets (subjects1 ++ subjects2)
  = sumTargets subjects1 + sumTargets subjects2.
Proof.
  induction subjects1 as [|s rest IH]; simpl; [done|].
  rewrite !sumTargets_cons, IH. lia.
Qed.

(** Replacing one subject moves the sum by the change of its target. *)
Lemma sumTargets_insert subjects i old new :
  subjects !! i = Some old ->
  sumTargets (<[i := new]> subjects)
  = sumTargets subjects - SubjectData.target old + SubjectData.target new.
Proof.
  revert i. induction subjects as [|s rest IH]; intros [|i] Hs;
    simpl in *; try done.
  - injection Hs as ->. rewrite !sumTargets_cons. lia.
  - rewrite !sumTargets_cons, (IH i Hs). lia.
Qed.

Lemma targetsPositive_sum subjects :
  targetsPositive subjects ->
  Z.of_nat (length subjects) <= sumTargets subjects.
Proof.
  induction 1 as [|s rest Hs _ IH]; [done|].
  rewrite sumTargets_cons. simpl length. lia.
Qed.

End Targets.

(** X1: [updateTarget] on a subject of the snapshot sets that subject's
    target to [Math.max(1, newTarget)], leaves every other subject, every
    counter, [totalQuestions] and the store alone, and sets [totalTarget]
    to the sum of the targets, that is the old sum moved by the change of
    the one target; targets that were all at least 1 stay so.  On an
    index outside the snapshot it throws and changes nothing. *)
Theorem updateTarget_clamps subjectIndex newTarget app :
  (forall subject,
     Component.subjectProgress (App.ui app) !! subjectIndex = Some subject ->
     let ui := App.ui app in
     let ui' := App.ui (updateTarget subjectIndex newTarget app).2 in
     (updateTarget subjectIndex newTarget app).1 = Ok tt
     /\ App.db (updateTarget subjectIndex newTarget app).2 = App.db app
     /\ Component.subjectProgress ui' !! subjectIndex
        = Some (setTarget (Z.max 1 newTarget) subject)
     /\ (forall j, j <> subjectIndex ->
         Component.subjectProgress ui' !! j
         = Component.subjectProgress ui !! j)
     /\ length (Component.subjectProgress ui')
        = length (Component.subjectProgress ui)
     /\ Component.totalQuestions ui' = Component.totalQuestions ui
     /\ answeredTotal (Component.subjectProgress ui')
        = answeredTotal (Component.subjectProgress ui)
     /\ targetsAgree ui'
     /\ Component.totalTarget ui'
        = sumTargets (Component.subjectProgress ui)
          - SubjectData.target subject + Z.max 1 newTarget
     /\ (targetsPositive (Component.subjectProgress ui) ->
         targetsPositive (Component.subjectProgress ui')
         /\ Z.of_nat (length (Component.subjectProgress ui'))
            <= Component.totalTarget ui'))
  /\ (Component.subjectProgress (App.ui app) !! subjectIndex = None ->
      updateTarget subjectIndex newTarget app = (Throw TypeError, app)).
Proof.
  split; [|apply updateTarget_throw].
  intros subject Hs ui ui'. subst ui ui'.
  rewrite (updateTarget_ok _ newTarget _ _ Hs). cbv zeta. simpl.
  pose proof (lookup_lt_Some _ _ _ Hs) as Hlt.
  split; [done|]. split; [done|].
  split; [by apply list_lookup_insert_eq|].
  split; [intros j Hj; by apply list_lookup_insert_ne|].
  split; [apply length_insert|]. split; [done|].
  split; [by apply answeredTotal_insert_same with (s := subject)|].
  split; [done|].
  split; [by rewrite (sumTargets_insert _ _ subject)|].
  intros Hpos.
  assert (Hpos' : targetsPositive
                    (<[subjectIndex := setTarget (Z.max 1 newTarget) subject]>
                       (Component.subjectProgress (App.ui app)))).
  { apply Forall_insert; [done|]. simpl. lia. }
  split; [done|]. by apply targetsPositive_sum.
Qed.

Lemma updateTarget_clamps_witness :
  let matematik :=
    SubjectData.Build "Matematik" "🔢" 5 2 0 15 "bg-blue-500" in
  let tarih := SubjectData.Build "Tarih" "🌍" 1 0 0 8 "bg-green-500" in
  let app :=
    App.Build
      (Component.Build [matematik; tarih] [] 8 23 false false "2024-01-15")
      (Firestore.Build ∅ ∅ ∅ 0 "2024-01-15" [] []) in
  Component.subjectProgress (App.ui (updateTarget 1 (-4) app).2) !! 1%nat
  = Some (setTarget 1 tarih)
  /\ Component.totalTarget (App.ui (updateTarget 1 (-4) app).2) = 16
  /\ updateTarget 2 9 app = (Throw TypeError, app).
Proof.
  intros matematik tarih app.
  destruct (updateTarget_clamps 1%nat (-4) app) as [Hin _].
  destruct (Hin tarih eq_refl)
    as (_ & _ & Hsubject & _ & _ & _ & _ & _ & Htotal & _).
  split; [exact Hsubject|]. split; [exact Htotal|].
  apply (proj2 (updateTarget_clamps 2%nat 9 app)). reflexivity.
Defined.

(** X2: [handleTargetKeyPress], whatever the text in the field, leaves a
    target of at least 1: on [Enter] the edited subject's target becomes
    the parsed number when that is 1 or more, and 1 when the text does not
    parse, parses to 0 or parses to a negative number; on any other key
    the snapshot is not touched. *)
Theorem handleTargetKeyPress_target parseInt key subjectIndex value app
    subject :
  Component.subjectProgress (App.ui app) !! subjectIndex = Some subject ->
  let after := (handleTargetKeyPress parseInt key subjectIndex value app).2 in
  (key <> "Enter" ->
   handleTargetKeyPress parseInt key subjectIndex value app = (Ok tt, app))
  /\ (key = "Enter" ->
      exists subject',
        Component.subjectProgress (App.ui after) !! subjectIndex
        = Some subject'
        /\ 1 <= SubjectData.target subject'
        /\ SubjectData.target subject'
           = match parseInt value with
             | Some n => if 1 <=? n then n else 1
             | None => 1
             end
        /\ answered subject' = answered subject
        /\ targetsAgree (App.ui after)).
Proof.
  intros Hs after. subst after. unfold handleTargetKeyPress. split.
  - intros Hkey. by destruct (decide (key = "Enter")).
  - intros Hkey. destruct (decide (key = "Enter")); [|done].
    rewrite (updateTarget_ok _ _ _ _ Hs). cbv zeta. simpl.
    eexists. split.
    { apply list_lookup_insert_eq. by eapply lookup_lt_Some. }
    simpl. split; [lia|]. split; [|done].
    unfold orOne. destruct (parseInt value) as [n|]; [|done].
    destruct (n =? 0) eqn:Hz; destruct (1 <=? n) eqn:Hn; lia.
Qed.

Lemma handleTargetKeyPress_target_witness :
  let matematik :=
    SubjectData.Build "Matematik" "🔢" 5 2 0 15 "bg-blue-500" in
  let app :=
    App.Build (Component.Build [matematik] [] 7 15 false false "2024-01-15")
      (Firestore.Build ∅ ∅ ∅ 0 "2024-01-15" [] []) in
  let parseInt (text : string) := numberOf (list_ascii_of_string text) in
  handleTargetKeyPress parseInt "Escape" 0 "20" app = (Ok tt, app)
  /\ exists subject',
       Component.subjectProgress
         (App.ui (handleTargetKeyPress parseInt "Enter" 0 "0" app).2)
         !! 0%nat = Some subject'
       /\ SubjectData.target subject' = 1.
Proof.
  intros matematik app parseInt.
  split.
  - apply (handleTargetKeyPress_target parseInt "Escape" 0%nat "20" app
             matematik eq_refl).
    discriminate.
  - destruct (handleTargetKeyPress_target parseInt "Enter" 0%nat "0" app
                matematik eq_refl) as [_ Henter].
    destruct (Henter eq_refl) as (subject' & Hs & _ & Ht & _).
    exists subject'. split; [exact Hs|exact Ht].
Defined.
(** ** Percentages: bounds *)

Section Ratio.

Lemma percent_lt a t :
  0 < t -> (inject_Z a / inject_Z t * 100 < 100)%Q <-> a < t.
Proof.
  intros Ht. destruct t as [|p|p]; try lia.
  unfold Qlt, Qdiv, Qmult, Qinv, inject_Z; simpl. lia.
Qed.

Lemma percent_le a t :
  0 < t -> (100 <= inject_Z a / inject_Z t * 100)%Q <-> t <= a.
Proof.
  intros Ht. destruct t as [|p|p]; try lia.
  unfold Qle, Qdiv, Qmult, Qinv, inject_Z; simpl. lia.
Qed.

Lemma percent_nonneg a t :
  0 < t -> (0 <= inject_Z a / inject_Z t * 100)%Q <-> 0 <= a.
Proof.
  intros Ht. destruct t as [|p|p]; try lia.
  unfold Qle, Qdiv, Qmult, Qinv, inject_Z; simpl. lia.
Qed.

End Ratio.

(** X3: [overallProgress] is always a finite number: 0 when the total
    target is not positive, and otherwise 100 times the ratio of the
    questions to the total target, which is not negative for a
    non-negative count and is below 100 exactly when the count is below
    the target (the value itself is not capped at 100). *)
Theorem overallProgress_guarded totalQuestions totalTarget :
  exists q,
    overallProgress totalQuestions totalTarget = Finite q
    /\ (totalTarget <= 0 -> q = 0%Q)
    /\ (0 < totalTarget ->
        (q == 100 * inject_Z totalQuestions / inject_Z totalTarget)%Q
        /\ ((q < 100)%Q <-> totalQuestions < totalTarget)
        /\ ((0 <= q)%Q <-> 0 <= totalQuestions)).
Proof.
  unfold overallProgress, jsDiv.
  destruct (0 <? totalTarget) eqn:Hpos.
  - destruct (totalTarget =? 0) eqn:Hz; [lia|]. simpl.
    eexists. split; [reflexivity|]. split; [lia|]. intros Ht.
    split; [unfold Qdiv; ring|].
    split; [by apply percent_lt|by apply percent_nonneg].
  - exists 0%Q. split; [done|]. split; [done|]. lia.
Qed.

Lemma overallProgress_guarded_witness :
  exists q,
    overallProgress 7 60 = Finite q /\ (q == 35 # 3)%Q /\ (q < 100)%Q.
Proof.
  destruct (overallProgress_guarded 7 60) as (q & Hq & _ & Hpos).
  destruct (Hpos ltac:(lia)) as (Heq & Hlt & _).
  exists q. split; [exact Hq|]. split.
  - rewrite Heq. reflexivity.
  - apply Hlt. lia.
Defined.

(** X4: for a subject with a target of at least 1 and no negative total,
    [getProgressPercentage] lies between 0 and 100, and it is 100 exactly
    when the answered questions reach the target (the condition under
    which the card shows the target as met). *)
Theorem getProgressPercentage_bounds subject :
  1 <= SubjectData.target subject ->
  0 <= answered subject ->
  exists q,
    getProgressPercentage subject = Finite q
    /\ (0 <= q)%Q /\ (q <= 100)%Q
    /\ ((q == 100)%Q <-> SubjectData.target subject <= answered subject).
Proof.
  intros Ht Ha. unfold getProgressPercentage, jsDiv.
  destruct (SubjectData.target subject =? 0) eqn:Hz; [lia|]. simpl.
  fold (answered subject).
  set (ratio := (inject_Z (answered subject)
                 / inject_Z (SubjectData.target subject) * 100)%Q).
  assert (Hnonneg : (0 <= ratio)%Q) by (apply percent_nonneg; lia).
  pose proof (percent_le (answered subject) (SubjectData.target subject)
                ltac:(lia)) as Hle.
  fold ratio in Hle.
  eexists. split; [reflexivity|].
  destruct (Q.min_spec ratio 100) as [[Hlt ->]|[Hge ->]].
  - split; [done|]. split; [by apply Qlt_le_weak|].
    split.
    + intros Heq. rewrite Heq in Hlt. by apply Qlt_irrefl in Hlt.
    + intros Hreach. apply Hle in Hreach.
      exfalso. apply (Qlt_irrefl 100). by eapply Qle_lt_trans.
  - split; [done|]. split; [apply Qle_refl|].
    split; [intros _; by apply Hle|reflexivity].
Qed.

Lemma getProgressPercentage_bounds_witness :
  let matematik :=
    SubjectData.Build "Matematik" "🔢" 12 2 3 15 "bg-blue-500" in
  exists q, getProgressPercentage matematik = Finite q /\ (q == 100)%Q.
Proof.
  intros matematik.
  destruct (getProgressPercentage_bounds matematik) as (q & Hq & _ & _ & Hfull).
  - simpl. lia.
  - unfold answered. simpl. lia.
  - exists q. split; [exact Hq|]. apply Hfull. unfold answered. simpl. lia.
Defined.

(** ** Accuracy of the rollups *)

Section Accuracy.

Lemma percent_at_most a t :
  0 < t -> (inject_Z a / inject_Z t * 100 <= 100)%Q <-> a <= t.
Proof.
  intros Ht. destruct t as [|p|p]; try lia.
  unfold Qle, Qdiv, Qmult, Qinv, inject_Z; simpl. lia.
Qed.

Lemma entryOf_sound subjectName day :
  map_Forall (fun _ e => 0 <= DayEntry.correct e <= DayEntry.total e)
    (DailyProgress.subjects day) ->
  0 <= DayEntry.correct (entryOf subjectName day)
  <= DayEntry.total (entryOf subjectName day).
Proof.
  intros Hday. unfold entryOf.
  destruct (DailyProgress.subjects day !! subjectName) as [e|] eqn:He.
  - simpl. by apply (Hday subjectName).
  - simpl. lia.
Qed.

Lemma sumOver_sound subjectName dailyHistory :
  historySound dailyHistory ->
  0 <= sumOver DayEntry.correct subjectName dailyHistory
  <= sumOver DayEntry.total subjectName dailyHistory.
Proof.
  unfold sumOver. induction 1 as [|day rest Hday _ IH]; simpl; [lia|].
  pose proof (entryOf_sound subjectName day Hday). lia.
Qed.

Lemma historySound_filter keep dailyHistory :
  historySound dailyHistory -> historySound (List.filter keep dailyHistory).
Proof.
  unfold historySound. induction 1 as [|day rest Hday _ IH]; simpl; [done|].
  destruct (keep day); [by constructor|done].
Qed.

(** The stats shown for a subject, for a rollup over any part of the
    history: correct answers are not negative and not above the total. *)
Lemma statsFor_sound subjectProgress dailyHistory subject :
  Forall
    (fun s => 0 <= SubjectData.correct s /\ 0 <= SubjectData.wrong s
              /\ 0 <= SubjectData.empty s)
    subjectProgress ->
  historySound dailyHistory ->
  let stats :=
    statsFor (fold_left addDay dailyHistory (seedStats subjectProgress))
      subject in
  0 <= Stats.correct stats <= Stats.total stats.
Proof.
  intros Hsnapshot Hhistory stats. subst stats. unfold statsFor.
  rewrite rollup_lookup.
  destruct (lastNamed (SubjectData.name subject) subjectProgress)
    as [s|] eqn:Hl; simpl; [|lia].
  destruct (lastNamed_name _ _ _ Hl) as [_ Hin].
  pose proof (proj1 (Forall_forall _ _) Hsnapshot s Hin) as (Hc & Hw & He).
  pose proof (sumOver_sound (SubjectData.name s) dailyHistory Hhistory).
  unfold answered. lia.
Qed.

Lemma accuracy_range stats :
  0 <= Stats.correct stats <= Stats.total stats ->
  exists q, accuracy stats = Finite q /\ (0 <= q)%Q /\ (q <= 100)%Q.
Proof.
  intros Hs. unfold accuracy, jsDiv.
  destruct (0 <? Stats.total stats) eqn:Hpos.
  - destruct (Stats.total stats =? 0) eqn:Hz; [lia|]. simpl.
    eexists. split; [reflexivity|].
    split; [apply percent_nonneg; lia|apply percent_at_most; lia].
  - exists 0%Q. repeat split; done.
Qed.

End Accuracy.

(** X5: when the counters of the snapshot are not negative and every
    history entry has [0 <= correct <= total], the stats shown for any
    subject in the all-time and weekly views have
    [0 <= correct <= total], and the accuracy shown for it is a finite
    number between 0 and 100 (0 when nothing was answered, and for a
    subject the rollup has no entry for). *)
Theorem rollup_accuracy_range zone now subjectProgress dailyHistory subject :
  Forall
    (fun s => 0 <= SubjectData.correct s /\ 0 <= SubjectData.wrong s
              /\ 0 <= SubjectData.empty s)
    subjectProgress ->
  historySound dailyHistory ->
  let allTime :=
    statsFor (calculateAllTimeStats subjectProgress dailyHistory) subject in
  let weekly :=
    statsFor (calculateWeeklyStats zone now subjectProgress dailyHistory)
      subject in
  0 <= Stats.correct allTime <= Stats.total allTime
  /\ 0 <= Stats.correct weekly <= Stats.total weekly
  /\ (exists q, accuracy allTime = Finite q /\ (0 <= q)%Q /\ (q <= 100)%Q)
  /\ (exists q, accuracy weekly = Finite q /\ (0 <= q)%Q /\ (q <= 100)%Q).
Proof.
  intros Hsnapshot Hhistory allTime weekly.
  assert (Hall : 0 <= Stats.correct allTime <= Stats.total allTime)
    by (by apply statsFor_sound).
  assert (Hweek : 0 <= Stats.correct weekly <= Stats.total weekly)
    by (apply statsFor_sound; [done|by apply historySound_filter]).
  split; [done|]. split; [done|].
  split; by apply accuracy_range.
Qed.

Lemma rollup_accuracy_range_witness :
  let matematik :=
    SubjectData.Build "Matematik" "🔢" 5 2 0 15 "bg-blue-500" in
  let record :=
    DailyProgress.Build "2024-01-14"
      {[ "Matematik" := DayEntry.Build 3 1 1 5 None ]} 5 None "u1" 1 in
  exists q,
    accuracy (statsFor (calculateAllTimeStats [matematik] [record]) matematik)
    = Finite q
    /\ (0 <= q)%Q /\ (q <= 100)%Q.
Proof.
  intros matematik record.
  destruct (rollup_accuracy_range TimeZone.utc 0 [matematik] [record]
              matematik)
    as (_ & _ & Hall & _).
  - repeat constructor; simpl; lia.
  - constructor; [|constructor].
    apply map_Forall_singleton. simpl. lia.
  - exact Hall.
Defined.

(** ** The catalog documents: what a write of the settings keeps *)

(** X7: [saveUserSettings] stores the structure only: the stored
    subjects are the given ones in the same order, with the same names,
    icons, targets and colours, and with all three counters reset to 0,
    so that the sum of the stored targets is the sum of the given ones;
    [getUserSettings] reads the stored document back. *)
Theorem saveUserSettings_resets_counters userId subjects totalTarget db :
  failing db = false ->
  let saved := saveUserSettings userId subjects totalTarget db in
  exists doc,
    saved.1 = Ok tt
    /\ Firestore.userSettings saved.2 !! userId = Some doc
    /\ (failing saved.2 = false ->
        (getUserSettings userId saved.2).1 = Ok (Some doc))
    /\ UserSettings.totalTarget doc = totalTarget
    /\ length (UserSettings.subjects doc) = length subjects
    /\ (forall i subject,
        subjects !! i = Some subject ->
        UserSettings.subjects doc !! i = Some (withCounts 0 0 0 subject))
    /\ Forall (fun stored => answered stored = 0) (UserSettings.subjects doc)
    /\ sumTargets (UserSettings.subjects doc) = sumTargets subjects
    /\ Firestore.userProgress saved.2 = Firestore.userProgress db
    /\ Firestore.dailyHistory saved.2 = Firestore.dailyHistory db.
Proof.
  intros Hf. cbv zeta. rewrite saveUserSettings_run. cbv zeta. rewrite Hf.
  simpl. eexists. split; [done|].
  split; [by rewrite lookup_insert_eq|].
  split.
  { intros Hf'. rewrite getUserSettings_run, Hf'. simpl.
    by rewrite lookup_insert_eq. }
  simpl. split; [done|]. split; [apply length_map|].
  split.
  { intros i subject Hs.
    change (withCounts 0 0 0 <$> subjects) with (fmap (withCounts 0 0 0) subjects).
    by rewrite list_lookup_fmap, Hs. }
  split.
  { apply Forall_forall. intros stored Hin.
    apply list_elem_of_fmap in Hin as (s & -> & _). reflexivity. }
  split; [|done].
  induction subjects as [|s rest IH]; [done|].
  simpl. by rewrite !sumTargets_cons, IH.
Qed.

Lemma saveUserSettings_resets_counters_witness :
  let db := Firestore.Build ∅ ∅ ∅ 0 "2024-01-15" [] [] in
  let matematik :=
    SubjectData.Build "Matematik" "🔢" 5 2 0 15 "bg-blue-500" in
  exists doc,
    Firestore.userSettings (saveUserSettings "u1" [matematik] 15 db).2 !! "u1"
    = Some doc
    /\ UserSettings.subjects doc
       = [SubjectData.Build "Matematik" "🔢" 0 0 0 15 "bg-blue-500"].
Proof.
  intros db matematik.
  destruct (saveUserSettings_resets_counters "u1" [matematik] 15 db eq_refl)
    as (doc & _ & Hdoc & _ & _ & Hlen & Hsubjects & _).
  exists doc. split; [exact Hdoc|].
  pose proof (Hsubjects 0%nat matematik eq_refl) as H0.
  destruct (UserSettings.subjects doc) as [|s [|s' rest]]; try discriminate.
  simpl in H0. by injection H0 as ->.
Defined.

(** ** Persisting a mutation and loading it back *)

Section Reload.

Lemma fold_insert_lookup {V} (f : SubjectData.t -> V) subjects subjectName :
  fold_left
    (fun (m : gmap string V) subject =>
       <[SubjectData.name subject := f subject]> m)
    subjects ∅ !! subjectName
  = f <$> lastNamed subjectName subjects.
Proof.
  induction subjects as [|subject subjects IH] using rev_ind; [done|].
  rewrite fold_left_app, lastNamed_snoc. simpl. rewrite lookup_insert.
  destruct (decide (SubjectData.name subject = subjectName)); [done|].
  apply IH.
Qed.

Lemma structure_counts c s :
  withCounts 0 0 0 c = withCounts 0 0 0 s ->
  withCounts (SubjectData.correct s) (SubjectData.wrong s)
    (SubjectData.empty s) c = s.
Proof. destruct c, s. unfold withCounts; simpl. by intros [= -> -> -> ->]. Qed.

Lemma structure_name c s :
  withCounts 0 0 0 c = withCounts 0 0 0 s ->
  SubjectData.name c = SubjectData.name s.
Proof. destruct c, s. unfold withCounts; simpl. by intros [= -> _ _ _]. Qed.

Lemma structureOf_lookup subjects1 subjects2 i s :
  structureOf subjects1 = structureOf subjects2 ->
  subjects2 !! i = Some s ->
  exists c, subjects1 !! i = Some c
            /\ withCounts 0 0 0 c = withCounts 0 0 0 s.
Proof.
  unfold structureOf. intros Heq Hs.
  assert (Hi : (withCounts 0 0 0 <$> subjects1) !! i
               = Some (withCounts 0 0 0 s)).
  { change (withCounts 0 0 0 <$> subjects1)
      with (map (withCounts 0 0 0) subjects1).
    rewrite Heq. change (map (withCounts 0 0 0) subjects2)
      with (withCounts 0 0 0 <$> subjects2).
    by rewrite list_lookup_fmap, Hs. }
  rewrite list_lookup_fmap in Hi.
  destruct (subjects1 !! i) as [c|]; [|done].
  exists c. split; [done|]. simpl in Hi. congruence.
Qed.

Lemma structureOf_length subjects1 subjects2 :
  structureOf subjects1 = structureOf subjects2 ->
  length subjects1 = length subjects2.
Proof.
  unfold structureOf. intros Heq.
  by rewrite <- (length_map (withCounts 0 0 0) subjects1), Heq, length_map.
Qed.

Lemma structureOf_names subjects :
  map SubjectData.name (structureOf subjects)
  = map SubjectData.name subjects.
Proof. unfold structureOf. rewrite map_map. by apply map_ext. Qed.

(** A bump changes a counter and nothing of the structure. *)
Lemma bumpProgress_structure sp i type change sp' :
  bumpProgress sp i type change = Some sp' ->
  structureOf sp' = structureOf sp.
Proof.
  unfold bumpProgress. destruct (sp !! i) as [s|] eqn:Hs; [|done].
  intros [= <-]. unfold structureOf.
  set (bumped := setCount type (Z.max 0 (getCount type s + change)) s).
  change (withCounts 0 0 0 <$> <[i:=bumped]> sp = withCounts 0 0 0 <$> sp).
  rewrite list_fmap_insert. apply list_insert_id.
  rewrite list_lookup_fmap, Hs. simpl. f_equal. by destruct type.
Qed.

(** [updateQuestions] of a signed-in user, in full. *)
Lemma updateQuestions_signed_in userId i type change app newProgress :
  bumpProgress (Component.subjectProgress (App.ui app)) i type change
  = Some newProgress ->
  updateQuestions (Some userId) i type change app
  = (Ok tt,
     App.Build (afterUpdate newProgress (App.ui app))
       (saveDailyProgressForDate userId
          (progressForDate (Component.selectedDate (App.ui app)) newProgress
             (sumQuestions newProgress))
          (App.db app)).2).
Proof.
  intros Hb. unfold updateQuestions, bind, gets, setState, modify, tryCatch,
    service, ret.
  rewrite Hb. simpl.
  by destruct (saveDailyProgressForDate _ _ _) as [[[]|e] db'].
Qed.

(** Merging the catalog with a record that holds, for every subject of a
    snapshot, an entry with that subject's counters gives the snapshot
    back. *)
Lemma finalSubjects_restores catalog record snapshot :
  structureOf (UserProgress.subjects catalog) = structureOf snapshot ->
  (forall s, s ∈ snapshot ->
     exists e,
       DailyProgress.subjects record !! SubjectData.name s = Some e
       /\ sameCounters e (entryFor s)) ->
  finalSubjects catalog (Some record) = snapshot.
Proof.
  intros Hstructure Hentries. apply list_eq. intros i.
  unfold finalSubjects. rewrite list_lookup_fmap.
  destruct (snapshot !! i) as [s|] eqn:Hs.
  - destruct (structureOf_lookup _ _ _ _ Hstructure Hs) as (c & -> & Hc).
    simpl. f_equal. unfold mergeSubject.
    rewrite (structure_name _ _ Hc).
    destruct (Hentries s) as (e & -> & Hcorrect & Hwrong & Hempty & _);
      [by eapply list_elem_of_lookup_2|].
    simpl in *. rewrite Hcorrect, Hwrong, Hempty.
    by apply structure_counts.
  - apply lookup_ge_None in Hs.
    rewrite <- (structureOf_length _ _ Hstructure) in Hs.
    apply lookup_ge_None in Hs. by rewrite Hs.
Qed.

End Reload.

(** X9: a mutation that has been persisted is read back as it was.  For a
    signed-in user on a store that answers, with a catalog of the same
    structure as the snapshot and subject names that are unique, loading
    the selected date again after an [updateQuestions] call restores
    exactly the subjects and the total the call left (and takes the total
    target from the catalog). *)
Theorem updateQuestions_then_load userId i type change app catalog :
  Firestore.faults (App.db app) = [] ->
  Firestore.userProgress (App.db app) !! userId = Some catalog ->
  structureOf (UserProgress.subjects catalog)
  = structureOf (Component.subjectProgress (App.ui app)) ->
  NoDup (map SubjectData.name (Component.subjectProgress (App.ui app))) ->
  (i < length (Component.subjectProgress (App.ui app)))%nat ->
  let clicked := (updateQuestions (Some userId) i type change app).2 in
  let reloaded :=
    (loadUserDataForDate (Some userId)
       (Component.selectedDate (App.ui app)) clicked).2 in
  Component.subjectProgress (App.ui reloaded)
  = Component.subjectProgress (App.ui clicked)
  /\ Component.totalQuestions (App.ui reloaded)
     = Component.totalQuestions (App.ui clicked)
  /\ Component.totalTarget (App.ui reloaded)
     = UserProgress.totalTarget catalog.
Proof.
  intros Hf Hcatalog Hstructure Hnames Hi.
  apply lookup_lt_is_Some_2 in Hi as [s Hs].
  destruct (bumpProgress_is_Some _ i type change (ex_intro _ _ Hs))
    as [np Hb].
  pose proof (bumpProgress_structure _ _ _ _ _ Hb) as Hnp.
  cbv zeta. rewrite (updateQuestions_signed_in userId _ _ _ _ _ Hb).
  rewrite saveDailyProgressForDate_run. cbv zeta.
  rewrite (failing_nil _ Hf). cbn [snd].
  match goal with
  | |- context [loadUserDataForDate _ _ ?a] => set (clicked := a)
  end.
  assert (Hf' : Firestore.faults (App.db clicked) = [])
    by (subst clicked; simpl; by rewrite Hf).
  rewrite (loadUserDataForDate_found userId _ clicked catalog
             (failing_nil _ Hf') Hcatalog).
  rewrite (failing_nil (sent _ (App.db clicked)))
    by (by apply failing_sent_nil).
  cbn [snd App.ui]. unfold loaded. cbn [Component.subjectProgress
    Component.totalQuestions Component.totalTarget Component.setDataLoading
    Component.setDailyHistory Component.setTotalQuestions
    Component.setTotalTarget Component.setSubjectProgress].
  assert (Hrestored :
    finalSubjects catalog
      (Firestore.dailyHistory (App.db clicked)
         !! dailyDocId userId (Component.selectedDate (App.ui app)))
    = np).
  { subst clicked. cbn [App.db Firestore.dailyHistory
      Firestore.withDailyHistory ProgressForDate.date progressForDate].
    rewrite lookup_insert_eq.
    apply finalSubjects_restores; [by rewrite Hnp|].
    intros s' Hin.
    destruct (mergeDaily_reflects
                (Firestore.dailyHistory
                   (sent (upsertCall userId
                            (progressForDate
                               (Component.selectedDate (App.ui app)) np
                               (sumQuestions np))) (App.db app))
                   !! dailyDocId userId (Component.selectedDate (App.ui app)))
                userId
                (progressForDate (Component.selectedDate (App.ui app)) np
                   (sumQuestions np))
                (Firestore.clock
                   (sent (upsertCall userId
                            (progressForDate
                               (Component.selectedDate (App.ui app)) np
                               (sumQuestions np))) (App.db app))))
      as (_ & _ & _ & _ & Hentries).
    destruct (Hentries (SubjectData.name s') (entryFor s'))
      as (e & He & Hsame & _).
    { simpl. rewrite fold_insert_lookup, lastNamed_unique; [done| |done].
      rewrite <- structureOf_names, Hnp, structureOf_names. exact Hnames. }
    exists e. split; [exact He|exact Hsame]. }
  rewrite Hrestored. subst clicked. by cbn.
Qed.

Lemma updateQuestions_then_load_witness :
  let matematik :=
    SubjectData.Build "Matematik" "🔢" 5 2 0 15 "bg-blue-500" in
  let tarih := SubjectData.Build "Tarih" "🌍" 1 0 0 8 "bg-green-500" in
  let catalog :=
    UserProgress.Build
      [withCounts 9 9 9 matematik; withCounts 0 0 0 tarih] 23 1 None in
  let app :=
    App.Build
      (Component.Build [matematik; tarih] [] 8 23 false false "2024-01-15")
      (Firestore.Build {[ "u1" := catalog ]} ∅ ∅ 4 "2024-01-15" [] []) in
  let clicked := (updateQuestions (Some "u1") 1 Wrong 1 app).2 in
  Component.subjectProgress
    (App.ui (loadUserDataForDate (Some "u1") "2024-01-15" clicked).2)
  = [matematik; SubjectData.Build "Tarih" "🌍" 1 1 0 8 "bg-green-500"].
Proof.
  intros matematik tarih catalog app clicked.
  destruct (updateQuestions_then_load "u1" 1%nat Wrong 1 app catalog)
    as (Hsubjects & _).
  - reflexivity.
  - reflexivity.
  - reflexivity.
  - simpl. repeat (apply NoDup_cons; split; [by vm_compute; set_solver|]).
    apply NoDup_nil_2.
  - simpl. lia.
  - etransitivity; [exact Hsubjects|]. vm_compute. reflexivity.
Defined.

(** ** The selected day in the history *)

Section Stored.

(** What a successful [updateQuestions] of a signed-in user leaves in the
    store: a record under the key of the selected date that holds, for
    every subject of the new snapshot, an entry with its counters. *)
Lemma updateQuestions_stored userId i type change app newProgress :
  Firestore.faults (App.db app) = [] ->
  bumpProgress (Component.subjectProgress (App.ui app)) i type change
  = Some newProgress ->
  NoDup (map SubjectData.name (Component.subjectProgress (App.ui app))) ->
  let clicked := (updateQuestions (Some userId) i type change app).2 in
  App.ui clicked = afterUpdate newProgress (App.ui app)
  /\ exists record,
       Firestore.dailyHistory (App.db clicked)
         !! dailyDocId userId (Component.selectedDate (App.ui app))
       = Some record
       /\ DailyProgress.total record = sumQuestions newProgress
       /\ forall s, s ∈ newProgress ->
            exists e,
              DailyProgress.subjects record !! SubjectData.name s = Some e
              /\ sameCounters e (entryFor s).
Proof.
  intros Hf Hb Hnames. cbv zeta.
  pose proof (bumpProgress_structure _ _ _ _ _ Hb) as Hnp.
  rewrite (updateQuestions_signed_in userId _ _ _ _ _ Hb).
  rewrite saveDailyProgressForDate_run. cbv zeta.
  rewrite (failing_nil _ Hf). cbn [snd App.ui App.db].
  split; [done|].
  cbn [Firestore.dailyHistory Firestore.withDailyHistory
       ProgressForDate.date progressForDate].
  rewrite lookup_insert_eq. eexists. split; [reflexivity|].
  match goal with
  | |- context [upserted ?u ?p ?d] =>
      destruct (mergeDaily_reflects
                  (Firestore.dailyHistory d
                     !! dailyDocId u (ProgressForDate.date p))
                  u p (Firestore.clock d))
        as (_ & Htotal & _ & _ & Hentries)
  end.
  split; [exact Htotal|].
  intros s Hin.
  destruct (Hentries (SubjectData.name s) (entryFor s)) as (e & He & Hsame & _).
  { simpl. rewrite fold_insert_lookup, lastNamed_unique; [done| |done].
    rewrite <- structureOf_names, Hnp, structureOf_names. exact Hnames. }
  exists e. split; [exact He|exact Hsame].
Qed.

End Stored.

(** X10: the rollup counts the selected day twice when the history
    holds that day's record.  After a persisted [updateQuestions] (signed
    in, store answering, unique subject names), the all-time rollup of
    the snapshot over a history consisting of the record stored for the
    selected date shows, for every subject, twice the snapshot's
    counts. *)
Theorem selected_day_counted_twice userId i type change app :
  Firestore.faults (App.db app) = [] ->
  NoDup (map SubjectData.name (Component.subjectProgress (App.ui app))) ->
  (i < length (Component.subjectProgress (App.ui app)))%nat ->
  let clicked := (updateQuestions (Some userId) i type change app).2 in
  let snapshot := Component.subjectProgress (App.ui clicked) in
  exists record,
    Firestore.dailyHistory (App.db clicked)
      !! dailyDocId userId (Component.selectedDate (App.ui app))
    = Some record
    /\ forall s, s ∈ snapshot ->
         calculateAllTimeStats snapshot [record] !! SubjectData.name s
         = Some
             (Stats.Build (2 * SubjectData.correct s)
                (2 * SubjectData.wrong s) (2 * SubjectData.empty s)
                (2 * answered s)).
Proof.
  intros Hf Hnames Hi.
  apply lookup_lt_is_Some_2 in Hi as [s0 Hs0].
  destruct (bumpProgress_is_Some _ i type change (ex_intro _ _ Hs0))
    as [np Hb].
  destruct (updateQuestions_stored userId i type change app np Hf Hb Hnames)
    as (Hui & record & Hrecord & _ & Hentries).
  cbv zeta. rewrite Hui. cbn [afterUpdate Component.subjectProgress
    Component.setTotalQuestions Component.setSubjectProgress].
  exists record. split; [exact Hrecord|].
  intros s Hin. unfold calculateAllTimeStats.
  rewrite rollup_lookup, lastNamed_unique; [|clear Hin|done].
  - destruct (Hentries s Hin) as (e & He & Hc & Hw & Hem & Ht).
    simpl. unfold rollupOf, sumOver, entryOf. simpl. rewrite He. simpl.
    rewrite Hc, Hw, Hem, Ht. simpl. unfold answered. f_equal. f_equal; lia.
  - pose proof (bumpProgress_structure _ _ _ _ _ Hb) as Hnp.
    rewrite <- structureOf_names, Hnp, structureOf_names. exact Hnames.
Qed.

Lemma selected_day_counted_twice_witness :
  let matematik :=
    SubjectData.Build "Matematik" "🔢" 5 2 0 15 "bg-blue-500" in
  let app :=
    App.Build (Component.Build [matematik] [] 7 15 false false "2024-01-15")
      (Firestore.Build ∅ ∅ ∅ 0 "2024-01-15" [] []) in
  let clicked := (updateQuestions (Some "u1") 0 Correct 1 app).2 in
  exists record,
    Firestore.dailyHistory (App.db clicked) !! "u1_2024-01-15" = Some record
    /\ calculateAllTimeStats (Component.subjectProgress (App.ui clicked))
         [record] !! "Matematik"
       = Some (Stats.Build 12 4 0 16).
Proof.
  intros matematik app clicked.
  destruct (selected_day_counted_twice "u1" 0%nat Correct 1 app)
    as (record & Hrecord & Htwice).
  - reflexivity.
  - simpl. apply NoDup_cons. split; [set_solver|apply NoDup_nil_2].
  - simpl. lia.
  - exists record. split; [exact Hrecord|].
    apply (Htwice (SubjectData.Build "Matematik" "🔢" 6 2 0 15 "bg-blue-500")).
    apply list_elem_of_here.
Defined.

(** ** The saving timer's callback *)

(** X11: [saveProgress] writes nothing when nobody is signed in, when its
    closure was made while data was loading, or when its closure holds no
    subjects: it makes no request and leaves the application as it is.
    Otherwise it makes exactly one request, a replacement of the user's
    progress document by the closure's subjects (counters included) and
    total target; it ends normally even when the store refuses the write
    (then no document changes), leaves [saveLoading] false and does not
    touch the snapshot. *)
Theorem saveProgress_behaviour currentUser closure app :
  (currentUser = None \/ Component.dataLoading closure = true
   \/ Component.subjectProgress closure = [] ->
   saveProgress currentUser closure app = (Ok tt, app))
  /\ (forall userId,
      currentUser = Some userId ->
      Component.dataLoading closure = false ->
      Component.subjectProgress closure <> [] ->
      let saved := saveProgress currentUser closure app in
      saved.1 = Ok tt
      /\ Firestore.calls (App.db saved.2)
         = Firestore.calls (App.db app) ++ [progressSaveOf userId closure]
      /\ Component.saveLoading (App.ui saved.2) = false
      /\ snapshotKept (App.ui app) (App.ui saved.2)
      /\ Firestore.dailyHistory (App.db saved.2)
         = Firestore.dailyHistory (App.db app)
      /\ (failing (App.db app) = false ->
          exists doc,
            Firestore.userProgress (App.db saved.2) !! userId = Some doc
            /\ UserProgress.subjects doc = Component.subjectProgress closure
            /\ UserProgress.totalTarget doc = Component.totalTarget closure)
      /\ (failing (App.db app) = true ->
          Firestore.userProgress (App.db saved.2)
          = Firestore.userProgress (App.db app))).
Proof.
  split.
  - unfold saveProgress. intros [->|[Hload|Hempty]]; [done| |].
    + destruct currentUser; [|done]. by rewrite Hload.
    + destruct currentUser; [|done]. rewrite Hempty. simpl.
      by rewrite orb_true_r.
  - intros userId -> Hready Hsubjects. cbv zeta.
    unfold saveProgress. rewrite Hready. simpl.
    rewrite bool_decide_eq_false_2
      by (by destruct (Component.subjectProgress closure)).
    unfold tryFinally, tryCatch, bind, service, setState, modify, ret.
    simpl. rewrite saveUserProgress_run. cbv zeta.
    destruct (failing (App.db app)); simpl.
    + repeat split; try done. 
    + repeat split; try done.
      intros _. eexists. split; [by rewrite lookup_insert_eq|done].
Qed.

Lemma saveProgress_behaviour_witness :
  let matematik :=
    SubjectData.Build "Matematik" "🔢" 5 2 0 15 "bg-blue-500" in
  let ready := Component.Build [matematik] [] 7 15 false false "2024-01-15" in
  let loading := Component.Build [matematik] [] 7 15 true false "2024-01-15" in
  let app :=
    App.Build ready (Firestore.Build ∅ ∅ ∅ 0 "2024-01-15" [true] []) in
  saveProgress (Some "u1") loading app = (Ok tt, app)
  /\ (saveProgress (Some "u1") ready app).1 = Ok tt
  /\ Firestore.userProgress (App.db (saveProgress (Some "u1") ready app).2)
     = ∅.
Proof.
  intros matematik ready loading app.
  destruct (saveProgress_behaviour (Some "u1") loading app) as [Hskip _].
  destruct (saveProgress_behaviour (Some "u1") ready app) as [_ Hsave].
  split; [apply Hskip; right; left; reflexivity|].
  destruct (Hsave "u1" eq_refl eq_refl ltac:(discriminate))
    as (Hok & _ & _ & _ & _ & _ & Hfail).
  split; [exact Hok|]. apply Hfail. reflexivity.
Defined.

(** ** Mutations that are not persisted *)

(** X12: [updateQuestions] updates the snapshot first and never reports a
    failed save.  With nobody signed in it makes no request at all; with
    a signed-in user and a store that refuses the write it still ends
    normally with the bumped snapshot, having made its one request, while
    the stored daily records are unchanged, so the snapshot and the store
    disagree. *)
Theorem updateQuestions_optimistic i type change app newProgress :
  bumpProgress (Component.subjectProgress (App.ui app)) i type change
  = Some newProgress ->
  updateQuestions None i type change app
  = (Ok tt, App.Build (afterUpdate newProgress (App.ui app)) (App.db app))
  /\ (forall userId,
      failing (App.db app) = true ->
      let clicked := updateQuestions (Some userId) i type change app in
      clicked.1 = Ok tt
      /\ App.ui clicked.2 = afterUpdate newProgress (App.ui app)
      /\ Firestore.dailyHistory (App.db clicked.2)
         = Firestore.dailyHistory (App.db app)
      /\ Firestore.calls (App.db clicked.2)
         = Firestore.calls (App.db app)
           ++ [upsertOf userId (afterUpdate newProgress (App.ui app))]).
Proof.
  intros Hb. split.
  - unfold updateQuestions, bind, gets, setState, modify, ret.
    by rewrite Hb.
  - intros userId Hf. cbv zeta.
    rewrite (updateQuestions_signed_in userId _ _ _ _ _ Hb).
    rewrite saveDailyProgressForDate_run. cbv zeta. rewrite Hf.
    by repeat split.
Qed.

Lemma updateQuestions_optimistic_witness :
  let matematik :=
    SubjectData.Build "Matematik" "🔢" 5 2 0 15 "bg-blue-500" in
  let app :=
    App.Build (Component.Build [matematik] [] 7 15 false false "2024-01-15")
      (Firestore.Build ∅ ∅ ∅ 0 "2024-01-15" [true] []) in
  let clicked := updateQuestions (Some "u1") 0 Correct 1 app in
  clicked.1 = Ok tt
  /\ Component.totalQuestions (App.ui clicked.2) = 8
  /\ Firestore.dailyHistory (App.db clicked.2) = ∅.
Proof.
  intros matematik app clicked.
  destruct (updateQuestions_optimistic 0%nat Correct 1 app
              [SubjectData.Build "Matematik" "🔢" 6 2 0 15 "bg-blue-500"]
              eq_refl) as [_ Hfail].
  destruct (Hfail "u1" eq_refl) as (Hok & Hui & Hstore & _).
  split; [exact Hok|]. split; [|exact Hstore].
  subst clicked. rewrite Hui. reflexivity.
Defined.

(** ** More on loading *)

Section LoadStore.

(** The store facts of one way through a load. *)
Ltac store_facts :=
  simpl; split; [done|]; split; [done|];
  split; [intros ? ? [= <-] ?; first [done | congruence]|];
  split;
    [intros ? ?; rewrite ?lookup_insert_ne by congruence; done
    |by intros _].

(** What a load does to the store and to the loading flag, in every
    case. *)
Lemma loadUserDataForDate_store currentUser dateString app :
  let after := (loadUserDataForDate currentUser dateString app).2 in
  Firestore.dailyHistory (App.db after) = Firestore.dailyHistory (App.db app)
  /\ Firestore.userSettings (App.db after)
     = Firestore.userSettings (App.db app)
  /\ (forall userId catalog,
      currentUser = Some userId ->
      Firestore.userProgress (App.db app) !! userId = Some catalog ->
      Firestore.userProgress (App.db after)
      = Firestore.userProgress (App.db app))
  /\ (forall other,
      currentUser <> Some other ->
      Firestore.userProgress (App.db after) !! other
      = Firestore.userProgress (App.db app) !! other)
  /\ (is_Some currentUser ->
      Component.dataLoading (App.ui after) = false).
Proof.
  cbv zeta. destruct currentUser as [uid|].
  2:{ simpl. repeat split; first [done | by intros []]. }
  unfold loadUserDataForDate, tryFinally, tryCatch, bind, service, setState,
    modify, ret.
  simpl. rewrite getUserProgress_run.
  destruct (failing (App.db app)); [store_facts|].
  destruct (Firestore.userProgress (App.db app) !! uid) as [up|] eqn:Hup.
  - simpl. rewrite getDailyProgressForDate_run. simpl.
    rewrite getUserDailyHistory_run. store_facts.
  - simpl. rewrite initializeUserProgress_run. cbv zeta. simpl.
    destruct (failing (sent _ (App.db app)));
      [simpl; rewrite getUserDailyHistory_run; store_facts|].
    rewrite Hup, saveUserProgress_run. cbv zeta.
    destruct (failing (sent _ (sent _ (App.db app))));
      [simpl; rewrite getUserDailyHistory_run; store_facts|].
    simpl. rewrite getUserProgress_run.
    destruct (failing _);
      [simpl; rewrite getUserDailyHistory_run; store_facts|].
    simpl. rewrite lookup_insert_eq. simpl.
    rewrite getDailyProgressForDate_run. simpl.
    rewrite getUserDailyHistory_run. store_facts.
Qed.

End LoadStore.

(** X13: [loadUserDataForDate] never throws; with nobody signed in it
    does nothing at all; for a signed-in user it always ends with
    [dataLoading] false.  It never writes to the daily records or the
    settings, never changes a catalog that exists, and never touches the
    catalog of another user. *)
Theorem loadUserDataForDate_safe currentUser dateString app :
  let after := (loadUserDataForDate currentUser dateString app).2 in
  (loadUserDataForDate currentUser dateString app).1 = Ok tt
  /\ (currentUser = None -> after = app)
  /\ (is_Some currentUser -> Component.dataLoading (App.ui after) = false)
  /\ Firestore.dailyHistory (App.db after) = Firestore.dailyHistory (App.db app)
  /\ Firestore.userSettings (App.db after)
     = Firestore.userSettings (App.db app)
  /\ (forall userId catalog,
      currentUser = Some userId ->
      Firestore.userProgress (App.db app) !! userId = Some catalog ->
      Firestore.userProgress (App.db after)
      = Firestore.userProgress (App.db app))
  /\ (forall other,
      currentUser <> Some other ->
      Firestore.userProgress (App.db after) !! other
      = Firestore.userProgress (App.db app) !! other).
Proof.
  cbv zeta.
  destruct (loadUserDataForDate_outcome currentUser dateString app)
    as [Hok _].
  destruct (loadUserDataForDate_store currentUser dateString app)
    as (Hdaily & Hsettings & Hcatalog & Hothers & Hflag).
  split; [exact Hok|]. split; [by intros ->|].
  split; [exact Hflag|]. split; [exact Hdaily|]. split; [exact Hsettings|].
  split; [exact Hcatalog|exact Hothers].
Qed.

Lemma loadUserDataForDate_safe_witness :
  let catalog :=
    UserProgress.Build
      [SubjectData.Build "Matematik" "🔢" 9 9 9 15 "bg-blue-500"]
      15 1 (Some "2024-01-14") in
  let app :=
    App.Build (Component.initial "2024-01-15")
      (Firestore.Build {[ "u1" := catalog ]} ∅ ∅ 4 "2024-01-15" [] []) in
  loadUserDataForDate None "2024-01-15" app = (Ok tt, app)
  /\ Component.dataLoading
       (App.ui (loadUserDataForDate (Some "u1") "2024-01-15" app).2) = false
  /\ Firestore.userProgress
       (App.db (loadUserDataForDate (Some "u1") "2024-01-15" app).2)
     = {[ "u1" := catalog ]}.
Proof.
  intros catalog app.
  destruct (loadUserDataForDate_safe None "2024-01-15" app)
    as (Hok & Hout & _).
  destruct (loadUserDataForDate_safe (Some "u1") "2024-01-15" app)
    as (_ & _ & Hflag & _ & _ & Hcatalog & _).
  split.
  - apply injective_projections; [exact Hok|exact (Hout eq_refl)].
  - split; [apply Hflag; by eexists|].
    apply (Hcatalog "u1" catalog eq_refl eq_refl).
Defined.



Section LoadFailures.

Lemma answeredTotal_structureOf subjects :
  answeredTotal (structureOf subjects) = 0.
Proof.
  unfold answeredTotal, structureOf.
  induction subjects as [|s rest IH]; [done|]. simpl. by rewrite IH.
Qed.

End LoadFailures.

(** X15: how a load fails.  When the request for the catalog fails, the
    load stops after that one request: subjects, totals and the history
    shown stay as they were.  When the catalog arrives but the request
    for the date's record fails, the load goes on as if the date had no
    record: every counter of the snapshot is 0 and [totalQuestions] is 0,
    whatever the store holds for that date. *)
Theorem loadUserDataForDate_failures userId dateString app :
  (failing (App.db app) = true ->
   let after := (loadUserDataForDate (Some userId) dateString app).2 in
   snapshotKept (App.ui app) (App.ui after)
   /\ Component.dailyHistory (App.ui after)
      = Component.dailyHistory (App.ui app)
   /\ Firestore.calls (App.db after)
      = Firestore.calls (App.db app) ++ [GetDoc "userProgress" userId])
  /\ (forall catalog,
      failing (App.db app) = false ->
      Firestore.userProgress (App.db app) !! userId = Some catalog ->
      failing (sent (GetDoc "userProgress" userId) (App.db app)) = true ->
      let after := (loadUserDataForDate (Some userId) dateString app).2 in
      Component.subjectProgress (App.ui after)
      = structureOf (UserProgress.subjects catalog)
      /\ Component.totalQuestions (App.ui after) = 0
      /\ Component.totalTarget (App.ui after)
         = UserProgress.totalTarget catalog).
Proof.
  split.
  - intros Hf. cbv zeta.
    unfold loadUserDataForDate, tryFinally, tryCatch, bind, service,
      setState, modify, ret.
    simpl. rewrite getUserProgress_run, Hf. simpl. by repeat split.
  - intros catalog Hf Hcatalog Hf2. cbv zeta.
    rewrite (loadUserDataForDate_found userId dateString app catalog
               Hf Hcatalog).
    rewrite Hf2. simpl. split; [done|]. split; [|done].
    rewrite sumQuestions_answeredTotal.
    apply (answeredTotal_structureOf (UserProgress.subjects catalog)).
Qed.

Lemma loadUserDataForDate_failures_witness :
  let catalog :=
    UserProgress.Build
      [SubjectData.Build "Matematik" "🔢" 9 9 9 15 "bg-blue-500"]
      15 1 (Some "2024-01-14") in
  let record :=
    DailyProgress.Build "2024-01-15"
      {[ "Matematik" := DayEntry.Build 5 2 0 7 None ]} 7 None "u1" 3 in
  let app :=
    App.Build (Component.initial "2024-01-15")
      (Firestore.Build {[ "u1" := catalog ]} ∅
         {[ "u1_2024-01-15" := record ]} 4 "2024-01-15" [false; true] []) in
  Firestore.dailyHistory (App.db app) !! "u1_2024-01-15" = Some record
  /\ Component.subjectProgress
       (App.ui (loadUserDataForDate (Some "u1") "2024-01-15" app).2)
     = [SubjectData.Build "Matematik" "🔢" 0 0 0 15 "bg-blue-500"].
Proof.
  intros catalog record app. split; [reflexivity|].
  destruct (loadUserDataForDate_failures "u1" "2024-01-15" app) as [_ Hrecord].
  destruct (Hrecord catalog eq_refl eq_refl eq_refl) as (Hzeros & _).
  exact Hzeros.
Defined.

(** ** Weekly and all-time rollups compared *)

Section Compare.

Lemma entryOf_Forall (P : DayEntry.t -> Prop) subjectName day :
  P noEntry ->
  map_Forall (fun _ e => P e) (DailyProgress.subjects day) ->
  P (entryOf subjectName day).
Proof.
  intros Hzero Hday. unfold entryOf.
  destruct (DailyProgress.subjects day !! subjectName) as [e|] eqn:He;
    [by apply (Hday subjectName)|done].
Qed.

Lemma sumOver_filter_le field subjectName keep dailyHistory :
  Forall (fun day => 0 <= field (entryOf subjectName day)) dailyHistory ->
  0 <= sumOver field subjectName (List.filter keep dailyHistory)
  <= sumOver field subjectName dailyHistory.
Proof.
  unfold sumOver. induction 1 as [|day rest Hday _ IH]; simpl; [lia|].
  destruct (keep day); simpl; lia.
Qed.

Lemma Forall_filter_list {A} (P : A -> Prop) (keep : A -> bool) l :
  Forall P l -> Forall P (List.filter keep l).
Proof.
  induction 1 as [|x rest Hx _ IH]; simpl; [done|].
  destruct (keep x); [by constructor|done].
Qed.

Lemma filter_all {A} (keep : A -> bool) l :
  Forall (fun x => keep x = true) l -> List.filter keep l = l.
Proof.
  induction 1 as [|x rest Hx _ IH]; [done|]. simpl. by rewrite Hx, IH.
Qed.

End Compare.

(** X16: with no negative field in the history, the weekly stats of every
    name lie, field by field, between the snapshot's own counts and the
    all-time stats; both rollups have entries for exactly the same names;
    and they coincide when every record of the history is inside the
    weekly window. *)
Theorem weekly_within_allTime zone now subjectProgress dailyHistory :
  historyNonNegative dailyHistory ->
  let weekly :=
    calculateWeeklyStats zone now subjectProgress dailyHistory in
  let allTime := calculateAllTimeStats subjectProgress dailyHistory in
  dom weekly = dom allTime
  /\ (forall subjectName w,
      weekly !! subjectName = Some w ->
      exists seed a,
        seedStats subjectProgress !! subjectName = Some seed
        /\ allTime !! subjectName = Some a
        /\ statsLe seed w /\ statsLe w a)
  /\ (Forall (fun day => inLastWeek zone now day = true) dailyHistory ->
      weekly = allTime).
Proof.
  intros Hhistory weekly allTime. subst weekly allTime.
  unfold calculateWeeklyStats, calculateAllTimeStats.
  split.
  { apply set_eq. intros n. rewrite !elem_of_dom, !rollup_lookup.
    by rewrite !fmap_is_Some. }
  split; [|intros Hall; by rewrite filter_all].
  intros n w. rewrite !rollup_lookup, seedStats_lookup.
  destruct (lastNamed n subjectProgress) as [s|] eqn:Hl; [|done].
  simpl. intros [= <-]. eexists _, _. split; [done|]. split; [done|].
  assert (Hfield : forall field,
            (field noEntry = 0) ->
            (forall e, (0 <= DayEntry.correct e /\ 0 <= DayEntry.wrong e
                        /\ 0 <= DayEntry.empty e /\ 0 <= DayEntry.total e) ->
                       0 <= field e) ->
            0 <= sumOver field (SubjectData.name s)
                   (List.filter (inLastWeek zone now) dailyHistory)
            <= sumOver field (SubjectData.name s) dailyHistory).
  { intros field Hzero Hpos. apply sumOver_filter_le.
    eapply Forall_impl; [exact Hhistory|]. intros day Hday. simpl in Hday.
    apply (entryOf_Forall (fun e => 0 <= field e)); [by rewrite Hzero|].
    intros k e He. apply Hpos. by apply (Hday k). }
  pose proof (Hfield DayEntry.correct eq_refl ltac:(naive_solver)).
  pose proof (Hfield DayEntry.wrong eq_refl ltac:(naive_solver)).
  pose proof (Hfield DayEntry.empty eq_refl ltac:(naive_solver)).
  pose proof (Hfield DayEntry.total eq_refl ltac:(naive_solver)).
  unfold statsLe, rollupOf, statsOf, answered; simpl. lia.
Qed.

Lemma weekly_within_allTime_witness :
  let now := 1705320000000 in
  let matematik :=
    SubjectData.Build "Matematik" "🔢" 5 2 0 15 "bg-blue-500" in
  let day (date : string) :=
    DailyProgress.Build date
      {[ "Matematik" := DayEntry.Build 3 1 1 5 None ]} 5 None "u1" 1 in
  let history := [day "2024-01-14"; day "2024-01-02"] in
  calculateWeeklyStats TimeZone.utc now [matematik] history !! "Matematik"
  = Some (Stats.Build 8 3 1 12)
  /\ exists a,
       calculateAllTimeStats [matematik] history !! "Matematik" = Some a
       /\ statsLe (Stats.Build 8 3 1 12) a.
Proof.
  intros now matematik day history.
  assert (Hweekly :
    calculateWeeklyStats TimeZone.utc now [matematik] history !! "Matematik"
    = Some (Stats.Build 8 3 1 12)) by (vm_compute; reflexivity).
  split; [exact Hweekly|].
  destruct (weekly_within_allTime TimeZone.utc now [matematik] history)
    as (_ & Hle & _).
  - repeat (constructor; [apply map_Forall_singleton; simpl; lia|]).
    constructor.
  - destruct (Hle "Matematik" _ Hweekly) as (seed & a & _ & Ha & _ & Hwa).
    exists a. split; [exact Ha|exact Hwa].
Defined.

(** X17: the [total] of a rollup entry is the sum of its three counters
    whenever this holds for every entry of the history, and it does hold
    for every entry that [updateQuestions] writes; the rollups add the
    stored totals, they do not recompute them. *)
Theorem rollup_totals_agree zone now subjectProgress dailyHistory :
  (forall selectedDate newProgress newTotal,
     map_Forall
       (fun _ e =>
          DayEntry.total e
          = DayEntry.correct e + DayEntry.wrong e + DayEntry.empty e)
       (ProgressForDate.subjects
          (progressForDate selectedDate newProgress newTotal)))
  /\ (historyTotalsAgree dailyHistory ->
      forall subjectName stats,
        calculateAllTimeStats subjectProgress dailyHistory !! subjectName
        = Some stats
        \/ calculateWeeklyStats zone now subjectProgress dailyHistory
             !! subjectName = Some stats ->
        Stats.total stats
        = Stats.correct stats + Stats.wrong stats + Stats.empty stats).
Proof.
  split.
  - intros selectedDate newProgress newTotal n e. simpl.
    rewrite fold_insert_lookup.
    destruct (lastNamed n newProgress); [|done]. by intros [= <-].
  - intros Hagree n stats.
    assert (Hpart : forall history,
              historyTotalsAgree history ->
              fold_left addDay history (seedStats subjectProgress) !! n
              = Some stats ->
              Stats.total stats
              = Stats.correct stats + Stats.wrong stats + Stats.empty stats).
    { intros history Hhistory. rewrite rollup_lookup.
      destruct (lastNamed n subjectProgress) as [s|]; [|done].
      simpl. intros [= <-]. unfold rollupOf, answered; simpl.
      assert (Hsum :
        sumOver DayEntry.total (SubjectData.name s) history
        = sumOver DayEntry.correct (SubjectData.name s) history
          + sumOver DayEntry.wrong (SubjectData.name s) history
          + sumOver DayEntry.empty (SubjectData.name s) history).
      { unfold sumOver.
        induction Hhistory as [|day rest Hday _ IH]; simpl; [done|].
        rewrite IH.
        pose proof (entryOf_Forall
                      (fun e => DayEntry.total e
                                = DayEntry.correct e + DayEntry.wrong e
                                  + DayEntry.empty e)
                      (SubjectData.name s) day eq_refl Hday).
        simpl in *. lia. }
      lia. }
    intros [Hall|Hweek].
    + by apply (Hpart dailyHistory).
    + apply (Hpart (List.filter (inLastWeek zone now) dailyHistory)); [|done].
      by apply Forall_filter_list.
Qed.

Lemma rollup_totals_agree_witness :
  let matematik :=
    SubjectData.Build "Matematik" "🔢" 5 2 0 15 "bg-blue-500" in
  let record :=
    DailyProgress.Build "2024-01-14"
      {[ "Matematik" := DayEntry.Build 3 1 1 5 None ]} 5 None "u1" 1 in
  exists stats,
    calculateAllTimeStats [matematik] [record] !! "Matematik" = Some stats
    /\ Stats.total stats
       = Stats.correct stats + Stats.wrong stats + Stats.empty stats.
Proof.
  intros matematik record.
  exists (Stats.Build 8 3 1 12). split; [vm_compute; reflexivity|].
  apply (proj2 (rollup_totals_agree TimeZone.utc 0 [matematik] [record]))
    with "Matematik".
  - constructor; [|constructor]. apply map_Forall_singleton. reflexivity.
  - left. vm_compute. reflexivity.
Defined.

(** ** The check of the environment *)

Section Environment.

Lemma isFalsy_spec value :
  isFalsy value = false <-> exists v, value = Some v /\ v <> "".
Proof.
  destruct value as [[|c v]|]; simpl; split; try done.
  - intros (v & [= <-] & Hv). done.
  - intros _. by eexists.
  - by intros (v & ? & _).
Qed.

Lemma missingVars_elem env key :
  key ∈ missingVars env
  <-> key ∈ requiredKeys /\ isFalsy (env !! key) = true.
Proof.
  unfold missingVars, requiredEnvVars. rewrite list_elem_of_In, in_map_iff.
  split.
  - intros ([k v] & <- & Hin). apply filter_In in Hin as [Hin Hfalsy].
    apply in_map_iff in Hin as (k' & [= <- <-] & Hk).
    split; [by apply list_elem_of_In|done].
  - intros [Hk Hfalsy]. exists (key, env !! key). split; [done|].
    apply filter_In. split; [|done].
    apply in_map_iff. exists key. split; [done|by apply list_elem_of_In].
Qed.

End Environment.

(** X18: the Firebase module loads exactly when each of the six required
    variables is set to a non-empty string; a variable is named in the
    error exactly when it is required and unset or empty; and the
    measurement id, though read into the configuration, plays no part in
    the check. *)
Theorem firebase_env_check env :
  (missingVarsError env = None
   <-> forall key, key ∈ requiredKeys ->
                   exists v, env !! key = Some v /\ v <> "")
  /\ (forall key,
      key ∈ missingVars env
      <-> key ∈ requiredKeys /\ (env !! key = None \/ env !! key = Some ""))
  /\ (forall value,
      missingVarsError
        (<["NEXT_PUBLIC_FIREBASE_MEASUREMENT_ID" := value]> env)
      = missingVarsError env)
  /\ missingVarsError (delete "NEXT_PUBLIC_FIREBASE_MEASUREMENT_ID" env)
     = missingVarsError env.
Proof.
  assert (Hnone : missingVarsError env = None <-> missingVars env = []).
  { unfold missingVarsError. by destruct (missingVars env). }
  split.
  { rewrite Hnone. split.
    - intros Hempty key Hkey. apply isFalsy_spec.
      destruct (isFalsy (env !! key)) eqn:Hfalsy; [|done].
      assert (Hin : key ∈ missingVars env) by (by apply missingVars_elem).
      rewrite Hempty in Hin. by apply elem_of_nil in Hin.
    - intros Hall. destruct (missingVars env) as [|key rest] eqn:Hm; [done|].
      assert (Hin : key ∈ missingVars env) by (rewrite Hm; left).
      apply missingVars_elem in Hin as [Hkey Hfalsy].
      apply Hall, isFalsy_spec in Hkey. congruence. }
  split.
  { intros key. rewrite missingVars_elem.
    assert (Hf : isFalsy (env !! key) = true
                 <-> env !! key = None \/ env !! key = Some "").
    { destruct (env !! key) as [[|c v]|]; simpl; naive_solver. }
    by rewrite Hf. }
  split.
  - intros value. unfold missingVarsError, missingVars, requiredEnvVars.
    simpl. by rewrite !lookup_insert_ne.
  - unfold missingVarsError, missingVars, requiredEnvVars.
    simpl. by rewrite !lookup_delete_ne.
Qed.

Lemma firebase_env_check_witness :
  let env : gmap string string :=
    {[ "NEXT_PUBLIC_FIREBASE_API_KEY" := "key";
       "NEXT_PUBLIC_FIREBASE_AUTH_DOMAIN" := "";
       "NEXT_PUBLIC_FIREBASE_PROJECT_ID" := "soru";
       "NEXT_PUBLIC_FIREBASE_STORAGE_BUCKET" := "bucket";
       "NEXT_PUBLIC_FIREBASE_APP_ID" := "app" ]} in
  missingVarsError env
  = Some ("Missing required Firebase environment variables: "
          +:+ "NEXT_PUBLIC_FIREBASE_AUTH_DOMAIN, "
          +:+ "NEXT_PUBLIC_FIREBASE_MESSAGING_SENDER_ID"
          +:+ ". Please check your .env.local file.")
  /\ "NEXT_PUBLIC_FIREBASE_AUTH_DOMAIN" ∈ missingVars env.
Proof.
  intros env. split; [vm_compute; reflexivity|].
  apply (proj1 (proj2 (firebase_env_check env))).
  split; [|right; reflexivity].
  unfold requiredKeys. set_solver.
Defined.

(** ** What a mutation leaves alone *)

(** X20: an [updateQuestions] call on a subject of the snapshot changes
    one counter of that subject and nothing else of the snapshot: the
    other subjects, and the name, icon, target, colour and other two
    counters of the subject itself, are as before, as are the total
    target, the selected date and the history shown; the total moves by
    exactly the change of the counter; and in the store only daily
    records can change. *)
Theorem updateQuestions_frame currentUser i type change app subject :
  Component.subjectProgress (App.ui app) !! i = Some subject ->
  totalsAgree (App.ui app) ->
  let clicked := (updateQuestions currentUser i type change app).2 in
  let ui := App.ui app in
  let ui' := App.ui clicked in
  let value := Z.max 0 (getCount type subject + change) in
  Component.subjectProgress ui' !! i = Some (setCount type value subject)
  /\ structureOf (Component.subjectProgress ui')
     = structureOf (Component.subjectProgress ui)
  /\ (forall type', type' <> type ->
      getCount type' (setCount type value subject) = getCount type' subject)
  /\ (forall j, j <> i ->
      Component.subjectProgress ui' !! j = Component.subjectProgress ui !! j)
  /\ Component.totalQuestions ui'
     = Component.totalQuestions ui + (value - getCount type subject)
  /\ Component.totalTarget ui' = Component.totalTarget ui
  /\ Component.selectedDate ui' = Component.selectedDate ui
  /\ Component.dailyHistory ui' = Component.dailyHistory ui
  /\ Firestore.userProgress (App.db clicked)
     = Firestore.userProgress (App.db app)
  /\ Firestore.userSettings (App.db clicked)
     = Firestore.userSettings (App.db app).
Proof.
  intros Hs Hinv. cbv zeta.
  destruct (bumpProgress_is_Some _ i type change (ex_intro _ _ Hs))
    as [np Hb].
  assert (Hui : App.ui (updateQuestions currentUser i type change app).2
                = afterUpdate np (App.ui app)).
  { by destruct (updateQuestions_ok currentUser _ _ _ _ _ Hb) as [db' ->]. }
  assert (Hdb :
    Firestore.userProgress
      (App.db (updateQuestions currentUser i type change app).2)
    = Firestore.userProgress (App.db app)
    /\ Firestore.userSettings
         (App.db (updateQuestions currentUser i type change app).2)
       = Firestore.userSettings (App.db app)).
  { destruct currentUser as [uid|].
    - rewrite (updateQuestions_signed_in uid _ _ _ _ _ Hb).
      rewrite saveDailyProgressForDate_run. cbv zeta.
      by destruct (failing _).
    - unfold updateQuestions, bind, gets, setState, modify, ret.
      by rewrite Hb. }
  rewrite Hui. unfold afterUpdate. simpl.
  split; [by apply (bumpProgress_lookup _ _ _ _ _ _ Hs Hb)|].
  split; [by eapply bumpProgress_structure|].
  split; [intros type' Hne; by apply getCount_setCount_ne|].
  split.
  { intros j Hj.
    by apply (bumpProgress_lookup_ne _ i j _ _ _ (not_eq_sym Hj) Hb). }
  split; [|split; [done|]; split; [done|]; split; [done|]; exact Hdb].
  rewrite sumQuestions_answeredTotal, Hinv.
  unfold bumpProgress in Hb. rewrite Hs in Hb. injection Hb as <-.
  clear Hui Hdb Hinv. unfold answeredTotal.
  revert i Hs.
  induction (Component.subjectProgress (App.ui app)) as [|s rest IH];
    intros [|i] Hs; simpl in *; try done.
  - injection Hs as ->. unfold answered. destruct type; simpl; lia.
  - rewrite (IH i Hs). lia.
Qed.

Lemma updateQuestions_frame_witness :
  let matematik :=
    SubjectData.Build "Matematik" "🔢" 5 2 0 15 "bg-blue-500" in
  let tarih := SubjectData.Build "Tarih" "🌍" 1 0 0 8 "bg-green-500" in
  let app :=
    App.Build
      (Component.Build [matematik; tarih] [] 8 23 false false "2024-01-15")
      (Firestore.Build ∅ ∅ ∅ 0 "2024-01-15" [] []) in
  let ui' := App.ui (updateQuestions (Some "u1") 1 Wrong (-1) app).2 in
  Component.subjectProgress ui' !! 0%nat = Some matematik
  /\ Component.totalQuestions ui' = 8.
Proof.
  intros matematik tarih app ui'.
  destruct (updateQuestions_frame (Some "u1") 1%nat Wrong (-1) app tarih
              eq_refl eq_refl)
    as (_ & _ & _ & Hothers & Htotal & _).
  split; [apply (Hothers 0%nat); lia|exact Htotal].
Defined.

(** ** Initialisers that fail *)

(** X21: the initialisers write only after a successful read that found
    no document.  When the read fails they throw to the caller after that
    one request; when the read finds nothing and the write fails they
    throw after the two requests; in both cases every collection is as
    before. *)
Theorem initialisers_surface_failures userId db :
  (failing db = true ->
   (initializeUserProgress userId db).1 = Throw FirestoreError
   /\ Firestore.userProgress (initializeUserProgress userId db).2
      = Firestore.userProgress db
   /\ Firestore.calls (initializeUserProgress userId db).2
      = Firestore.calls db ++ [GetDoc "userProgress" userId]
   /\ (initializeUserSettings userId db).1 = Throw FirestoreError
   /\ Firestore.userSettings (initializeUserSettings userId db).2
      = Firestore.userSettings db
   /\ Firestore.calls (initializeUserSettings userId db).2
      = Firestore.calls db ++ [GetDoc "userSettings" userId])
  /\ (failing db = false ->
      failing (sent (GetDoc "userProgress" userId) db) = true ->
      Firestore.userProgress db !! userId = None ->
      (initializeUserProgress userId db).1 = Throw FirestoreError
      /\ Firestore.userProgress (initializeUserProgress userId db).2
         = Firestore.userProgress db
      /\ Firestore.calls (initializeUserProgress userId db).2
         = Firestore.calls db
           ++ [ GetDoc "userProgress" userId;
                SetDoc "userProgress" userId
                  (ProgressData defaultSubjects 60) ])
  /\ (failing db = false ->
      failing (sent (GetDoc "userSettings" userId) db) = true ->
      Firestore.userSettings db !! userId = None ->
      (initializeUserSettings userId db).1 = Throw FirestoreError
      /\ Firestore.userSettings (initializeUserSettings userId db).2
         = Firestore.userSettings db
      /\ Firestore.calls (initializeUserSettings userId db).2
         = Firestore.calls db
           ++ [ GetDoc "userSettings" userId;
                SetDoc "userSettings" userId
                  (SettingsData defaultSubjects 60) ]).
Proof.
  split; [|split].
  - intros Hf. rewrite initializeUserProgress_run,
      initializeUserSettings_run. cbv zeta. rewrite Hf. by repeat split.
  - intros Hf Hf2 Hnone. rewrite initializeUserProgress_run. cbv zeta.
    rewrite Hf, Hnone, saveUserProgress_run. cbv zeta. rewrite Hf2. simpl.
    split; [done|]. split; [done|]. by rewrite <- app_assoc.
  - intros Hf Hf2 Hnone. rewrite initializeUserSettings_run. cbv zeta.
    rewrite Hf, Hnone, saveUserSettings_run. cbv zeta.
    rewrite Hf2. simpl.
    split; [done|]. split; [done|]. by rewrite <- app_assoc.
Qed.

Lemma initialisers_surface_failures_witness :
  let db := Firestore.Build ∅ ∅ ∅ 0 "2024-01-15" [false; true] [] in
  (initializeUserProgress "u1" db).1 = Throw FirestoreError
  /\ Firestore.userProgress (initializeUserProgress "u1" db).2 = ∅.
Proof.
  intros db.
  destruct (initialisers_surface_failures "u1" db) as (_ & Hwrite & _).
  destruct (Hwrite eq_refl eq_refl eq_refl) as (Hthrow & Hstore & _).
  split; [exact Hthrow|exact Hstore].
Defined.

(** ** Document keys *)

Section Keys.

Lemma dailyDocId_cons c userId date :
  dailyDocId (String c userId) date = String c (dailyDocId userId date).
Proof. reflexivity. Qed.

Lemma dailyDocId_nil date : dailyDocId "" date = String "_" date.
Proof. reflexivity. Qed.

End Keys.

(** X22: for user ids without an underscore, as Firebase issues them,
    the key [`${userId}_${date}`] determines the user and the date, so
    that two different pairs never share a daily record; with an
    underscore in the user id two different pairs can share one. *)
Theorem dailyDocId_injective userId1 userId2 date1 date2 :
  (noUnderscore userId1 -> noUnderscore userId2 ->
   dailyDocId userId1 date1 = dailyDocId userId2 date2 ->
   userId1 = userId2 /\ date1 = date2)
  /\ dailyDocId "a_b" "c" = dailyDocId "a" "b_c".
Proof.
  split; [|reflexivity].
  revert userId2. induction userId1 as [|c1 rest1 IH];
    intros [|c2 rest2] Hno1 Hno2.
  - rewrite !dailyDocId_nil. by intros [= ->].
  - rewrite dailyDocId_nil, dailyDocId_cons. intros [= <- _].
    by destruct Hno2.
  - rewrite dailyDocId_nil, dailyDocId_cons. intros [= -> _].
    by destruct Hno1.
  - rewrite !dailyDocId_cons. intros [= -> Hrest].
    destruct Hno1 as [_ Hno1], Hno2 as [_ Hno2].
    destruct (IH rest2 Hno1 Hno2 Hrest) as [-> ->]. done.
Qed.

Lemma dailyDocId_injective_witness :
  noUnderscore "uid1"
  /\ ("uid1" = "uid1" /\ "2024-01-15" = "2024-01-15").
Proof.
  assert (Hno : noUnderscore "uid1") by (simpl; repeat split; discriminate).
  split; [exact Hno|].
  apply (proj1 (dailyDocId_injective "uid1" "uid1" "2024-01-15" "2024-01-15")
           Hno Hno).
  reflexivity.
Defined.
